(** * Quiz performance analysis and rank prediction

    A shallow embedding of the analysis engine: the statistical helpers of
    the data-processing utilities, the procedural analyzer of the server,
    and the two services [QuizAnalyzer] and [RankPredictor].

    JavaScript numbers are idealised: a finite number is an exact rational
    kept in lowest terms, and the three IEEE special values [Infinity],
    [-Infinity] and [NaN] are explicit, so that an unguarded division by
    zero is visible in a result.  Rounding error of binary floating point
    and the sign of zero are outside the model. *)

From Stdlib Require Import ZArith QArith Qround Qabs Qreduction Qcanon.
From Stdlib Require Import List String Bool Lia Lqa Sorted.
From Stdlib Require Import DecimalString Permutation.
Import ListNotations.

Local Open Scope Q_scope.

(* ================================================================== *)
(** ** JavaScript numbers, arrays and plain objects                   *)
(* ================================================================== *)

Module JS.

Inductive num : Type :=
| Fin (q : Q)
| PInf
| NInf
| NaN.

(** Every arithmetic result is stored in lowest terms, so that two finite
    results are equal exactly when they denote the same rational.
    Arithmetic is exact: the rounding of a result to the nearest double
    and its overflow to an infinity are not part of the model, and the
    statements that would depend on them restrict their inputs (see
    [Measures.far_from_overflow] and [Measures.integer_between]). *)
Definition fin (q : Q) : num := Fin (Qred q).

Definition of_Z (z : Z) : num := Fin (inject_Z z).
Definition of_nat (n : nat) : num := of_Z (Z.of_nat n).

Definition zero : num := of_Z 0.
Definition one : num := of_Z 1.

Definition is_nan (x : num) : bool :=
  match x with NaN => true | _ => false end.

Definition is_finite (x : num) : bool :=
  match x with Fin _ => true | _ => false end.

Definition neg (x : num) : num :=
  match x with
  | Fin q => fin (- q)
  | PInf => NInf
  | NInf => PInf
  | NaN => NaN
  end.

Definition add (x y : num) : num :=
  match x, y with
  | NaN, _ | _, NaN => NaN
  | PInf, NInf | NInf, PInf => NaN
  | PInf, _ | _, PInf => PInf
  | NInf, _ | _, NInf => NInf
  | Fin a, Fin b => fin (a + b)
  end.

Definition sub (x y : num) : num := add x (neg y).

(** Sign of a rational as a comparison with zero. *)
Definition sgn (q : Q) : comparison := q ?= 0.

Definition inf_of (c : comparison) : num :=
  match c with Gt => PInf | Lt => NInf | Eq => NaN end.

Definition flip (c : comparison) : comparison := CompOpp c.

Definition mul (x y : num) : num :=
  match x, y with
  | NaN, _ | _, NaN => NaN
  | Fin a, Fin b => fin (a * b)
  | PInf, Fin b | Fin b, PInf => inf_of (sgn b)
  | NInf, Fin b | Fin b, NInf => inf_of (flip (sgn b))
  | PInf, PInf | NInf, NInf => PInf
  | PInf, NInf | NInf, PInf => NInf
  end.

(** [x / y]: a finite non-zero number over zero is an infinity, zero over
    zero is [NaN]. *)
Definition div (x y : num) : num :=
  match x, y with
  | NaN, _ | _, NaN => NaN
  | Fin a, Fin b =>
      if Qeq_bool b 0 then inf_of (sgn a) else fin (a / b)
  | Fin _, PInf | Fin _, NInf => zero
  | PInf, Fin b => if Qle_bool 0 b then PInf else NInf
  | NInf, Fin b => if Qle_bool 0 b then NInf else PInf
  | _, _ => NaN
  end.

(** [Math.pow(x, n)] for a literal natural exponent. *)
Fixpoint Math_pow (x : num) (n : nat) : num :=
  match n with
  | O => one
  | S k => mul x (Math_pow x k)
  end.

(** Square root of a non-negative rational: exact whenever the root is
    rational, otherwise truncated at 53 fractional bits. *)
Definition Qsqrt (q : Q) : Q :=
  Qmake (Z.sqrt (Qnum q * Zpos (Qden q) * 4 ^ 53)) (Qden q * 2 ^ 53).

Definition Math_sqrt (x : num) : num :=
  match x with
  | Fin q => if Qle_bool 0 q then fin (Qsqrt q) else NaN
  | PInf => PInf
  | NInf | NaN => NaN
  end.

(** [Math.round]: nearest integer, halves towards plus infinity. *)
Definition Math_round (x : num) : num :=
  match x with
  | Fin q => of_Z (Qfloor (q + (1 # 2)))
  | other => other
  end.

Definition Math_abs (x : num) : num :=
  match x with
  | Fin q => fin (Qabs q)
  | PInf | NInf => PInf
  | NaN => NaN
  end.

(** Relational operators: every comparison with [NaN] is false. *)
Definition le (x y : num) : bool :=
  match x, y with
  | NaN, _ | _, NaN => false
  | NInf, _ | _, PInf => true
  | Fin a, Fin b => Qle_bool a b
  | _, _ => false
  end.

Definition lt (x y : num) : bool :=
  match x, y with
  | NaN, _ | _, NaN => false
  | Fin a, Fin b => negb (Qle_bool b a)
  | NInf, NInf | PInf, PInf => false
  | NInf, _ | _, PInf => true
  | _, _ => false
  end.

Definition gt (x y : num) : bool := lt y x.
Definition ge (x y : num) : bool := le y x.

(** [===] on numbers. *)
Definition strict_eq (x y : num) : bool :=
  match x, y with
  | Fin a, Fin b => Qeq_bool a b
  | PInf, PInf | NInf, NInf => true
  | _, _ => false
  end.

Definition Math_max (x y : num) : num :=
  match x, y with
  | NaN, _ | _, NaN => NaN
  | _, _ => if lt x y then y else x
  end.

(** Truthiness of a number: [0] and [NaN] are falsy. *)
Definition truthy (x : num) : bool :=
  match x with
  | Fin q => negb (Qeq_bool q 0)
  | NaN => false
  | _ => true
  end.

(** [x || y] on numbers. *)
Definition or_else (x y : num) : num := if truthy x then x else y.

(** [parseFloat] applied to a value that is already a number. *)
Definition parseFloat (x : num) : num := x.

(** [ToNumber] of a property that may be absent ([undefined]). *)
Definition to_num (o : option num) : num :=
  match o with Some x => x | None => NaN end.

(** A decimal literal [n/d], as in [dec 4 10] for [0.4]. *)
Definition dec (n : Z) (d : positive) : num := fin (n # d).

(** [arr.reduce((a, b) => a + b, 0)]. *)
Definition sum (l : list num) : num := fold_left add l zero.

(** [arr.reduce((acc, x, i) => f(acc, x, i), init)]. *)
Fixpoint reduce_i {A B} (f : B -> A -> nat -> B) (l : list A) (i : nat)
  (acc : B) : B :=
  match l with
  | [] => acc
  | x :: rest => reduce_i f rest (S i) (f acc x i)
  end.

(** [arr[i]] on an array of numbers, in an arithmetic context: an index
    out of range reads [undefined], which is [NaN] as a number. *)
Definition at_index (l : list num) (i : nat) : num := nth i l NaN.

(** [arr.slice(start, end)] for integer bounds, negative ones counted
    from the end. *)
Definition slice {A} (l : list A) (start stop : Z) : list A :=
  let len := Z.of_nat (List.length l) in
  let norm k := if (k <? 0)%Z then Z.max 0 (len + k) else Z.min k len in
  let s := norm start in
  let e := norm stop in
  firstn (Z.to_nat (e - s)) (skipn (Z.to_nat s) l).

(** [arr.sort(cmp)] with a consistent comparator: the stable sort that
    the language prescribes, a [NaN] verdict counting as a tie. *)
Section Sort.
Context {A : Type} (cmp : A -> A -> num).

Definition before (x y : A) : bool := negb (lt zero (cmp x y)).

Fixpoint insert (x : A) (l : list A) : list A :=
  match l with
  | [] => [x]
  | y :: ys => if before x y then x :: y :: ys else y :: insert x ys
  end.

Definition sort (l : list A) : list A := fold_right insert [] l.
End Sort.

(** A plain object used as a dictionary: its own properties in insertion
    order, which is also the order of [Object.entries] for keys that are
    ordinary names (neither array indices nor names inherited from
    [Object.prototype]). *)
Definition obj (V : Type) : Type := list (string * V).

Fixpoint get {V} (k : string) (o : obj V) : option V :=
  match o with
  | [] => None
  | (k', v) :: rest => if String.eqb k k' then Some v else get k rest
  end.

Fixpoint set {V} (k : string) (v : V) (o : obj V) : obj V :=
  match o with
  | [] => [(k, v)]
  | (k', v') :: rest =>
      if String.eqb k k' then (k', v) :: rest else (k', v') :: set k v rest
  end.

Definition keys {V} (o : obj V) : list string := map fst o.

(** [o[k].field = ...] on a property that is present. *)
Definition update {V} (k : string) (f : V -> V) (o : obj V) : obj V :=
  match get k o with
  | Some v => set k (f v) o
  | None => o
  end.

(** [if (!o[k]) o[k] = init], the stored values being objects. *)
Definition ensure {V} (k : string) (init : V) (o : obj V) : obj V :=
  match get k o with
  | Some _ => o
  | None => set k init o
  end.

(** A computation that may throw: the value returned, or the message of
    the error thrown. *)
Inductive result (A : Type) : Type :=
| Ok (a : A)
| Throw (message : string).
Arguments Ok {A} a.
Arguments Throw {A} message.

Definition bind {A B} (c : result A) (k : A -> result B) : result B :=
  match c with
  | Ok a => k a
  | Throw m => Throw m
  end.

(** [arr.forEach] whose body may throw, threading the state it mutates. *)
Fixpoint forEach {A S} (body : S -> A -> result S) (l : list A) (s : S)
  : result S :=
  match l with
  | [] => Ok s
  | x :: rest => bind (body s x) (forEach body rest)
  end.

(** [arr.forEach((x, index) => ...)] whose body may throw. *)
Fixpoint forEach_i {A S} (body : S -> A -> nat -> result S) (l : list A)
  (i : nat) (s : S) : result S :=
  match l with
  | [] => Ok s
  | x :: rest => bind (body s x i) (forEach_i body rest (Datatypes.S i))
  end.

Definition Math_min (x y : num) : num :=
  match x, y with
  | NaN, _ | _, NaN => NaN
  | _, _ => if lt y x then y else x
  end.

(** [Math.max(...arr)] and [Math.min(...arr)]: [-Infinity] and
    [Infinity] on no argument, [NaN] as soon as one argument is. *)
Definition max_of (l : list num) : num := fold_left Math_max l NInf.
Definition min_of (l : list num) : num := fold_left Math_min l PInf.

(** [arr.findIndex(p)]: the first index whose element satisfies [p],
    [-1] when there is none. *)
Fixpoint findIndex_from {A} (p : A -> bool) (l : list A) (i : Z) : Z :=
  match l with
  | [] => (-1)%Z
  | x :: rest => if p x then i else findIndex_from p rest (i + 1)%Z
  end.

Definition findIndex {A} (p : A -> bool) (l : list A) : Z :=
  findIndex_from p l 0.

(** The decimal digits of an array index inside a template literal. *)
Definition index_string (i : nat) : string :=
  NilEmpty.string_of_uint (Nat.to_uint i).

End JS.

Notation "x <- c ;; k" := (JS.bind c (fun x => k))
  (at level 61, c at next level, right associativity).

(* ================================================================== *)
(** ** Records shared by the two services                             *)
(* ================================================================== *)

Module Data.
Import JS.

Record Question : Type := {
  id : string;
  topic : string;
  correctOption : string
}.

Record Quiz : Type := {
  questions : list Question
}.

(** The current attempt as [QuizAnalyzer] reads it. *)
Record Submission : Type := {
  sub_score : num;
  sub_accuracy : num;
  sub_speed : num;
  answers : obj string          (* questionId -> chosen option *)
}.

(** One past attempt.  A [rank] of [null] behaves as [0] in every
    arithmetic use the predictor makes of it. *)
Record HistoryEntry : Type := {
  score : num;
  accuracy : num;
  speed : num;
  rank : num;
  quiz_questions : list Question
}.

(** The argument of [predictRank] and [normalizeScore]. *)
Record Performance : Type := {
  perf_accuracy : num;
  perf_speed : num
}.

(** [normalizeScore(data)] reads the same two properties off a
    historical record. *)
Definition as_performance (d : HistoryEntry) : Performance :=
  {| perf_accuracy := accuracy d; perf_speed := speed d |}.

End Data.

(* ================================================================== *)
(** ** services/RankPredictor.js                                      *)
(* ================================================================== *)

Module RankPredictor.
Import JS Data.

Record Interval : Type := {
  lower : num;
  upper : num
}.

Record Tier : Type := {
  maxRank : num;
  tier_name : string
}.

Record CutoffRange : Type := {
  range_min : num;
  range_max : num
}.

Record College : Type := {
  name : string;
  probability : num;
  cutoffRange : CutoffRange
}.

Record Prediction : Type := {
  predictedRank : num;
  confidenceInterval : Interval;
  normalizedScore : num;
  potentialColleges : list College;
  prediction_accuracy : num
}.

Section Predictor.
(** [this.historicalData], fixed by the constructor. *)
Variable historicalData : list HistoryEntry.

Definition calculateConsistency : num :=
  let scores := map score historicalData in
  if (List.length scores <? 2)%nat then one
  else
    let mean := div (sum scores) (of_nat (List.length scores)) in
    let variance :=
      div (fold_left (fun s sc => add s (Math_pow (sub sc mean) 2))
             scores zero)
          (of_nat (List.length scores)) in
    sub one (div (Math_sqrt variance) mean).

Definition calculateImprovement : num :=
  let scores := map score historicalData in
  if (List.length scores <? 2)%nat then zero
  else
    let firstScore := at_index scores 0 in
    let lastScore := at_index scores (List.length scores - 1) in
    div (sub lastScore firstScore) firstScore.

Definition normalizeScore (performance : Performance) : num :=
  add (add (add (mul (perf_accuracy performance) (dec 4 10))
                (mul (perf_speed performance) (dec 2 10)))
           (mul calculateConsistency (dec 2 10)))
      (mul calculateImprovement (dec 2 10)).

Definition correlation_numerator (scores ranks : list num)
  (meanScore meanRank : num) : num :=
  reduce_i (fun s sc i =>
              add s (mul (sub sc meanScore)
                         (sub (at_index ranks i) meanRank)))
           scores 0%nat zero.

Definition correlation_denominator (scores ranks : list num)
  (meanScore meanRank : num) : num :=
  Math_sqrt
    (mul (fold_left (fun s sc => add s (Math_pow (sub sc meanScore) 2))
            scores zero)
         (fold_left (fun s r => add s (Math_pow (sub r meanRank) 2))
            ranks zero)).

Definition calculateHistoricalCorrelation : num :=
  let scores := map score historicalData in
  let ranks := map rank historicalData in
  if (List.length scores <? 2)%nat then one
  else
    let meanScore := div (sum scores) (of_nat (List.length scores)) in
    let meanRank := div (sum ranks) (of_nat (List.length ranks)) in
    let numerator :=
      correlation_numerator scores ranks meanScore meanRank in
    let denominator :=
      correlation_denominator scores ranks meanScore meanRank in
    if strict_eq denominator zero then one else div numerator denominator.

Definition getBaseRank (normalizedScore : num) : num :=
  let maxRank := of_Z 50000 in
  Math_round (mul maxRank (sub one normalizedScore)).

Definition calculatePredictedRank (normalizedScore : num) : num :=
  let historicalCorrelation := calculateHistoricalCorrelation in
  let baseRank := getBaseRank normalizedScore in
  Math_round (mul baseRank historicalCorrelation).

Definition calculateStandardError : num :=
  let predictions :=
    map (fun data =>
           (rank data,
            calculatePredictedRank (normalizeScore (as_performance data))))
        historicalData in
  let errors := map (fun p => Math_abs (sub (fst p) (snd p))) predictions in
  let meanError := div (sum errors) (of_nat (List.length errors)) in
  let variance :=
    div (fold_left (fun s error => add s (Math_pow (sub error meanError) 2))
           errors zero)
        (of_nat (List.length errors)) in
  Math_sqrt variance.

Definition calculateConfidenceInterval (predictedRank : num) : Interval :=
  let standardError := calculateStandardError in
  let zScore := dec 196 100 in
  let margin := mul zScore standardError in
  {| lower := Math_max one (Math_round (sub predictedRank margin));
     upper := Math_round (add predictedRank margin) |}.

Definition calculateCollegeProbability (predictedRank cutoff : num) : num :=
  let buffer := mul cutoff (dec 1 10) in
  if le predictedRank (sub cutoff buffer) then dec 9 10
  else if le predictedRank cutoff then dec 7 10
  else dec 3 10.

Definition collegeTiers : list Tier :=
  [ {| maxRank := of_Z 1000; tier_name := "Tier 1 Medical Colleges" |};
    {| maxRank := of_Z 5000; tier_name := "Tier 2 Medical Colleges" |};
    {| maxRank := of_Z 10000; tier_name := "Tier 3 Medical Colleges" |} ].

Definition getPotentialColleges (predictedRank : num) : list College :=
  map (fun tier =>
         {| name := tier_name tier;
            probability :=
              calculateCollegeProbability predictedRank (maxRank tier);
            cutoffRange :=
              {| range_min := sub (maxRank tier) (of_Z 1000);
                 range_max := maxRank tier |} |})
      (filter (fun tier => le predictedRank (maxRank tier)) collegeTiers).

Definition calculatePredictionAccuracy : num :=
  if (List.length historicalData <? 2)%nat then dec 7 10
  else
    let predictions :=
      map (fun data =>
             (rank data,
              calculatePredictedRank
                (normalizeScore (as_performance data))))
          historicalData in
    let accuracies :=
      map (fun p =>
             let error := div (Math_abs (sub (fst p) (snd p))) (fst p) in
             sub one error)
          predictions in
    div (sum accuracies) (of_nat (List.length accuracies)).

Definition predictRank (performance : Performance) : Prediction :=
  let normalizedScore := normalizeScore performance in
  let predictedRank := calculatePredictedRank normalizedScore in
  let confidenceInterval := calculateConfidenceInterval predictedRank in
  let potentialColleges := getPotentialColleges predictedRank in
  {| predictedRank := predictedRank;
     confidenceInterval := confidenceInterval;
     normalizedScore := normalizedScore;
     potentialColleges := potentialColleges;
     prediction_accuracy := calculatePredictionAccuracy |}.
End Predictor.

End RankPredictor.

(* ================================================================== *)
(** ** services/QuizAnalyzer.js                                       *)
(* ================================================================== *)

Module QuizAnalyzer.
Import JS Data.

Record TopicCount : Type := {
  total : nat;
  correct : nat
}.

Record TopicResult : Type := {
  topic_accuracy : num;
  totalQuestions : nat;
  correctAnswers : nat
}.

Inductive Status : Type := Mastered | Improving | NeedsFocus.

Section Analyzer.
(** [this.currentQuiz], [this.submission] and [this.history]. *)
Variable currentQuiz : Quiz.
Variable submission : Submission.
Variable history : list HistoryEntry.

Definition isCorrectAnswer (questionId : string) : bool :=
  let question :=
    find (fun q => String.eqb (id q) questionId) (questions currentQuiz) in
  let userAnswer := get questionId (answers submission) in
  match question, userAnswer with
  | Some q, Some a => String.eqb a (correctOption q)
  | _, _ => false
  end.

(** [topicStats[topic].total++] and [topicStats[topic].correct++]. *)
Definition incr_total (s : TopicCount) : TopicCount :=
  {| total := S (total s); correct := correct s |}.

Definition incr_correct (s : TopicCount) : TopicCount :=
  {| total := total s; correct := S (correct s) |}.

Definition count_question (topicStats : obj TopicCount)
  (question : Question) : obj TopicCount :=
  let t := topic question in
  let stats1 := ensure t {| total := 0; correct := 0 |} topicStats in
  let stats2 := update t incr_total stats1 in
  if isCorrectAnswer (id question)
  then update t incr_correct stats2
  else stats2.

Definition topicStats : obj TopicCount :=
  fold_left count_question (questions currentQuiz) [].

(** The result entry built from the counts of one topic. *)
Definition topic_result (stats : TopicCount) : TopicResult :=
  {| topic_accuracy := div (of_nat (correct stats)) (of_nat (total stats));
     totalQuestions := total stats;
     correctAnswers := correct stats |}.

Definition calculateTopicPerformance : obj TopicResult :=
  map (fun entry => (fst entry, topic_result (snd entry))) topicStats.

Definition identifyWeakTopics : list string :=
  map fst
    (filter (fun entry =>
               lt (topic_accuracy (snd entry)) (dec 6 10))
       calculateTopicPerformance).

Definition identifyStrongTopics : list string :=
  map fst
    (filter (fun entry =>
               gt (topic_accuracy (snd entry)) (dec 8 10))
       calculateTopicPerformance).

Definition calculateTopicImprovement (t : string) : num :=
  let recentQuizzes := slice history (-3) (Z.of_nat (List.length history)) in
  let topicScores :=
    map (fun quiz =>
           let topicQuestions :=
             filter (fun q => String.eqb (topic q) t)
               (quiz_questions quiz) in
           let correct :=
             List.length
               (filter (fun q => isCorrectAnswer (id q)) topicQuestions) in
           div (of_nat correct) (of_nat (List.length topicQuestions)))
        recentQuizzes in
  if (List.length topicScores <? 2)%nat then zero
  else sub (at_index topicScores
              (List.length topicScores - 1))
           (at_index topicScores 0).

Definition determineTopicStatus (accuracy : num) : Status :=
  if ge accuracy (dec 8 10) then Mastered
  else if ge accuracy (dec 6 10) then Improving
  else NeedsFocus.

Definition calculateAverageScore : num :=
  let scores := map score history in
  div (sum scores) (of_nat (List.length scores)).

Definition calculateImprovementRate : num :=
  let scores := map score history in
  if (List.length scores <? 2)%nat then zero
  else div (sub (at_index scores (List.length scores - 1))
                (at_index scores 0))
           (at_index scores 0).

Definition calculateConsistencyScore : num :=
  let scores := map score history in
  let mean := div (sum scores) (of_nat (List.length scores)) in
  let variance :=
    div (fold_left (fun a b => add a (Math_pow (sub b mean) 2)) scores zero)
        (of_nat (List.length scores)) in
  sub one (div (Math_sqrt variance) mean).

Record PerformanceReport : Type := {
  report_score : num;
  report_accuracy : num;
  report_speed : num;
  weakTopics : list string;
  strongTopics : list string
}.

Definition analyzePerformance : PerformanceReport :=
  {| report_score := sub_score submission;
     report_accuracy := sub_accuracy submission;
     report_speed := sub_speed submission;
     weakTopics := identifyWeakTopics;
     strongTopics := identifyStrongTopics |}.

Definition identifyImprovementAreas : list string :=
  map fst
    (filter (fun entry => lt (topic_accuracy (snd entry)) (dec 7 10))
       calculateTopicPerformance).

Record PerformanceTrend : Type := {
  scoreProgression : list num;
  accuracyTrend : list num;
  speedTrend : list num
}.

Definition analyzePerformanceTrend : PerformanceTrend :=
  {| scoreProgression := map score history;
     accuracyTrend := map accuracy history;
     speedTrend := map speed history |}.

Record TopicAnalysis : Type := {
  analysis_accuracy : num;
  analysis_improvement : num;
  status : Status
}.

(** [result[topic] = {...}] for each entry of the topic performance. *)
Definition analyzeTopicWisePerformance : obj TopicAnalysis :=
  fold_left
    (fun result entry =>
       set (fst entry)
         {| analysis_accuracy := topic_accuracy (snd entry);
            analysis_improvement := calculateTopicImprovement (fst entry);
            status := determineTopicStatus (topic_accuracy (snd entry)) |}
         result)
    calculateTopicPerformance [].

Record AnalysisInsights : Type := {
  improvementAreas : list string;
  performanceTrend : PerformanceTrend;
  topicWiseAnalysis : obj TopicAnalysis
}.

Record Analysis : Type := {
  performance : PerformanceReport;
  insights : AnalysisInsights
}.

Definition generateAnalysis : Analysis :=
  {| performance := analyzePerformance;
     insights :=
       {| improvementAreas := identifyImprovementAreas;
          performanceTrend := analyzePerformanceTrend;
          topicWiseAnalysis := analyzeTopicWisePerformance |} |}.

Definition calculateAverageAccuracy : num :=
  let accuracies := map accuracy history in
  div (sum accuracies) (of_nat (List.length accuracies)).

Record TopicInsight : Type := {
  insight_topic : string;
  insight_accuracy : num;
  insight_improvement : num;
  recommendedFocus : bool
}.

Definition generateTopicWiseInsights : list TopicInsight :=
  map (fun entry =>
         {| insight_topic := fst entry;
            insight_accuracy := topic_accuracy (snd entry);
            insight_improvement := calculateTopicImprovement (fst entry);
            recommendedFocus :=
              lt (topic_accuracy (snd entry)) (dec 7 10) |})
      calculateTopicPerformance.

Definition findRelatedConcepts (t : string) : list string :=
  [ String.append "Core concepts in " t;
    String.append "Fundamental principles of " t ].

Record ConceptualGap : Type := {
  gap_topic : string;
  conceptualAreas : list string
}.

Definition identifyConceptualGaps : list ConceptualGap :=
  map (fun t => {| gap_topic := t; conceptualAreas := findRelatedConcepts t |})
      identifyWeakTopics.

Record Recommendation : Type := {
  recommendation_topic : string;
  action : string
}.

Definition generateRecommendations : list Recommendation :=
  map (fun t =>
         {| recommendation_topic := t;
            action :=
              String.append "Focus on strengthening fundamentals in " t |})
      identifyWeakTopics.

Record OverallPerformance : Type := {
  averageScore : num;
  averageAccuracy : num;
  improvementRate : num;
  consistencyScore : num
}.

Record WeakAreas : Type := {
  weak_topics : list string;
  conceptualGaps : list ConceptualGap;
  recommendedActions : list Recommendation
}.

Record Insights : Type := {
  overallPerformance : OverallPerformance;
  topicInsights : list TopicInsight;
  weakAreas : WeakAreas;
  insight_trends : PerformanceTrend
}.

Definition generateInsights : Insights :=
  let analysis := generateAnalysis in
  let trends := analyzePerformanceTrend in
  {| overallPerformance :=
       {| averageScore := calculateAverageScore;
          averageAccuracy := calculateAverageAccuracy;
          improvementRate := calculateImprovementRate;
          consistencyScore := calculateConsistencyScore |};
     topicInsights := generateTopicWiseInsights;
     weakAreas :=
       {| weak_topics := weakTopics (performance analysis);
          conceptualGaps := identifyConceptualGaps;
          recommendedActions := generateRecommendations |};
     insight_trends := trends |}.
End Analyzer.

End QuizAnalyzer.

(* ================================================================== *)
(** ** The attempt records served by the remote endpoints             *)
(* ================================================================== *)

Module Api.
Import JS.

Record QuizInfo : Type := {
  topic : string
}.

(** One attempt, current or historical.  The five properties that
    [validateSubmissionData] requires may be absent; [submitted_at] is
    held as the time value of [new Date(submitted_at)], [NaN] for a date
    that does not parse.  The remaining numeric properties are held as
    the numbers the code reads from them, [NaN] standing for [undefined]. *)
Record Submission : Type := {
  quiz_id : option num;
  submitted_at : option num;
  correct_answers : option num;
  total_questions : option num;
  speed : option num;
  quiz : option QuizInfo;
  accuracy : num;
  incorrect_answers : num;
  mistakes_corrected : num;
  initial_mistake_count : num;
  final_score : num
}.

(** What [loadData] resolves to, as far as the server reads it. *)
Record Loaded : Type := {
  submission : Submission;
  history : list Submission
}.

End Api.

(* ================================================================== *)
(** ** server.js: the procedural analyzer and its routes              *)
(* ================================================================== *)

Module Server.
Import JS Api.

Record TopicStats : Type := {
  attempts : nat;
  totalAccuracy : num;
  averageSpeed : num;
  mistakeRate : num;
  averageAccuracy : option num;       (* set at finalization *)
  averageMistakeRate : option num     (* set at finalization *)
}.

Record AccuracyPoint : Type := {
  acc_date : option num;
  acc_accuracy : num;
  acc_topic : string
}.

Record SpeedPoint : Type := {
  spd_date : option num;
  spd_speed : num;
  spd_topic : string
}.

Record WeakArea : Type := {
  weak_topic : string;
  weak_averageAccuracy : num;
  weak_mistakeRate : num
}.

Record CurrentPerformance : Type := {
  cp_accuracy : num;
  cp_speed : num;
  mistakesImprovement : num
}.

Record Trends : Type := {
  trends_accuracy : list AccuracyPoint;
  trends_speed : list SpeedPoint
}.

Record Analysis : Type := {
  currentPerformance : CurrentPerformance;
  topicPerformance : obj TopicStats;
  weakAreas : list WeakArea;
  trends : Trends
}.

(** The three collections the first loop fills. *)
Record Accumulator : Type := {
  acc_topics : obj TopicStats;
  acc_accuracyTrend : list AccuracyPoint;
  acc_speedTrend : list SpeedPoint
}.

Definition initial_stats : TopicStats :=
  {| attempts := 0; totalAccuracy := zero; averageSpeed := zero;
     mistakeRate := zero; averageAccuracy := None;
     averageMistakeRate := None |}.

(** The four updates of [topicPerformance[topic]] for one attempt. *)
Definition accumulate (attempt : Submission) (s : TopicStats) : TopicStats :=
  {| attempts := S (attempts s);
     totalAccuracy := add (totalAccuracy s) (parseFloat (accuracy attempt));
     averageSpeed :=
       add (averageSpeed s) (parseFloat (to_num (speed attempt)));
     mistakeRate :=
       add (mistakeRate s)
           (div (incorrect_answers attempt)
                (to_num (total_questions attempt)));
     averageAccuracy := averageAccuracy s;
     averageMistakeRate := averageMistakeRate s |}.

(** Body of [history.forEach(attempt => ...)].  Reading [.topic] of an
    absent [quiz] throws. *)
Definition record_attempt (st : Accumulator) (attempt : Submission)
  : result Accumulator :=
  match quiz attempt with
  | None => Throw "Cannot read properties of undefined (reading 'topic')"
  | Some q =>
      let t := topic q in
      let topics1 := ensure t initial_stats (acc_topics st) in
      let topics2 := update t (accumulate attempt) topics1 in
      Ok {| acc_topics := topics2;
            acc_accuracyTrend :=
              acc_accuracyTrend st ++
              [ {| acc_date := submitted_at attempt;
                   acc_accuracy := parseFloat (accuracy attempt);
                   acc_topic := t |} ];
            acc_speedTrend :=
              acc_speedTrend st ++
              [ {| spd_date := submitted_at attempt;
                   spd_speed := parseFloat (to_num (speed attempt));
                   spd_topic := t |} ] |}
  end.

(** The assignments of the second loop to one [stats] object. *)
Definition finalize (stats : TopicStats) : TopicStats :=
  {| attempts := attempts stats;
     totalAccuracy := totalAccuracy stats;
     averageSpeed := div (averageSpeed stats) (of_nat (attempts stats));
     mistakeRate := mistakeRate stats;
     averageAccuracy :=
       Some (div (totalAccuracy stats) (of_nat (attempts stats)));
     averageMistakeRate :=
       Some (div (mistakeRate stats) (of_nat (attempts stats))) |}.

Definition is_weak (stats : TopicStats) : bool :=
  lt (to_num (averageAccuracy stats)) (of_Z 70)
  || gt (to_num (averageMistakeRate stats)) (dec 3 10).

(** Body of [Object.entries(topicPerformance).forEach(...)], as far as
    [weakAreas] is concerned: [stats] has been finalized in place. *)
Definition push_if_weak (weak : list WeakArea) (entry : string * TopicStats)
  : list WeakArea :=
  let stats := snd entry in
  if is_weak stats
  then weak ++ [ {| weak_topic := fst entry;
                    weak_averageAccuracy := to_num (averageAccuracy stats);
                    weak_mistakeRate := to_num (averageMistakeRate stats) |} ]
  else weak.

Definition analyzePerformance (submission : Submission)
  (history : list Submission) : result Analysis :=
  let currentAccuracy := parseFloat (accuracy submission) in
  let currentSpeed := parseFloat (to_num (speed submission)) in
  let mistakesImprovement :=
    div (mistakes_corrected submission) (initial_mistake_count submission) in
  st <- forEach record_attempt history
          {| acc_topics := []; acc_accuracyTrend := [];
             acc_speedTrend := [] |} ;;
  (* each stats object is mutated in place: keys and order are kept *)
  let topicPerformance :=
    map (fun entry => (fst entry, finalize (snd entry))) (acc_topics st) in
  let weakAreas := fold_left push_if_weak topicPerformance [] in
  Ok {| currentPerformance :=
          {| cp_accuracy := currentAccuracy;
             cp_speed := currentSpeed;
             mistakesImprovement := mistakesImprovement |};
        topicPerformance := topicPerformance;
        weakAreas := weakAreas;
        trends := {| trends_accuracy := acc_accuracyTrend st;
                     trends_speed := acc_speedTrend st |} |}.

Definition calculateStandardDeviation (values : list num) : num :=
  let n := List.length values in
  if (n <? 2)%nat then zero
  else
    let mean := div (sum values) (of_nat n) in
    let variance :=
      div (fold_left (fun a b => add a (Math_pow (sub b mean) 2)) values zero)
          (sub (of_nat n) one) in
    Math_sqrt variance.

Record Metrics : Type := {
  weightedScore : num;
  consistency : num;
  averageScore : num
}.

Record Interval : Type := {
  lower : num;
  upper : num
}.

Record Prediction : Type := {
  predictedRank : num;
  confidenceInterval : Interval;
  collegePossibilities : list string;
  metrics : Metrics
}.

Definition predictRank (submission : Submission) (history : list Submission)
  : Prediction :=
  let currentScore := parseFloat (final_score submission) in
  let accuracyWeight := dec 4 10 in
  let speedWeight := dec 3 10 in
  let consistencyWeight := dec 3 10 in
  let historicalScores :=
    map (fun attempt => parseFloat (final_score attempt)) history in
  let averageScore :=
    div (sum historicalScores) (of_nat (List.length historicalScores)) in
  let standardDeviation := calculateStandardDeviation historicalScores in
  (* Prevent division by zero *)
  let consistency :=
    sub one (div standardDeviation (or_else averageScore one)) in
  let weightedScore :=
    add (add (mul currentScore accuracyWeight)
             (mul (parseFloat (to_num (speed submission))) speedWeight))
        (mul consistency consistencyWeight) in
  let predictedRank :=
    Math_round (mul (of_Z 2000) (sub one (div weightedScore (of_Z 100)))) in
  let confidenceInterval :=
    {| lower := Math_max one (sub predictedRank (of_Z 200));
       upper := add predictedRank (of_Z 200) |} in
  let collegePossibilities : list string :=
    if le predictedRank (of_Z 1000)
    then ["Top Medical Colleges - High Chance"%string]
    else if le predictedRank (of_Z 2000)
    then ["Top Medical Colleges - Moderate Chance"%string]
    else if le predictedRank (of_Z 5000)
    then ["Good Medical Colleges - High Chance"%string]
    else ["Moderate Medical Colleges - Moderate Chance"%string] in
  {| predictedRank := predictedRank;
     confidenceInterval := confidenceInterval;
     collegePossibilities := collegePossibilities;
     metrics := {| weightedScore := weightedScore;
                   consistency := consistency;
                   averageScore := averageScore |} |}.

(** An HTTP response: the JSON body of a success, or status 500 with the
    error label of the route and the message of what was thrown. *)
Inductive Response (A : Type) : Type :=
| Json (body : A)
| Status500 (error message : string).
Arguments Json {A} body.
Arguments Status500 {A} error message.

(** [app.get('/api/quiz/analysis', ...)]; [loaded] is the outcome of
    [await loadData()]. *)
Definition analysis_route (loaded : result Loaded) : Response Analysis :=
  match (data <- loaded ;;
         analyzePerformance (submission data) (history data)) with
  | Ok analysis => Json analysis
  | Throw message => Status500 "Analysis Failed" message
  end.

(** [app.get('/api/quiz/rank-prediction', ...)]. *)
Definition rank_prediction_route (loaded : result Loaded)
  : Response Prediction :=
  match (data <- loaded ;;
         Ok (predictRank (submission data) (history data))) with
  | Ok prediction => Json prediction
  | Throw message => Status500 "Rank Prediction Failed" message
  end.

End Server.

(* ================================================================== *)
(** ** utils/dataProcessor.js                                         *)
(* ================================================================== *)

Module DataProcessor.
Import JS Api.

Definition calculateMean (values : list num) : num :=
  if (List.length values =? 0)%nat then zero
  else div (sum values) (of_nat (List.length values)).

Definition calculateStandardDeviation (values : list num) : num :=
  if (List.length values <? 2)%nat then zero
  else
    let mean := calculateMean values in
    let squareDiffs := map (fun value => Math_pow (sub value mean) 2) values in
    Math_sqrt (calculateMean squareDiffs).

(** The window that iteration [i] of [calculateMovingAverage] reads. *)
Definition window_at (data : list num) (windowSize : Z) (i : nat) : list num :=
  slice data (Z.max 0 (Z.of_nat i - windowSize + 1)) (Z.of_nat i + 1).

(** The [for] loop pushes one mean per index [0 .. data.length - 1]. *)
Definition calculateMovingAverage (data : list num) (windowSize : Z)
  : list num :=
  fold_left
    (fun result i => result ++ [calculateMean (window_at data windowSize i)])
    (List.seq 0 (List.length data)) [].

(** [sub.quiz && sub.quiz.topic]: the topic when it is a non-empty
    string. *)
Definition topic_of (s : Submission) : option string :=
  match quiz s with
  | Some q => if String.eqb (topic q) "" then None else Some (topic q)
  | None => None
  end.

Record TopicTotals : Type := {
  totalQuestions : num;
  correctAnswers : num;
  attempts : nat
}.

Record TopicDistribution : Type := {
  dist_topic : string;
  dist_accuracy : num;
  dist_attempts : nat;
  dist_questions : num
}.

Definition count_submission (topicStats : obj TopicTotals) (s : Submission)
  : obj TopicTotals :=
  match topic_of s with
  | None => topicStats
  | Some t =>
      let stats1 :=
        ensure t {| totalQuestions := zero; correctAnswers := zero;
                    attempts := 0 |} topicStats in
      update t
        (fun st =>
           {| totalQuestions :=
                add (totalQuestions st) (to_num (total_questions s));
              correctAnswers :=
                add (correctAnswers st) (to_num (correct_answers s));
              attempts := S (attempts st) |})
        stats1
  end.

Definition prepareTopicDistributionData (submissions : list Submission)
  : list TopicDistribution :=
  map (fun entry =>
         let stats := snd entry in
         {| dist_topic := fst entry;
            dist_accuracy :=
              mul (div (correctAnswers stats) (totalQuestions stats))
                  (of_Z 100);
            dist_attempts := attempts stats;
            dist_questions := totalQuestions stats |})
      (fold_left count_submission submissions []).

Inductive Focus : Type := High | Medium.

Record Weakness : Type := {
  weakness_topic : string;
  weakness_accuracy : num;
  weakness_attempts : nat;
  weakness_questions : num;
  recommendedFocus : Focus
}.

(** The record that [weakAreas.map(area => ...)] builds. *)
Definition weakness_of (area : TopicDistribution) : Weakness :=
  {| weakness_topic := dist_topic area;
     weakness_accuracy := dist_accuracy area;
     weakness_attempts := dist_attempts area;
     weakness_questions := dist_questions area;
     recommendedFocus :=
       if lt (dist_accuracy area) (of_Z 50) then High else Medium |}.

Definition identifyWeaknesses (submissions : list Submission)
  : list Weakness :=
  let topicData := prepareTopicDistributionData submissions in
  let weakAreas :=
    sort (fun a b => sub (dist_accuracy a) (dist_accuracy b))
      (filter (fun t => lt (dist_accuracy t) (of_Z 70)) topicData) in
  map weakness_of weakAreas.

(** The time value of [new Date(sub.submitted_at)]. *)
Definition date_of (s : Submission) : num := to_num (submitted_at s).

Record TrendPoint : Type := {
  date : num;
  value : num;
  raw : option num        (* present on the smoothed accuracy points *)
}.

Record TopicPoint : Type := {
  tp_date : num;
  tp_accuracy : num;
  tp_speed : num
}.

Record Trends : Type := {
  trends_accuracy : list TrendPoint;
  trends_speed : list TrendPoint;
  topicWise : obj (list TopicPoint)
}.

Definition by_date (a b : Submission) : num := sub (date_of a) (date_of b).

Definition accuracy_of (s : Submission) : num :=
  mul (div (to_num (correct_answers s)) (to_num (total_questions s)))
      (of_Z 100).

(** Body of [sortedSubs.forEach((sub, index) => ...)]. *)
Definition record_trend (trends : Trends) (s : Submission) : Trends :=
  let accuracy := accuracy_of s in
  {| trends_accuracy :=
       trends_accuracy trends ++
       [ {| date := date_of s; value := accuracy; raw := None |} ];
     trends_speed :=
       trends_speed trends ++
       [ {| date := date_of s; value := parseFloat (to_num (speed s));
            raw := None |} ];
     topicWise :=
       match topic_of s with
       | None => topicWise trends
       | Some t =>
           update t
             (fun points =>
                points ++
                [ {| tp_date := date_of s; tp_accuracy := accuracy;
                     tp_speed := parseFloat (to_num (speed s)) |} ])
             (ensure t [] (topicWise trends))
       end |}.

(** [calculateMovingAverage(values).map((value, index) => ...)]: position
    [index] of the smoothed array is paired with [trends.accuracy[index]]. *)
Definition smooth (points : list TrendPoint) : list TrendPoint :=
  map (fun vp =>
         {| date := date (snd vp); value := fst vp;
            raw := Some (value (snd vp)) |})
      (combine (calculateMovingAverage (map value points) 3) points).

Definition analyzeImprovementTrends (submissions : list Submission) : Trends :=
  let sortedSubs := sort by_date submissions in
  let trends :=
    fold_left record_trend sortedSubs
      {| trends_accuracy := []; trends_speed := []; topicWise := [] |} in
  {| trends_accuracy := smooth (trends_accuracy trends);
     trends_speed := trends_speed trends;
     topicWise := topicWise trends |}.

Definition present {A} (o : option A) : bool :=
  match o with Some _ => true | None => false end.

(** The required fields, each with its [hasOwnProperty] test. *)
Definition requiredFields : list (string * (Submission -> bool)) :=
  [ ("quiz_id"%string, fun d => present (quiz_id d));
    ("submitted_at"%string, fun d => present (submitted_at d));
    ("correct_answers"%string, fun d => present (correct_answers d));
    ("total_questions"%string, fun d => present (total_questions d));
    ("speed"%string, fun d => present (speed d)) ].

Definition validateSubmissionData (data : Submission) : result bool :=
  let missingFields :=
    map fst (filter (fun field => negb (snd field data)) requiredFields) in
  if (0 <? List.length missingFields)%nat
  then Throw (String.append "Missing required fields: "
                (String.concat ", " missingFields))
  else if gt (to_num (correct_answers data)) (to_num (total_questions data))
  then Throw "Correct answers cannot exceed total questions"
  else if le (parseFloat (to_num (speed data))) zero
  then Throw "Speed must be a positive number"
  else Ok true.

(** Body of [data.forEach((submission, index) => { try ... catch ... })]:
    the error of an invalid submission is thrown again with its index. *)
Definition validate_at (_ : unit) (submission : Submission) (index : nat)
  : result unit :=
  match validateSubmissionData submission with
  | Ok _ => Ok tt
  | Throw message =>
      Throw (String.append "Invalid submission at index "
               (String.append (index_string index)
                  (String.append ": " message)))
  end.

(** The argument is an array by its type, so the [Array.isArray] test
    passes. *)
Definition validateHistoricalData (data : list Submission) : result bool :=
  if (List.length data =? 0)%nat
  then Throw "Historical data array is empty"
  else
    _ <- forEach_i validate_at data 0%nat tt ;;
    Ok true.

Definition calculatePercentile (value : num) (dataset : list num) : num :=
  if (List.length dataset =? 0)%nat then zero
  else
    let sortedData := sort (fun a b => sub a b) dataset in
    let index := findIndex (fun item => ge item value) sortedData in
    mul (div (of_Z index) (of_nat (List.length sortedData))) (of_Z 100).

Definition normalizeScores (scores : list num) : list num :=
  let max := max_of scores in
  let min := min_of scores in
  map (fun score => mul (div (sub score min) (sub max min)) (of_Z 100))
      scores.

(** Body of [submissions.forEach(sub => ...)] in [groupByTopic]. *)
Definition group_submission (topics : obj (list Submission)) (s : Submission)
  : obj (list Submission) :=
  match topic_of s with
  | None => topics
  | Some t => update t (fun group => group ++ [s]) (ensure t [] topics)
  end.

Definition groupByTopic (submissions : list Submission)
  : obj (list Submission) :=
  fold_left group_submission submissions [].

End DataProcessor.

(* ================================================================== *)
(** ** Reference definitions and sample inputs                        *)
(* ================================================================== *)

(** Readings of the specification that are compared with the code. *)
Module Claimed.
Import JS Data.

(** The correlation factor with a negative coefficient replaced by the
    neutral value [1]. *)
Definition historicalCorrelation (historicalData : list HistoryEntry) : num :=
  let c := RankPredictor.calculateHistoricalCorrelation historicalData in
  if lt c zero then one else c.

Definition predictedRank (historicalData : list HistoryEntry)
  (normalizedScore : num) : num :=
  Math_round (mul (RankPredictor.getBaseRank normalizedScore)
                  (historicalCorrelation historicalData)).

End Claimed.

(** Measures in which the properties below are stated. *)
Module Measures.
Import JS Data.

(** How many attempts of a history carry topic [t]. *)
Definition on_topic (t : string) (attempt : Api.Submission) : bool :=
  match Api.quiz attempt with
  | Some q => String.eqb (Api.topic q) t
  | None => false
  end.

Definition attempts_on (t : string) (history : list Api.Submission) : nat :=
  List.length (filter (on_topic t) history).

(** How many questions of a quiz carry topic [t]. *)
Definition questions_on (t : string) (quiz : Quiz) : nat :=
  List.length (filter (fun q => String.eqb (topic q) t) (questions quiz)).

(** The weak-area record of one finalized entry of [topicPerformance]. *)
Definition weak_entry (entry : string * Server.TopicStats) : Server.WeakArea :=
  {| Server.weak_topic := fst entry;
     Server.weak_averageAccuracy :=
       to_num (Server.averageAccuracy (snd entry));
     Server.weak_mistakeRate :=
       to_num (Server.averageMistakeRate (snd entry)) |}.

(** Adjacent elements in ascending order. *)
Fixpoint ascending (l : list num) : bool :=
  match l with
  | x :: (y :: _) as rest => le x y && ascending rest
  | _ => true
  end.

(** The distinct elements of a list, in the order of their first
    occurrence. *)
Fixpoint first_occurrences (l : list string) : list string :=
  match l with
  | [] => []
  | x :: rest =>
      x :: filter (fun y => negb (String.eqb x y)) (first_occurrences rest)
  end.

(** The topics of the attempts that name their quiz, in history order. *)
Definition topics_of (history : list Api.Submission) : list string :=
  flat_map (fun a => match Api.quiz a with
                     | Some q => [Api.topic q]
                     | None => []
                     end) history.

(** A rational interval [lo, hi] read on a number. *)
Definition within (lo hi : Q) (x : num) : Prop :=
  exists q, x = Fin q /\ lo <= q /\ q <= hi.

(** The sum of a counter over all entries of an object. *)
Definition total_of {V} (measure : V -> nat) (o : obj V) : nat :=
  list_sum (map (fun entry => measure (snd entry)) o).

(** A number of magnitude at most 1e100: far from the overflow threshold
    of a double, so that the sums, products and quotients the code forms
    from such numbers are finite. *)
Definition far_from_overflow (x : num) : Prop :=
  within (- inject_Z (10 ^ 100)) (inject_Z (10 ^ 100)) x.

(** An integer between [lo] and [hi]. *)
Definition integer_between (lo hi : Z) (x : num) : Prop :=
  exists z, x = of_Z z /\ (lo <= z <= hi)%Z.

(** Integers of magnitude up to 2^53 are doubles, and sums of integers
    are computed without rounding while they stay in that range. *)
Definition max_exact : Z := 2 ^ 53.

End Measures.

(** Reading a per-topic counter off an object: [0] for an absent key. *)
Module Counters.
Import JS.

Section Counters.
Context {V : Type} (measure : V -> nat).

Definition count_at (o : obj V) (t : string) : nat :=
  match get t o with Some s => measure s | None => 0%nat end.

(** Every entry present has been counted at least once. *)
Definition counted (o : obj V) : Prop :=
  forall t s, get t o = Some s -> (1 <= measure s)%nat.
End Counters.

End Counters.

Module Examples.
Import JS Data.

Definition entry (sc acc spd rk : num) : HistoryEntry :=
  {| score := sc; accuracy := acc; speed := spd; rank := rk;
     quiz_questions := [] |}.

(** Scores rise as ranks fall. *)
Definition falling_ranks : list HistoryEntry :=
  [ entry (of_Z 50) (dec 5 10) (dec 5 10) (of_Z 4000);
    entry (of_Z 70) (dec 5 10) (dec 5 10) (of_Z 2500);
    entry (of_Z 90) (dec 5 10) (dec 5 10) (of_Z 1000) ].

(** One attempt with accuracy and speed as fractions. *)
Definition single_fraction : list HistoryEntry :=
  [ entry (of_Z 50) (dec 5 10) (dec 5 10) (of_Z 4000) ].

(** One attempt with accuracy and speed on the 0-100 scale. *)
Definition single_percent : list HistoryEntry :=
  [ entry (of_Z 50) (of_Z 80) (of_Z 100) (of_Z 1000) ].

Definition half_performance : Performance :=
  {| perf_accuracy := dec 5 10; perf_speed := dec 5 10 |}.

Definition percent_performance : Performance :=
  {| perf_accuracy := of_Z 80; perf_speed := of_Z 100 |}.

(** An attempt on topic [t] with [inc] wrong answers out of [tot], the
    given accuracy and time stamp. *)
Definition attempt (t : string) (acc inc tot when : Z) : Api.Submission :=
  {| Api.quiz_id := Some (of_Z 1);
     Api.submitted_at := Some (of_Z when);
     Api.correct_answers := Some (of_Z (tot - inc));
     Api.total_questions := Some (of_Z tot);
     Api.speed := Some (of_Z 100);
     Api.quiz := Some {| Api.topic := t |};
     Api.accuracy := of_Z acc;
     Api.incorrect_answers := of_Z inc;
     Api.mistakes_corrected := of_Z 3;
     Api.initial_mistake_count := of_Z 4;
     Api.final_score := of_Z 50 |}.

(** A current submission with the given answer and mistake counts. *)
Definition submitted (correct tot corrected initial : Z) : Api.Submission :=
  {| Api.quiz_id := Some (of_Z 1);
     Api.submitted_at := Some (of_Z 0);
     Api.correct_answers := Some (of_Z correct);
     Api.total_questions := Some (of_Z tot);
     Api.speed := Some (of_Z 100);
     Api.quiz := Some {| Api.topic := "Physics" |};
     Api.accuracy := of_Z 80;
     Api.incorrect_answers := of_Z (tot - correct);
     Api.mistakes_corrected := of_Z corrected;
     Api.initial_mistake_count := of_Z initial;
     Api.final_score := of_Z 50 |}.

(** Two weak topics, the weaker one attempted last. *)
Definition two_weak_topics : list Api.Submission :=
  [ attempt "Physics" 60 4 10 2; attempt "Biology" 50 5 10 1;
    attempt "Chemistry" 90 1 10 3 ].

Definition scored (sc : Z) : HistoryEntry :=
  entry (of_Z sc) (dec 5 10) (dec 5 10) (of_Z 1000).

(** Ranks that get worse as the scores rise. *)
Definition rising_ranks : list HistoryEntry :=
  [ entry (of_Z 50) (dec 5 10) (dec 5 10) (of_Z 1000);
    entry (of_Z 70) (dec 5 10) (dec 5 10) (of_Z 2500);
    entry (of_Z 90) (dec 5 10) (dec 5 10) (of_Z 4000) ].

(** An attempt with the given final score. *)
Definition finished (fs : Z) : Api.Submission :=
  {| Api.quiz_id := Some (of_Z 1);
     Api.submitted_at := Some (of_Z 0);
     Api.correct_answers := Some (of_Z 8);
     Api.total_questions := Some (of_Z 10);
     Api.speed := Some (of_Z 100);
     Api.quiz := Some {| Api.topic := "Physics" |};
     Api.accuracy := of_Z 80;
     Api.incorrect_answers := of_Z 2;
     Api.mistakes_corrected := of_Z 3;
     Api.initial_mistake_count := of_Z 4;
     Api.final_score := of_Z fs |}.

(** An attempt whose [submitted_at] does not parse as a date. *)
Definition undated (t : string) : Api.Submission :=
  {| Api.quiz_id := Some (of_Z 1);
     Api.submitted_at := Some NaN;
     Api.correct_answers := Some (of_Z 5);
     Api.total_questions := Some (of_Z 10);
     Api.speed := Some (of_Z 100);
     Api.quiz := Some {| Api.topic := t |};
     Api.accuracy := of_Z 50;
     Api.incorrect_answers := of_Z 5;
     Api.mistakes_corrected := of_Z 3;
     Api.initial_mistake_count := of_Z 4;
     Api.final_score := of_Z 50 |}.

(** A dated attempt followed by one without a valid date. *)
Definition one_invalid_date : list Api.Submission :=
  [ attempt "Physics" 60 4 10 2; undated "Biology" ].

Definition question (i t c : string) : Question :=
  {| id := i; topic := t; correctOption := c |}.

(** Two Physics questions and one Biology question. *)
Definition sample_quiz : Quiz :=
  {| questions := [ question "q1" "Physics" "a";
                    question "q2" "Biology" "b";
                    question "q3" "Physics" "c" ] |}.

(** Only the first question is answered correctly. *)
Definition sample_answers : Submission :=
  {| sub_score := of_Z 40; sub_accuracy := of_Z 33; sub_speed := of_Z 90;
     answers := [ ("q1", "a"); ("q2", "c"); ("q3", "d") ]%string |}.

(** A past attempt over the given questions. *)
Definition past (sc : Z) (qs : list Question) : HistoryEntry :=
  {| score := of_Z sc; accuracy := dec 5 10; speed := dec 5 10;
     rank := of_Z 1000; quiz_questions := qs |}.

(** Three past attempts; the first and the last carry Physics
    questions. *)
Definition recent_attempts : list HistoryEntry :=
  [ past 40 [question "q1" "Physics" "a"; question "q3" "Physics" "c"];
    past 50 [question "q2" "Biology" "b"];
    past 60 [question "q1" "Physics" "a"] ].

End Examples.
(* ================================================================== *)
(** ** Arithmetic of the number model                                 *)
(* ================================================================== *)

Module JSFacts.
Import JS.

Lemma fin_eq (p q : Q) : p == q -> fin p = fin q.
Proof. intros H. unfold fin. f_equal. now apply Qred_complete. Qed.

Lemma Qred_inject_Z (z : Z) : Qred (inject_Z z) = inject_Z z.
Proof.
  apply Qred_identity. simpl. apply Z.gcd_1_r.
Qed.

Lemma fin_of_Z (q : Q) (z : Z) : q == inject_Z z -> fin q = of_Z z.
Proof.
  intros H. unfold fin, of_Z. f_equal.
  rewrite (Qred_complete _ _ H). apply Qred_inject_Z.
Qed.

Lemma add_Fin (a b : Q) : add (Fin a) (Fin b) = fin (a + b).
Proof. reflexivity. Qed.

Lemma sub_Fin (a b : Q) : sub (Fin a) (Fin b) = fin (a - b).
Proof.
  unfold sub, neg, fin. rewrite add_Fin. apply fin_eq.
  now rewrite Qred_correct.
Qed.

Lemma mul_Fin (a b : Q) : mul (Fin a) (Fin b) = fin (a * b).
Proof. reflexivity. Qed.

Lemma div_Fin (a b : Q) : ~ b == 0 -> div (Fin a) (Fin b) = fin (a / b).
Proof.
  intros H. unfold div. destruct (Qeq_bool b 0) eqn:E; [|reflexivity].
  apply Qeq_bool_iff in E. contradiction.
Qed.

Lemma le_Fin (a b : Q) : le (Fin a) (Fin b) = true <-> a <= b.
Proof. simpl. apply Qle_bool_iff. Qed.

Lemma lt_Fin (a b : Q) : lt (Fin a) (Fin b) = true <-> a < b.
Proof.
  simpl. rewrite negb_true_iff. split; intros H.
  - apply Qnot_le_lt. intros Hle. apply Qle_bool_iff in Hle. congruence.
  - destruct (Qle_bool b a) eqn:E; [|reflexivity].
    apply Qle_bool_iff in E. exfalso. apply (Qlt_not_le _ _ H E).
Qed.

Lemma lt_Fin_false (a b : Q) : lt (Fin a) (Fin b) = false <-> b <= a.
Proof.
  simpl. rewrite negb_false_iff. apply Qle_bool_iff.
Qed.

Lemma Qsqrt_nonneg (q : Q) : 0 <= Qsqrt q.
Proof.
  unfold Qsqrt, Qle. simpl. rewrite Z.mul_1_r. apply Z.sqrt_nonneg.
Qed.

Lemma Qsqrt_0 (q : Q) : q == 0 -> Qsqrt q == 0.
Proof.
  intros H. unfold Qeq in H. simpl in H. rewrite Z.mul_1_r in H.
  unfold Qsqrt, Qeq. simpl. rewrite H. reflexivity.
Qed.

(** [Math.sqrt] yields a non-negative number, [Infinity] or [NaN]. *)
Lemma Math_sqrt_range (x : num) :
  (exists s, Math_sqrt x = Fin s /\ 0 <= s) \/ Math_sqrt x = PInf
  \/ Math_sqrt x = NaN.
Proof.
  destruct x as [q| | |]; simpl; auto.
  destruct (Qle_bool 0 q); auto.
  left. exists (Qred (Qsqrt q)). split; [reflexivity|].
  rewrite Qred_correct. apply Qsqrt_nonneg.
Qed.

(** [Math.round] of a finite number is an integer. *)
Lemma Math_round_finite (x : num) :
  is_finite (Math_round x) = true ->
  exists q, x = Fin q /\ Math_round x = of_Z (Qfloor (q + (1 # 2))).
Proof.
  destruct x as [q| | |]; simpl; try discriminate.
  intros _. now exists q.
Qed.

Lemma Qfloor_half (z : Z) : Qfloor (inject_Z z + (1 # 2)) = z.
Proof.
  apply Z.le_antisymm.
  - assert (H : (Qfloor (inject_Z z + (1 # 2)) < z + 1)%Z).
    { rewrite Zlt_Qlt.
      apply Qle_lt_trans with (inject_Z z + (1 # 2)).
      - apply Qfloor_le.
      - rewrite inject_Z_plus. apply Qplus_lt_r. reflexivity. }
    lia.
  - rewrite <- (Qfloor_Z z) at 1. apply Qfloor_resp_le.
    rewrite <- (Qplus_0_r (inject_Z z)) at 1. apply Qplus_le_r. discriminate.
Qed.

(** Finite numbers are closed under the operations that cannot divide. *)
Lemma finite_add (x y : num) :
  is_finite x = true -> is_finite y = true -> is_finite (add x y) = true.
Proof. destruct x, y; intros; try discriminate; reflexivity. Qed.

Lemma finite_sub (x y : num) :
  is_finite x = true -> is_finite y = true -> is_finite (sub x y) = true.
Proof. destruct x, y; intros; try discriminate; reflexivity. Qed.

Lemma finite_mul (x y : num) :
  is_finite x = true -> is_finite y = true -> is_finite (mul x y) = true.
Proof. destruct x, y; intros; try discriminate; reflexivity. Qed.

Lemma finite_round (x : num) :
  is_finite x = true -> is_finite (Math_round x) = true.
Proof. destruct x; intros; try discriminate; reflexivity. Qed.

Lemma finite_abs (x : num) :
  is_finite x = true -> is_finite (Math_abs x) = true.
Proof. destruct x; intros; try discriminate; reflexivity. Qed.

Lemma finite_inv (x : num) : is_finite x = true -> exists q, x = Fin q.
Proof. destruct x; try discriminate. eauto. Qed.

Create HintDb js_finite.
#[export] Hint Resolve finite_add finite_sub finite_mul finite_round
  finite_abs : js_finite.

End JSFacts.

(* ================================================================== *)
(** ** Rank predictor                                                 *)
(* ================================================================== *)

Module RankFacts.
Import JS Data RankPredictor JSFacts.

Lemma dec_196_100 : dec 196 100 = Fin (49 # 25).
Proof. reflexivity. Qed.

Lemma predicted_rank_integer (h : list HistoryEntry) (ns : num) :
  is_finite (calculatePredictedRank h ns) = true ->
  exists z, calculatePredictedRank h ns = of_Z z.
Proof.
  unfold calculatePredictedRank. intros H.
  destruct (Math_round_finite _ H) as (q & _ & E). eauto.
Qed.

(** The interval built around an integer rank [z] from a margin
    [1.96 * se], for a standard error that is a number: the lower bound is
    at least 1, the upper bound is at least [z], and the lower bound is at
    most [z] exactly when [z >= 1]. *)
Lemma interval_bounds (z : Z) (se : num) :
  (exists s, se = Fin s /\ 0 <= s) \/ se = PInf ->
  let margin := mul (dec 196 100) se in
  let lo := Math_max one (Math_round (sub (of_Z z) margin)) in
  let hi := Math_round (add (of_Z z) margin) in
  le one lo = true
  /\ le (of_Z z) hi = true
  /\ (le lo (of_Z z) = true <-> (1 <= z)%Z).
Proof.
  intros [(s & -> & Hs) | ->]; rewrite dec_196_100; cbn zeta.
  - set (m := Qred ((49 # 25) * s)).
    assert (Hm : 0 <= m).
    { unfold m. rewrite Qred_correct.
      apply Qmult_le_0_compat; [discriminate | exact Hs]. }
    change (mul (Fin (49 # 25)) (Fin s)) with (Fin m).
    change (sub (of_Z z) (Fin m)) with (fin (inject_Z z + Qred (- m))).
    change (add (of_Z z) (Fin m)) with (fin (inject_Z z + m)).
    unfold fin, Math_round.
    set (lo := Qfloor (Qred (inject_Z z + Qred (- m)) + (1 # 2))).
    set (hi := Qfloor (Qred (inject_Z z + m) + (1 # 2))).
    assert (Hlo : (lo <= z)%Z).
    { unfold lo. rewrite <- (Qfloor_half z) at 2. apply Qfloor_resp_le.
      rewrite !Qred_correct. apply Qplus_le_l.
      rewrite <- (Qplus_0_r (inject_Z z)) at 2. apply Qplus_le_r.
      apply (Qopp_le_compat 0 m) in Hm. exact Hm. }
    assert (Hhi : (z <= hi)%Z).
    { unfold hi. rewrite <- (Qfloor_half z) at 1. apply Qfloor_resp_le.
      rewrite !Qred_correct. apply Qplus_le_l.
      rewrite <- (Qplus_0_r (inject_Z z)) at 1. apply Qplus_le_r. exact Hm. }
    change (Math_max one (of_Z lo))
      with (if lt (of_Z 1) (of_Z lo) then of_Z lo else of_Z 1).
    destruct (lt (of_Z 1) (of_Z lo)) eqn:E.
    + apply lt_Fin in E. rewrite <- Zlt_Qlt in E.
      split; [apply le_Fin; rewrite <- Zle_Qle; lia|].
      split; [apply le_Fin; rewrite <- Zle_Qle; exact Hhi|].
      unfold of_Z. rewrite le_Fin, <- Zle_Qle. lia.
    + split; [reflexivity|].
      split; [apply le_Fin; rewrite <- Zle_Qle; exact Hhi|].
      unfold of_Z. rewrite le_Fin, <- Zle_Qle. reflexivity.
  - simpl. split; [reflexivity|]. split; [reflexivity|].
    rewrite Qle_bool_iff, <- Zle_Qle. reflexivity.
Qed.

End RankFacts.

Module RankClaims.
Import JS Data RankPredictor JSFacts RankFacts.

(** C2, as amended.  When the predicted rank is finite and the standard
    error is a number, the confidence interval satisfies lower >= 1 and
    predictedRank <= upper, and lower <= predictedRank holds exactly when
    predictedRank >= 1. *)
Theorem C2_interval_brackets_a_valid_rank
  (historicalData : list HistoryEntry) (normalizedScore : num) :
  let predictedRank := calculatePredictedRank historicalData normalizedScore in
  let ci := calculateConfidenceInterval historicalData predictedRank in
  is_finite predictedRank = true ->
  is_nan (calculateStandardError historicalData) = false ->
  le one (lower ci) = true
  /\ le predictedRank (upper ci) = true
  /\ (le (lower ci) predictedRank = true <-> le one predictedRank = true).
Proof.
  intros p ci Hfin Hse.
  destruct (predicted_rank_integer _ _ Hfin) as (z & Hz).
  subst ci. unfold calculateConfidenceInterval. simpl lower. simpl upper.
  fold p in Hz. rewrite Hz.
  assert (Hone : le one (of_Z z) = true <-> (1 <= z)%Z).
  { unfold one, of_Z. rewrite le_Fin, <- Zle_Qle. reflexivity. }
  rewrite Hone. apply interval_bounds.
  unfold calculateStandardError in *.
  match goal with |- context [Math_sqrt ?v] =>
    destruct (Math_sqrt_range v) as [H | [H | H]] end; auto.
  rewrite H in Hse. discriminate.
Qed.

Lemma C2_interval_brackets_a_valid_rank_witness :
  let p := calculatePredictedRank Examples.rising_ranks (dec 5 10) in
  let ci := calculateConfidenceInterval Examples.rising_ranks p in
  p = of_Z 25000
  /\ lt (lower ci) p = true /\ lt p (upper ci) = true
  /\ le one (lower ci) = true
  /\ le p (upper ci) = true
  /\ le (lower ci) p = true.
Proof.
  split; [vm_compute; reflexivity|].
  split; [vm_compute; reflexivity|].
  split; [vm_compute; reflexivity|].
  destruct (C2_interval_brackets_a_valid_rank Examples.rising_ranks (dec 5 10))
    as (H1 & H2 & H3); [vm_compute; reflexivity ..|].
  split; [exact H1|]. split; [exact H2|].
  apply H3. vm_compute. reflexivity.
Defined.

(** C2 fails as stated: with accuracy and speed on the 0-100 scale the
    predicted rank is negative while the lower bound is clamped to 1; and
    on an empty history the standard error, hence the lower bound, is
    NaN, which is not at least 1. *)
Lemma C2_counterexample :
  let p := predictRank Examples.single_percent Examples.percent_performance in
  let q := predictRank [] Examples.half_performance in
  predictedRank p = of_Z (-2560000)
  /\ lower (confidenceInterval p) = of_Z 1
  /\ ~ (le (lower (confidenceInterval p)) (predictedRank p) = true
        /\ le (predictedRank p) (upper (confidenceInterval p)) = true
        /\ le one (lower (confidenceInterval p)) = true)
  /\ predictedRank q = of_Z 25000
  /\ lower (confidenceInterval q) = NaN
  /\ le one (lower (confidenceInterval q)) = false.
Proof.
  vm_compute. repeat split. intros (H & _). discriminate H.
Qed.

Lemma lt_zero_cases (x : num) :
  lt zero x = true -> (exists q, x = Fin q /\ 0 < q) \/ x = PInf.
Proof.
  destruct x as [q| | |]; try discriminate; auto.
  intros H. apply lt_Fin in H. eauto.
Qed.

Lemma lt_zero_neg_cases (x : num) :
  lt x zero = true -> (exists q, x = Fin q /\ q < 0) \/ x = NInf.
Proof.
  destruct x as [q| | |]; try discriminate; auto.
  intros H. apply lt_Fin in H. eauto.
Qed.

Lemma sgn_pos (q : Q) : 0 < q -> sgn q = Gt.
Proof. intros H. unfold sgn. now apply Qgt_alt. Qed.

Lemma sgn_neg (q : Q) : q < 0 -> sgn q = Lt.
Proof. intros H. unfold sgn. now apply Qlt_alt. Qed.

Lemma round_below_one (q : Q) : q < 0 -> lt (Math_round (fin q)) one = true.
Proof.
  intros H. unfold fin, Math_round, of_Z, one. apply lt_Fin.
  rewrite <- Zlt_Qlt.
  assert (Hlt : inject_Z (Qfloor (Qred q + (1 # 2))) < inject_Z 1).
  { apply Qle_lt_trans with (Qred q + (1 # 2)); [apply Qfloor_le|].
    rewrite Qred_correct. unfold inject_Z. lra. }
  rewrite <- Zlt_Qlt in Hlt. exact Hlt.
Qed.

(** Summing the squares over the attempts is summing them over the
    scores, or over the ranks. *)
Lemma fold_over_scores (field : HistoryEntry -> num) (mean : num)
  (l : list HistoryEntry) :
  forall acc,
    fold_left (fun s x => add s (Math_pow (sub x mean) 2)) (map field l) acc
    = fold_left add (map (fun d => Math_pow (sub (field d) mean) 2) l) acc.
Proof.
  induction l as [|x rest IH]; intros acc; simpl; [reflexivity | apply IH].
Qed.

(** The numerator pairs each score with the rank at the same index, which
    is the rank of the same attempt. *)
Lemma numerator_over_attempts (meanScore meanRank : num)
  (rest : list HistoryEntry) :
  forall (before : list HistoryEntry) (acc : num),
    reduce_i (fun s sc i =>
                add s (mul (sub sc meanScore)
                           (sub (at_index (map rank (before ++ rest)) i)
                                meanRank)))
      (map score rest) (List.length before) acc
    = fold_left add
        (map (fun d => mul (sub (score d) meanScore) (sub (rank d) meanRank))
           rest)
        acc.
Proof.
  induction rest as [|d rest IH]; intros before acc; [reflexivity|].
  cbn [map reduce_i fold_left].
  assert (E : at_index (map rank (before ++ d :: rest)) (List.length before)
              = rank d).
  { unfold at_index. rewrite map_app. cbn [map].
    rewrite app_nth2 by (rewrite length_map; lia).
    rewrite length_map, Nat.sub_diag. reflexivity. }
  rewrite E.
  replace (before ++ d :: rest)%list with ((before ++ [d]) ++ rest)%list
    by (rewrite <- app_assoc; reflexivity).
  replace (S (List.length before)) with (List.length (before ++ [d])%list)
    by (rewrite length_app; simpl; lia).
  apply IH.
Qed.

(** C4, as amended.  The predicted rank is
    round(baseRank(normalizedScore) * historicalCorrelation()), where the
    correlation is 1 for fewer than two attempts, 1 when the denominator
    of the Pearson quotient is 0, and otherwise that quotient as computed,
    whatever its sign: a negative coefficient is neither replaced nor
    floored, so with a positive base rank it gives a predicted rank below
    1. *)
Theorem C4_predicted_rank_uses_raw_correlation
  (historicalData : list HistoryEntry) (normalizedScore : num) :
  let n := of_nat (List.length historicalData) in
  let meanScore := div (sum (map score historicalData)) n in
  let meanRank := div (sum (map rank historicalData)) n in
  let covariance :=
    sum (map (fun d => mul (sub (score d) meanScore) (sub (rank d) meanRank))
           historicalData) in
  let spread :=
    Math_sqrt
      (mul (sum (map (fun d => Math_pow (sub (score d) meanScore) 2)
                   historicalData))
           (sum (map (fun d => Math_pow (sub (rank d) meanRank) 2)
                   historicalData))) in
  calculatePredictedRank historicalData normalizedScore
  = Math_round
      (mul (Math_round (mul (of_Z 50000) (sub one normalizedScore)))
           (calculateHistoricalCorrelation historicalData))
  /\ calculateHistoricalCorrelation historicalData
     = (if (List.length historicalData <? 2)%nat then one
        else if strict_eq spread zero then one
        else div covariance spread)
  /\ (lt (calculateHistoricalCorrelation historicalData) zero = true ->
      lt zero (getBaseRank normalizedScore) = true ->
      lt (calculatePredictedRank historicalData normalizedScore) one = true).
Proof.
  cbv zeta. split; [reflexivity|]. split.
  - unfold calculateHistoricalCorrelation, correlation_denominator,
      correlation_numerator.
    rewrite !length_map.
    destruct (List.length historicalData <? 2)%nat; [reflexivity|].
    rewrite (numerator_over_attempts _ _ historicalData [] zero).
    unfold sum. rewrite <- !fold_over_scores. reflexivity.
  - intros Hc Hb. unfold calculatePredictedRank.
    destruct (lt_zero_neg_cases _ Hc) as [(c & -> & Hc') | ->];
    destruct (lt_zero_cases _ Hb) as [(b & -> & Hb') | ->].
    + change (mul (Fin b) (Fin c)) with (fin (b * c)).
      apply round_below_one. nra.
    + simpl. now rewrite (sgn_neg _ Hc').
    + simpl. now rewrite (sgn_pos _ Hb').
    + reflexivity.
Qed.

Lemma C4_predicted_rank_uses_raw_correlation_witness :
  calculateHistoricalCorrelation Examples.falling_ranks = of_Z (-1)
  /\ getBaseRank (dec 5 10) = of_Z 25000
  /\ lt (calculatePredictedRank Examples.falling_ranks (dec 5 10)) one = true.
Proof.
  split; [vm_compute; reflexivity|]. split; [vm_compute; reflexivity|].
  apply (C4_predicted_rank_uses_raw_correlation
           Examples.falling_ranks (dec 5 10)); vm_compute; reflexivity.
Defined.

(** C4 fails as stated: a correlation of -1 is multiplied in as it is,
    where the claim replaces it by 1. *)
Lemma C4_counterexample :
  calculateHistoricalCorrelation Examples.falling_ranks = of_Z (-1)
  /\ calculatePredictedRank Examples.falling_ranks (dec 5 10) = of_Z (-25000)
  /\ Claimed.predictedRank Examples.falling_ranks (dec 5 10) = of_Z 25000
  /\ calculatePredictedRank Examples.falling_ranks (dec 5 10)
     <> Claimed.predictedRank Examples.falling_ranks (dec 5 10).
Proof.
  vm_compute. repeat split. discriminate.
Qed.

(** C10.  Every tier returned by [getPotentialColleges] carries the
    probability 0.9 or 0.7: the filter keeps a tier only when
    predictedRank <= maxRank, which rules out the 0.3 branch. *)
Theorem C10_returned_tiers_have_probability_09_or_07 (predictedRank : num) :
  Forall (fun college =>
            probability college = dec 9 10 \/ probability college = dec 7 10)
         (getPotentialColleges predictedRank).
Proof.
  assert (H : forall cutoff, le predictedRank cutoff = true ->
            calculateCollegeProbability predictedRank cutoff = dec 9 10
            \/ calculateCollegeProbability predictedRank cutoff = dec 7 10).
  { intros cutoff Hle. unfold calculateCollegeProbability.
    rewrite Hle.
    destruct (le predictedRank (sub _ _)); [left | right]; reflexivity. }
  unfold getPotentialColleges, collegeTiers. cbn [filter maxRank].
  destruct (le predictedRank (of_Z 1000)) eqn:E1;
  destruct (le predictedRank (of_Z 5000)) eqn:E2;
  destruct (le predictedRank (of_Z 10000)) eqn:E3;
  cbn [map maxRank tier_name];
  repeat (apply Forall_cons; [cbn [probability]; apply H; assumption|]);
  apply Forall_nil.
Qed.

End RankClaims.

Module SingleAttempt.
Import JS Data JSFacts RankFacts.

Lemma round_of_Z (z : Z) : Math_round (of_Z z) = of_Z z.
Proof. unfold Math_round, of_Z. now rewrite Qfloor_half. Qed.

(** Subtracting or adding a zero margin leaves a rounded value as it is. *)
Lemma round_zero_margin (x : num) :
  let p := Math_round x in
  Math_round (sub p (Fin 0)) = p /\ Math_round (add p (Fin 0)) = p.
Proof.
  destruct x as [q| | |]; try (split; reflexivity).
  cbn zeta. change (Math_round (Fin q)) with (of_Z (Qfloor (q + (1 # 2)))).
  set (z := Qfloor (q + (1 # 2))).
  change (of_Z z) with (Fin (inject_Z z)) at 1 3. rewrite sub_Fin, add_Fin.
  rewrite (fin_of_Z _ z), (fin_of_Z _ z) by ring.
  rewrite round_of_Z. auto.
Qed.

Lemma max_one_of_rank (p : num) :
  (exists x, p = Math_round x) -> le one p = true -> Math_max one p = p.
Proof.
  intros (x & ->). destruct x as [q| | |]; try discriminate; auto.
  unfold Math_round. set (z := Qfloor (q + (1 # 2))). intros H.
  apply le_Fin in H. rewrite <- Zle_Qle in H.
  change (Math_max one (of_Z z))
    with (if lt (of_Z 1) (of_Z z) then of_Z z else of_Z 1).
  destruct (lt (of_Z 1) (of_Z z)) eqn:E; [reflexivity|].
  apply lt_Fin_false in E. rewrite <- Zle_Qle in E.
  f_equal. lia.
Qed.

(** The variance of a single finite error is zero. *)
Lemma single_error_deviation (e : Q) :
  let errors := [Fin e] in
  let meanError := div (sum errors) (of_nat (List.length errors)) in
  Math_sqrt
    (div (fold_left (fun s error => add s (Math_pow (sub error meanError) 2))
            errors zero)
         (of_nat (List.length errors)))
  = zero.
Proof.
  cbn zeta. cbn [List.length sum fold_left].
  assert (E : sub (Fin e) (div (add zero (Fin e)) (of_nat 1)) = Fin 0).
  { unfold zero, of_nat, of_Z. rewrite add_Fin.
    unfold fin at 1. rewrite div_Fin by discriminate.
    unfold fin at 1. rewrite sub_Fin. apply (fin_eq _ 0).
    rewrite !Qred_correct. change (inject_Z (Z.of_nat 1)) with 1. field. }
  rewrite E. reflexivity.
Qed.

Lemma standard_error_single (d : HistoryEntry) :
  is_finite (accuracy d) = true ->
  is_finite (speed d) = true ->
  is_finite (rank d) = true ->
  RankPredictor.calculateStandardError [d] = zero.
Proof.
  intros Ha Hs Hr.
  unfold RankPredictor.calculateStandardError.
  cbn [map fst snd].
  set (p := RankPredictor.calculatePredictedRank [d] _).
  assert (Hp : is_finite p = true).
  { unfold p, RankPredictor.calculatePredictedRank,
      RankPredictor.getBaseRank, RankPredictor.normalizeScore.
    cbn [as_performance perf_accuracy perf_speed].
    change (RankPredictor.calculateConsistency [d]) with one.
    change (RankPredictor.calculateImprovement [d]) with zero.
    change (RankPredictor.calculateHistoricalCorrelation [d]) with one.
    auto 10 with js_finite. }
  assert (He : is_finite (Math_abs (sub (rank d) p)) = true)
    by auto with js_finite.
  destruct (finite_inv _ He) as (e & ->).
  apply single_error_deviation.
Qed.

Lemma far_from_overflow_finite (x : num) :
  Measures.far_from_overflow x -> is_finite x = true.
Proof. now intros (q & -> & _). Qed.

(** C7, as amended.  For a history of exactly one attempt the improvement
    rate is 0 and the improvement of every topic is 0; when the attempt's
    accuracy and speed are numbers of magnitude at most 1e100 and its rank
    is finite, the standard error is 0 and the confidence interval is
    {lower: max(1, predictedRank), upper: predictedRank}, which is the
    point {predictedRank, predictedRank} when predictedRank >= 1. *)
Theorem C7_single_attempt_defaults
  (currentQuiz : Quiz) (submission : Submission) (attempt : HistoryEntry)
  (normalizedScore : num) :
  let history := [attempt] in
  let predictedRank :=
    RankPredictor.calculatePredictedRank history normalizedScore in
  let ci := RankPredictor.calculateConfidenceInterval history predictedRank in
  QuizAnalyzer.calculateImprovementRate history = zero
  /\ (forall t,
        QuizAnalyzer.calculateTopicImprovement currentQuiz submission
          history t = zero)
  /\ RankPredictor.calculateImprovement history = zero
  /\ (Measures.far_from_overflow (accuracy attempt) ->
      Measures.far_from_overflow (speed attempt) ->
      is_finite (rank attempt) = true ->
      RankPredictor.calculateStandardError history = zero
      /\ ci = {| RankPredictor.lower := Math_max one predictedRank;
                 RankPredictor.upper := predictedRank |}
      /\ (le one predictedRank = true ->
          ci = {| RankPredictor.lower := predictedRank;
                  RankPredictor.upper := predictedRank |})).
Proof.
  intros history p ci. subst history.
  split; [reflexivity|]. split; [intros t; reflexivity|].
  split; [reflexivity|].
  intros Ha Hs Hr.
  apply far_from_overflow_finite in Ha, Hs.
  pose proof (standard_error_single attempt Ha Hs Hr) as Hse.
  split; [exact Hse|].
  assert (Hci : ci = {| RankPredictor.lower := Math_max one p;
                        RankPredictor.upper := p |}).
  { unfold ci, RankPredictor.calculateConfidenceInterval.
    rewrite Hse.
    change (mul (dec 196 100) zero) with (Fin 0).
    destruct (round_zero_margin
                (mul (RankPredictor.getBaseRank normalizedScore)
                   (RankPredictor.calculateHistoricalCorrelation [attempt])))
      as (E1 & E2).
    fold (RankPredictor.calculatePredictedRank [attempt] normalizedScore)
      in E1, E2.
    fold p in E1, E2. now rewrite E1, E2. }
  split; [exact Hci|].
  intros Hone. rewrite Hci. f_equal.
  apply max_one_of_rank; [|exact Hone].
  unfold p, RankPredictor.calculatePredictedRank. eauto.
Qed.

Lemma C7_single_attempt_defaults_witness :
  QuizAnalyzer.calculateImprovementRate Examples.single_fraction = zero
  /\ RankPredictor.calculateStandardError Examples.single_fraction = zero
  /\ RankPredictor.calculateConfidenceInterval Examples.single_fraction
       (RankPredictor.calculatePredictedRank Examples.single_fraction
          (dec 5 10))
     = {| RankPredictor.lower := of_Z 25000;
          RankPredictor.upper := of_Z 25000 |}.
Proof.
  destruct (C7_single_attempt_defaults
              {| questions := [] |}
              {| sub_score := zero; sub_accuracy := zero; sub_speed := zero;
                 answers := [] |}
              (Examples.entry (of_Z 50) (dec 5 10) (dec 5 10) (of_Z 4000))
              (dec 5 10))
    as (H1 & _ & _ & H4).
  assert (Hhalf : Measures.far_from_overflow (dec 5 10)).
  { eexists. split; [reflexivity|]. split; vm_compute; discriminate. }
  destruct (H4 Hhalf Hhalf eq_refl) as (H5 & _ & H7).
  split; [exact H1|]. split; [exact H5|].
  exact (H7 eq_refl).
Defined.

(** C7 fails as stated: with one attempt on the 0-100 scale the standard
    error is 0, yet the interval is not the point at the predicted rank,
    because the lower bound is clamped to 1. *)
Lemma C7_counterexample :
  let p :=
    RankPredictor.predictRank Examples.single_percent
      Examples.percent_performance in
  RankPredictor.calculateStandardError Examples.single_percent = zero
  /\ RankPredictor.predictedRank p = of_Z (-2560000)
  /\ RankPredictor.confidenceInterval p
     = {| RankPredictor.lower := of_Z 1;
          RankPredictor.upper := of_Z (-2560000) |}
  /\ RankPredictor.confidenceInterval p
     <> {| RankPredictor.lower := RankPredictor.predictedRank p;
           RankPredictor.upper := RankPredictor.predictedRank p |}.
Proof.
  vm_compute. repeat split. discriminate.
Qed.

End SingleAttempt.

(* ================================================================== *)
(** ** Objects used as per-topic counters                             *)
(* ================================================================== *)

Module ObjFacts.
Import JS Counters.
Local Open Scope nat_scope.

Section Lookup.
Context {V : Type}.
Implicit Types (o : obj V) (k t : string).

Lemma get_set_same k (v : V) o : get k (set k v o) = Some v.
Proof.
  induction o as [|[k' v'] rest IH]; simpl.
  - now rewrite String.eqb_refl.
  - destruct (String.eqb k k') eqn:E; simpl; rewrite E; auto.
Qed.

Lemma get_set_other k t (v : V) o : k <> t -> get t (set k v o) = get t o.
Proof.
  intros Hne. induction o as [|[k' v'] rest IH]; simpl.
  - apply String.eqb_neq in Hne. rewrite String.eqb_sym. now rewrite Hne.
  - destruct (String.eqb k k') eqn:E; simpl.
    + apply String.eqb_eq in E. subst k'.
      destruct (String.eqb t k) eqn:E'; [|reflexivity].
      apply String.eqb_eq in E'. congruence.
    + now rewrite IH.
Qed.

Lemma get_ensure k t (init : V) o :
  get t (ensure k init o)
  = match get t o with
    | Some v => Some v
    | None => if String.eqb k t then Some init else None
    end.
Proof.
  unfold ensure. destruct (get k o) eqn:E.
  - destruct (get t o) eqn:E'; [reflexivity|].
    destruct (String.eqb k t) eqn:Ek; [|reflexivity].
    apply String.eqb_eq in Ek. congruence.
  - destruct (String.eqb k t) eqn:Ek.
    + apply String.eqb_eq in Ek. subst t. now rewrite get_set_same, E.
    + apply String.eqb_neq in Ek. rewrite get_set_other by assumption.
      now destruct (get t o).
Qed.

Lemma get_update k t (f : V -> V) o :
  get t (update k f o)
  = if String.eqb k t then option_map f (get t o) else get t o.
Proof.
  unfold update. destruct (String.eqb k t) eqn:Ek.
  - apply String.eqb_eq in Ek. subst t.
    destruct (get k o) eqn:E; simpl.
    + apply get_set_same.
    + exact E.
  - apply String.eqb_neq in Ek.
    destruct (get k o); [now apply get_set_other | reflexivity].
Qed.

Lemma get_map_values {W} (f : V -> W) t o :
  get t (map (fun entry => (fst entry, f (snd entry))) o)
  = option_map f (get t o).
Proof.
  induction o as [|[k v] rest IH]; simpl; [reflexivity|].
  now destruct (String.eqb t k).
Qed.

Lemma get_In t (v : V) o : get t o = Some v -> In (t, v) o.
Proof.
  induction o as [|[k v'] rest IH]; simpl; [discriminate|].
  destruct (String.eqb t k) eqn:E.
  - apply String.eqb_eq in E. intros [= ->]. left. now subst.
  - auto.
Qed.

Lemma In_get t (v : V) o : In (t, v) o -> exists v', get t o = Some v'.
Proof.
  induction o as [|[k v'] rest IH]; simpl; [contradiction|].
  intros [[= -> ->] | H].
  - rewrite String.eqb_refl. eauto.
  - destruct (String.eqb t k); eauto.
Qed.
End Lookup.

(** A loop that, for the key of each item, creates the entry when absent
    and then increments a counter stored in it. *)
Section Counting.
Context {V : Type} (measure : V -> nat).
Implicit Types (o : obj V) (k t : string).

Lemma counted_empty : counted measure [].
Proof. intros t s. discriminate. Qed.

Lemma absent_iff_zero o t :
  counted measure o -> (get t o = None <-> count_at measure o t = 0).
Proof.
  intros Hc. unfold count_at. destruct (get t o) eqn:E.
  - specialize (Hc _ _ E). split; [discriminate | lia].
  - tauto.
Qed.

Variables (init : V) (bump : V -> V).
Hypothesis init_zero : measure init = 0.
Hypothesis bump_succ : forall s, measure (bump s) = S (measure s).

Lemma count_bump k t o :
  count_at measure (update k bump (ensure k init o)) t
  = count_at measure o t + (if String.eqb k t then 1 else 0).
Proof.
  unfold count_at. rewrite get_update, get_ensure.
  destruct (String.eqb k t); [|destruct (get t o); lia].
  destruct (get t o); simpl; rewrite bump_succ; lia.
Qed.

Lemma counted_bump k o :
  counted measure o -> counted measure (update k bump (ensure k init o)).
Proof.
  intros Hc t s. rewrite get_update, get_ensure.
  destruct (String.eqb k t).
  - destruct (get t o); simpl; intros [= <-]; rewrite bump_succ; lia.
  - destruct (get t o) eqn:E; [|discriminate].
    intros [= <-]. eapply Hc; eauto.
Qed.

Variable keep : V -> V.
Hypothesis keep_same : forall s, measure (keep s) = measure s.

Lemma count_keep k t o :
  count_at measure (update k keep o) t = count_at measure o t.
Proof.
  unfold count_at. rewrite get_update.
  destruct (String.eqb k t); [|reflexivity].
  destruct (get t o); simpl; [apply keep_same | reflexivity].
Qed.

Lemma counted_keep k o : counted measure o -> counted measure (update k keep o).
Proof.
  intros Hc t s. rewrite get_update.
  destruct (String.eqb k t); [|apply Hc].
  destruct (get t o) eqn:E; simpl; [|discriminate].
  intros [= <-]. rewrite keep_same. eapply Hc; eauto.
Qed.
End Counting.

End ObjFacts.

(* ================================================================== *)
(** ** The procedural analyzer                                        *)
(* ================================================================== *)

Module ServerFacts.
Import JS Api Server Counters JSFacts ObjFacts.
Local Open Scope nat_scope.

Lemma record_attempt_topics (st st' : Accumulator) (attempt : Submission) :
  record_attempt st attempt = Ok st' ->
  exists q, quiz attempt = Some q
    /\ acc_topics st'
       = update (topic q) (accumulate attempt)
           (ensure (topic q) initial_stats (acc_topics st)).
Proof.
  unfold record_attempt. destruct (quiz attempt) as [q|]; [|discriminate].
  intros [= <-]. exists q. split; reflexivity.
Qed.

Lemma attempts_on_cons (t : string) (a : Submission) (rest : list Submission) :
  Measures.attempts_on t (a :: rest)
  = (if Measures.on_topic t a then 1 else 0) + Measures.attempts_on t rest.
Proof.
  unfold Measures.attempts_on. simpl. now destruct (Measures.on_topic t a).
Qed.

(** The first loop counts, per topic, the attempts it has seen. *)
Lemma forEach_counts (history : list Submission) :
  forall st st',
    forEach record_attempt history st = Ok st' ->
    counted attempts (acc_topics st) ->
    counted attempts (acc_topics st')
    /\ forall t, count_at attempts (acc_topics st') t
               = count_at attempts (acc_topics st) t
                 + Measures.attempts_on t history.
Proof.
  induction history as [|a rest IH]; intros st st' Hrun Hc.
  - injection Hrun as <-. split; [assumption|]. intros t.
    unfold Measures.attempts_on. simpl. lia.
  - simpl in Hrun. destruct (record_attempt st a) as [st1|] eqn:E;
      [|discriminate].
    simpl in Hrun.
    destruct (record_attempt_topics _ _ _ E) as (q & Hq & Htopics).
    destruct (IH _ _ Hrun) as (Hc' & Hcount).
    { rewrite Htopics. now apply counted_bump. }
    split; [assumption|]. intros t.
    rewrite Hcount, Htopics, attempts_on_cons.
    rewrite (count_bump attempts initial_stats (accumulate a))
      by reflexivity.
    unfold Measures.on_topic. rewrite Hq. lia.
Qed.

Lemma analyzePerformance_inv (submission : Submission)
  (history : list Submission) (analysis : Analysis) :
  analyzePerformance submission history = Ok analysis ->
  exists st,
    forEach record_attempt history
      {| acc_topics := []; acc_accuracyTrend := []; acc_speedTrend := [] |}
    = Ok st
    /\ topicPerformance analysis
       = map (fun entry => (fst entry, finalize (snd entry))) (acc_topics st)
    /\ weakAreas analysis
       = fold_left push_if_weak (topicPerformance analysis) []
    /\ currentPerformance analysis
       = {| cp_accuracy := parseFloat (accuracy submission);
            cp_speed := parseFloat (to_num (speed submission));
            mistakesImprovement :=
              div (mistakes_corrected submission)
                  (initial_mistake_count submission) |}.
Proof.
  unfold analyzePerformance.
  destruct (forEach record_attempt history _) as [st|] eqn:E; [|discriminate].
  simpl. intros [= <-]. exists st. repeat split.
Qed.

(** The analysis never throws when every attempt names its quiz. *)
Lemma analyzePerformance_total (submission : Submission)
  (history : list Submission) :
  Forall (fun a => quiz a <> None) history ->
  exists analysis, analyzePerformance submission history = Ok analysis.
Proof.
  intros Hall. unfold analyzePerformance.
  assert (H : forall st,
             exists st', forEach record_attempt history st = Ok st').
  { induction Hall as [|a rest Ha _ IH]; intros st; simpl; [eauto|].
    unfold record_attempt at 1. destruct (quiz a); [|contradiction].
    simpl. apply IH. }
  destruct (H {| acc_topics := []; acc_accuracyTrend := [];
                 acc_speedTrend := [] |}) as (st' & ->).
  simpl. eauto.
Qed.

Lemma push_if_weak_filter (entries : list (string * TopicStats)) :
  forall weak,
    fold_left push_if_weak entries weak
    = (weak ++ map Measures.weak_entry
                 (filter (fun entry => is_weak (snd entry)) entries))%list.
Proof.
  induction entries as [|e rest IH]; intros weak; simpl.
  - now rewrite app_nil_r.
  - rewrite IH. unfold push_if_weak at 1.
    destruct (is_weak (snd e)); simpl; [|reflexivity].
    now rewrite <- app_assoc.
Qed.

End ServerFacts.

(* ================================================================== *)
(** ** Sorting with a numeric comparator                              *)
(* ================================================================== *)

Module SortFacts.
Import JS JSFacts.

(** For numbers that are not [NaN], the comparator [a - b] orders as
    [<=] does. *)
Lemma before_difference (x y : num) :
  is_nan x = false -> is_nan y = false ->
  negb (lt zero (sub x y)) = le x y.
Proof.
  destruct x as [a| | |], y as [b| | |]; intros Hx Hy;
    try discriminate; try reflexivity.
  rewrite sub_Fin. unfold zero, of_Z, fin.
  apply eq_true_iff_eq. rewrite negb_true_iff, lt_Fin_false, le_Fin.
  rewrite Qred_correct. change (inject_Z 0) with 0. split; intros H; lra.
Qed.

Lemma le_total (x y : num) :
  is_nan x = false -> is_nan y = false -> le x y = false -> le y x = true.
Proof.
  destruct x as [a| | |], y as [b| | |]; intros Hx Hy;
    try discriminate; try reflexivity.
  intros H. apply le_Fin.
  destruct (Qlt_le_dec b a) as [Hlt | Hle].
  - now apply Qlt_le_weak.
  - apply le_Fin in Hle. congruence.
Qed.

Lemma ascending_cons (x : num) (l : list num) :
  Measures.ascending (x :: l) = true
  <-> match l with [] => True | y :: _ => le x y = true end
      /\ Measures.ascending l = true.
Proof.
  destruct l as [|y rest]; simpl.
  - tauto.
  - rewrite andb_true_iff. tauto.
Qed.

Section ByKey.
Context {A : Type} (key : A -> num).

Local Abbreviation cmp := (fun a b : A => sub (key a) (key b)).
Local Abbreviation valid := (fun a : A => is_nan (key a) = false).

Lemma insert_In (x y : A) (l : list A) :
  In y (insert cmp x l) <-> y = x \/ In y l.
Proof.
  induction l as [|z rest IH]; simpl.
  - intuition.
  - destruct (before cmp x z); simpl; rewrite ?IH; intuition.
Qed.

Lemma sort_In (y : A) (l : list A) : In y (sort cmp l) <-> In y l.
Proof.
  induction l as [|x rest IH]; simpl; [tauto|].
  rewrite insert_In, IH. intuition.
Qed.

Lemma sort_length (l : list A) : List.length (sort cmp l) = List.length l.
Proof.
  assert (H : forall x m, List.length (insert cmp x m) = S (List.length m)).
  { intros x m. induction m as [|z rest IH]; simpl; [reflexivity|].
    destruct (before cmp x z); simpl; [reflexivity | now rewrite IH]. }
  induction l as [|x rest IH]; simpl; [reflexivity|].
  now rewrite H, IH.
Qed.

Lemma insert_ascending (x : A) (l : list A) :
  valid x -> Forall valid l ->
  Measures.ascending (map key l) = true ->
  Measures.ascending (map key (insert cmp x l)) = true.
Proof.
  intros Hx Hl. induction Hl as [|y rest Hy Hrest IH]; intros Hasc.
  - reflexivity.
  - simpl insert. unfold before at 1. cbv beta.
    rewrite (before_difference _ _ Hx Hy).
    destruct (le (key x) (key y)) eqn:E.
    + change (map key (x :: y :: rest))
        with (key x :: map key (y :: rest)).
      apply ascending_cons. split; [exact E | exact Hasc].
    + simpl map in Hasc |- *. apply ascending_cons in Hasc.
      destruct Hasc as (Hhead & Htail).
      apply ascending_cons. split; [|now apply IH].
      destruct rest as [|z rest']; simpl.
      * now apply le_total.
      * unfold before at 1. cbv beta.
        inversion Hrest as [|? ? Hz _]; subst.
        rewrite (before_difference _ _ Hx Hz).
        destruct (le (key x) (key z)); simpl.
        -- now apply le_total.
        -- exact Hhead.
Qed.

Lemma sort_valid (l : list A) : Forall valid l -> Forall valid (sort cmp l).
Proof.
  intros H. apply Forall_forall. intros y Hy.
  apply (proj1 (sort_In _ _)) in Hy.
  rewrite Forall_forall in H. exact (H y Hy).
Qed.

(** [arr.sort((a, b) => key(a) - key(b))] is ascending in [key] when no
    key is [NaN]. *)
Lemma sort_ascending (l : list A) :
  Forall valid l -> Measures.ascending (map key (sort cmp l)) = true.
Proof.
  induction 1 as [|x rest Hx Hrest IH]; simpl; [reflexivity|].
  apply insert_ascending; auto. now apply sort_valid.
Qed.
End ByKey.

End SortFacts.

(* ================================================================== *)
(** ** Claims about the analyzers                                     *)
(* ================================================================== *)

Module AnalyzerClaims.
Import JS Counters JSFacts ObjFacts ServerFacts SortFacts.
Local Open Scope nat_scope.

Lemma questions_counted (currentQuiz : Data.Quiz) (answers : Data.Submission)
  (qs : list Data.Question) :
  forall o,
    counted QuizAnalyzer.total o ->
    counted QuizAnalyzer.total
      (fold_left (QuizAnalyzer.count_question currentQuiz answers) qs o)
    /\ forall t,
         count_at QuizAnalyzer.total
           (fold_left (QuizAnalyzer.count_question currentQuiz answers) qs o) t
         = count_at QuizAnalyzer.total o t
           + List.length
               (filter (fun q => String.eqb (Data.topic q) t) qs).
Proof.
  induction qs as [|q rest IH]; intros o Hc; simpl.
  - split; [assumption | intros; lia].
  - set (o1 := QuizAnalyzer.count_question currentQuiz answers o q).
    assert (H1 : counted QuizAnalyzer.total o1
                 /\ forall t, count_at QuizAnalyzer.total o1 t
                    = count_at QuizAnalyzer.total o t
                      + (if String.eqb (Data.topic q) t then 1 else 0)).
    { unfold o1, QuizAnalyzer.count_question.
      destruct (QuizAnalyzer.isCorrectAnswer _ _ _).
      - split.
        + apply counted_keep; [reflexivity|].
          now apply counted_bump.
        + intros t.
          rewrite (count_keep QuizAnalyzer.total QuizAnalyzer.incr_correct)
            by reflexivity.
          now apply count_bump.
      - split; [now apply counted_bump | intros t; now apply count_bump]. }
    destruct H1 as (Hc1 & Hn1). destruct (IH o1 Hc1) as (Hc2 & Hn2).
    split; [assumption|]. intros t. rewrite Hn2, Hn1.
    destruct (String.eqb (Data.topic q) t); simpl; lia.
Qed.

(** C5.  A topic without any attempt is not a key of [topicPerformance],
    and every key that is present has counted at least one attempt, so
    the averages of an entry are never quotients by a zero count.  The
    same holds for the per-topic question counts of
    [calculateTopicPerformance]. *)
Theorem C5_topics_without_attempts_have_no_entry
  (submission : Api.Submission) (history : list Api.Submission)
  (analysis : Server.Analysis)
  (currentQuiz : Data.Quiz) (answers : Data.Submission) (t : string) :
  Server.analyzePerformance submission history = Ok analysis ->
  (Measures.attempts_on t history = 0 ->
   get t (Server.topicPerformance analysis) = None)
  /\ (forall stats,
        get t (Server.topicPerformance analysis) = Some stats ->
        Server.attempts stats = Measures.attempts_on t history
        /\ 1 <= Server.attempts stats
        /\ Server.averageAccuracy stats
           = Some (div (Server.totalAccuracy stats)
                       (of_nat (Server.attempts stats)))
        /\ Server.averageMistakeRate stats
           = Some (div (Server.mistakeRate stats)
                       (of_nat (Server.attempts stats))))
  /\ (Measures.questions_on t currentQuiz = 0 ->
      get t (QuizAnalyzer.calculateTopicPerformance currentQuiz answers)
      = None)
  /\ (forall r,
        get t (QuizAnalyzer.calculateTopicPerformance currentQuiz answers)
        = Some r ->
        QuizAnalyzer.totalQuestions r = Measures.questions_on t currentQuiz
        /\ 1 <= QuizAnalyzer.totalQuestions r
        /\ QuizAnalyzer.topic_accuracy r
           = div (of_nat (QuizAnalyzer.correctAnswers r))
                 (of_nat (QuizAnalyzer.totalQuestions r))).
Proof.
  intros Hrun.
  destruct (analyzePerformance_inv _ _ _ Hrun) as (st & Hloop & Htp & _).
  destruct (forEach_counts _ _ _ Hloop (counted_empty Server.attempts))
    as (Hc & Hn).
  specialize (Hn t). simpl in Hn.
  destruct (questions_counted currentQuiz answers
              (Data.questions currentQuiz) []
              (counted_empty QuizAnalyzer.total)) as (Hqc & Hqn).
  specialize (Hqn t). simpl in Hqn.
  fold (QuizAnalyzer.topicStats currentQuiz answers) in Hqc, Hqn.
  fold (Measures.questions_on t currentQuiz) in Hqn.
  rewrite Htp, get_map_values.
  unfold QuizAnalyzer.calculateTopicPerformance. rewrite get_map_values.
  unfold count_at in Hn, Hqn.
  repeat split.
  - intros Hzero. destruct (get t (Server.acc_topics st)) as [s|] eqn:E;
      [|reflexivity].
    specialize (Hc _ _ E). lia.
  - destruct (get t (Server.acc_topics st)) as [s|]; [|discriminate].
    injection H as <-. simpl. lia.
  - destruct (get t (Server.acc_topics st)) as [s|] eqn:E; [|discriminate].
    injection H as <-. simpl. eapply Hc; eauto.
  - destruct (get t (Server.acc_topics st)) as [s|]; [|discriminate].
    injection H as <-. reflexivity.
  - destruct (get t (Server.acc_topics st)) as [s|]; [|discriminate].
    injection H as <-. reflexivity.
  - intros Hzero.
    destruct (get t (QuizAnalyzer.topicStats currentQuiz answers))
      as [s|] eqn:E; [|reflexivity].
    specialize (Hqc _ _ E). lia.
  - destruct (get t (QuizAnalyzer.topicStats currentQuiz answers))
      as [s|]; [|discriminate].
    injection H as <-. simpl. lia.
  - destruct (get t (QuizAnalyzer.topicStats currentQuiz answers))
      as [s|] eqn:E; [|discriminate].
    injection H as <-. simpl. eapply Hqc; eauto.
  - destruct (get t (QuizAnalyzer.topicStats currentQuiz answers))
      as [s|]; [|discriminate].
    injection H as <-. reflexivity.
Qed.

Lemma C5_topics_without_attempts_have_no_entry_witness :
  exists analysis,
    Server.analyzePerformance (Examples.submitted 80 100 3 4)
      Examples.two_weak_topics = Ok analysis
    /\ get "Botany" (Server.topicPerformance analysis) = None.
Proof.
  eexists. split; [vm_compute; reflexivity|].
  apply (C5_topics_without_attempts_have_no_entry
           (Examples.submitted 80 100 3 4) Examples.two_weak_topics _
           {| Data.questions := [] |}
           {| Data.sub_score := zero; Data.sub_accuracy := zero;
              Data.sub_speed := zero; Data.answers := [] |}
           "Botany");
    vm_compute; reflexivity.
Defined.

Lemma finalized_entry (st : list (string * Server.TopicStats))
  (t : string) (stats : Server.TopicStats) :
  In (t, stats)
     (map (fun entry => (fst entry, Server.finalize (snd entry))) st) ->
  exists acc mr,
    Server.averageAccuracy stats = Some acc
    /\ Server.averageMistakeRate stats = Some mr.
Proof.
  intros H. apply in_map_iff in H. destruct H as ((k & s) & [= <- <-] & _).
  simpl. eauto.
Qed.

Lemma is_weak_thresholds (stats : Server.TopicStats) (acc mr : num) :
  Server.averageAccuracy stats = Some acc ->
  Server.averageMistakeRate stats = Some mr ->
  Server.is_weak stats = true
  <-> lt acc (of_Z 70) = true \/ gt mr (dec 3 10) = true.
Proof.
  intros Ha Hm. unfold Server.is_weak. rewrite Ha, Hm. simpl to_num.
  apply orb_true_iff.
Qed.

Lemma below_70_not_nan (x : num) : lt x (of_Z 70) = true -> is_nan x = false.
Proof. destruct x; try reflexivity. discriminate. Qed.

(** C1, as amended.  The weak-areas list of [analyzePerformance] holds
    exactly the topics of [topicPerformance] whose averageAccuracy is
    below 70 or whose averageMistakeRate exceeds 0.3, in the order in
    which [topicPerformance] enumerates them; it is the helper
    [identifyWeaknesses] that sorts ascending by accuracy, and it selects
    by accuracy below 70 alone. *)
Theorem C1_weak_areas_by_threshold_in_topic_order
  (submission : Api.Submission) (history submissions : list Api.Submission)
  (analysis : Server.Analysis) :
  Server.analyzePerformance submission history = Ok analysis ->
  Server.weakAreas analysis
  = map Measures.weak_entry
      (filter (fun entry => Server.is_weak (snd entry))
         (Server.topicPerformance analysis))
  /\ (forall t acc mr,
        In {| Server.weak_topic := t; Server.weak_averageAccuracy := acc;
              Server.weak_mistakeRate := mr |} (Server.weakAreas analysis)
        <-> exists stats,
              In (t, stats) (Server.topicPerformance analysis)
              /\ Server.averageAccuracy stats = Some acc
              /\ Server.averageMistakeRate stats = Some mr
              /\ (lt acc (of_Z 70) = true \/ gt mr (dec 3 10) = true))
  /\ Measures.ascending
       (map DataProcessor.weakness_accuracy
          (DataProcessor.identifyWeaknesses submissions)) = true
  /\ (forall w,
        In w (DataProcessor.identifyWeaknesses submissions)
        <-> exists area,
              In area (DataProcessor.prepareTopicDistributionData submissions)
              /\ lt (DataProcessor.dist_accuracy area) (of_Z 70) = true
              /\ w = DataProcessor.weakness_of area).
Proof.
  intros Hrun.
  destruct (analyzePerformance_inv _ _ _ Hrun) as (st & _ & Htp & Hweak & _).
  assert (Heq : Server.weakAreas analysis
                = map Measures.weak_entry
                    (filter (fun entry => Server.is_weak (snd entry))
                       (Server.topicPerformance analysis))).
  { rewrite Hweak. apply (push_if_weak_filter _ []). }
  split; [exact Heq|]. split; [|split].
  - intros t acc mr. rewrite Heq, in_map_iff. split.
    + intros ((k & stats) & Hrec & Hin). apply filter_In in Hin.
      destruct Hin as (Hin & Hw). simpl in Hw.
      injection Hrec as -> Hacc Hmr. simpl in Hacc, Hmr.
      pose proof Hin as Hfin. rewrite Htp in Hfin.
      destruct (finalized_entry _ _ _ Hfin) as (a & m & Ha & Hm).
      rewrite Ha in Hacc. rewrite Hm in Hmr. simpl in Hacc, Hmr. subst a m.
      exists stats. repeat split; try assumption.
      now apply (is_weak_thresholds stats acc mr).
    + intros (stats & Hin & Ha & Hm & Hthr).
      exists (t, stats). split.
      * unfold Measures.weak_entry. simpl. now rewrite Ha, Hm.
      * apply filter_In. split; [exact Hin|]. simpl.
        now apply (is_weak_thresholds stats acc mr).
  - unfold DataProcessor.identifyWeaknesses. rewrite map_map.
    change (fun x => DataProcessor.weakness_accuracy
                       (DataProcessor.weakness_of x))
      with DataProcessor.dist_accuracy.
    apply (sort_ascending DataProcessor.dist_accuracy).
    apply Forall_forall. intros area Hin. apply filter_In in Hin.
    now apply below_70_not_nan.
  - intros w. unfold DataProcessor.identifyWeaknesses.
    rewrite in_map_iff. split.
    + intros (area & <- & Hin).
      apply (proj1 (sort_In DataProcessor.dist_accuracy _ _)) in Hin.
      apply filter_In in Hin. destruct Hin. eauto.
    + intros (area & Hin & Hlt & ->). exists area. split; [reflexivity|].
      apply (proj2 (sort_In DataProcessor.dist_accuracy _ _)).
      apply filter_In. auto.
Qed.

Lemma C1_weak_areas_by_threshold_in_topic_order_witness :
  exists analysis,
    Server.analyzePerformance (Examples.submitted 80 100 3 4)
      Examples.two_weak_topics = Ok analysis
    /\ Server.weakAreas analysis
       = map Measures.weak_entry
           (filter (fun entry => Server.is_weak (snd entry))
              (Server.topicPerformance analysis)).
Proof.
  eexists. split; [vm_compute; reflexivity|].
  refine (proj1 (C1_weak_areas_by_threshold_in_topic_order
                   (Examples.submitted 80 100 3 4) Examples.two_weak_topics
                   Examples.two_weak_topics _ _)).
  vm_compute; reflexivity.
Defined.

(** C1 fails as stated: with Physics (accuracy 60) attempted before
    Biology (accuracy 50), both are weak and the list keeps the order of
    first appearance, so it is not ascending in accuracy. *)
Lemma C1_counterexample :
  exists analysis,
    Server.analyzePerformance (Examples.submitted 80 100 3 4)
      Examples.two_weak_topics = Ok analysis
    /\ map Server.weak_averageAccuracy (Server.weakAreas analysis)
       = [of_Z 60; of_Z 50]
    /\ Measures.ascending
         (map Server.weak_averageAccuracy (Server.weakAreas analysis))
       = false.
Proof.
  eexists. split; [vm_compute; reflexivity|].
  split; vm_compute; reflexivity.
Qed.

End AnalyzerClaims.

(* ================================================================== *)
(** ** Division guards and validation                                 *)
(* ================================================================== *)

Module GuardClaims.
Import JS JSFacts ServerFacts.

Lemma inf_of_not_finite (c : comparison) : is_finite (inf_of c) = false.
Proof. now destruct c. Qed.

(** Dividing by zero never gives a finite number. *)
Lemma div_by_zero (x y : num) :
  strict_eq y zero = true ->
  is_finite (div x y) = false
  /\ (strict_eq x zero = true -> div x y = NaN)
  /\ (lt zero x = true -> div x y = PInf).
Proof.
  destruct y as [b| | |]; try discriminate. intros Hb.
  change (Qeq_bool b 0 = true) in Hb.
  destruct x as [a| | |]; unfold div; rewrite ?Hb.
  - split; [apply inf_of_not_finite|]. split.
    + intros Ha. change (Qeq_bool a 0 = true) in Ha.
      apply Qeq_bool_iff in Ha. unfold sgn.
      apply Qeq_alt in Ha. now rewrite Ha.
    + intros Ha. apply (lt_Fin 0 a) in Ha.
      unfold sgn. apply Qgt_alt in Ha. now rewrite Ha.
  - apply Qeq_bool_iff in Hb.
    assert (E : Qle_bool 0 b = true) by (apply Qle_bool_iff; lra).
    rewrite E. repeat split; discriminate.
  - apply Qeq_bool_iff in Hb.
    assert (E : Qle_bool 0 b = true) by (apply Qle_bool_iff; lra).
    rewrite E. repeat split; discriminate.
  - repeat split; discriminate.
Qed.

(** C3, as amended.  [currentPerformance] carries accuracy, speed and
    mistakesImprovement = mistakesCorrected / initialMistakeCount, the
    plain quotient: when initialMistakeCount is 0 the call does not fail
    and no sentinel is substituted; the value is NaN when
    mistakesCorrected is 0 and Infinity when it is positive. *)
Theorem C3_mistakes_improvement_is_the_plain_quotient
  (submission : Api.Submission) (history : list Api.Submission)
  (analysis : Server.Analysis) :
  Server.analyzePerformance submission history = Ok analysis ->
  let cp := Server.currentPerformance analysis in
  Server.cp_accuracy cp = parseFloat (Api.accuracy submission)
  /\ Server.cp_speed cp = parseFloat (to_num (Api.speed submission))
  /\ Server.mistakesImprovement cp
     = div (Api.mistakes_corrected submission)
           (Api.initial_mistake_count submission)
  /\ (strict_eq (Api.initial_mistake_count submission) zero = true ->
      is_finite (Server.mistakesImprovement cp) = false
      /\ (strict_eq (Api.mistakes_corrected submission) zero = true ->
          Server.mistakesImprovement cp = NaN)
      /\ (lt zero (Api.mistakes_corrected submission) = true ->
          Server.mistakesImprovement cp = PInf)).
Proof.
  intros Hrun cp.
  destruct (analyzePerformance_inv _ _ _ Hrun) as (st & _ & _ & _ & Hcp).
  subst cp. rewrite Hcp. simpl.
  split; [reflexivity|]. split; [reflexivity|]. split; [reflexivity|].
  intros Hz. now apply div_by_zero.
Qed.

Lemma C3_mistakes_improvement_is_the_plain_quotient_witness :
  exists analysis,
    Server.analyzePerformance (Examples.submitted 80 100 3 0) [] = Ok analysis
    /\ Server.mistakesImprovement (Server.currentPerformance analysis) = PInf.
Proof.
  eexists. split; [vm_compute; reflexivity|].
  match goal with
  | |- Server.mistakesImprovement (Server.currentPerformance ?a) = _ =>
      destruct (C3_mistakes_improvement_is_the_plain_quotient
                  (Examples.submitted 80 100 3 0) [] a)
        as (_ & _ & _ & H); [vm_compute; reflexivity|]
  end.
  destruct (H eq_refl) as (_ & _ & H3). exact (H3 eq_refl).
Defined.

(** C3 fails as stated: with initialMistakeCount 0 the analysis is
    returned, not refused, and mistakesImprovement is NaN (0/0) or
    Infinity (3/0) in it. *)
Lemma C3_counterexample :
  (exists analysis,
     Server.analyzePerformance (Examples.submitted 80 100 0 0) [] = Ok analysis
     /\ Server.mistakesImprovement (Server.currentPerformance analysis) = NaN)
  /\ (exists analysis,
        Server.analyzePerformance (Examples.submitted 80 100 3 0) []
        = Ok analysis
        /\ Server.mistakesImprovement (Server.currentPerformance analysis)
           = PInf).
Proof.
  split; eexists; (split; [vm_compute; reflexivity|]); vm_compute; reflexivity.
Qed.

(** The validator does refuse an attempt that has all required fields and
    more correct answers than questions. *)
Lemma validate_rejects_excess (data : Api.Submission) :
  DataProcessor.present (Api.quiz_id data) = true ->
  DataProcessor.present (Api.submitted_at data) = true ->
  DataProcessor.present (Api.correct_answers data) = true ->
  DataProcessor.present (Api.total_questions data) = true ->
  DataProcessor.present (Api.speed data) = true ->
  gt (to_num (Api.correct_answers data)) (to_num (Api.total_questions data))
  = true ->
  DataProcessor.validateSubmissionData data
  = Throw "Correct answers cannot exceed total questions".
Proof.
  intros H1 H2 H3 H4 H5 Hgt. unfold DataProcessor.validateSubmissionData.
  unfold DataProcessor.requiredFields. cbn [filter snd fst negb map].
  rewrite H1, H2, H3, H4, H5. cbn [negb map List.length Nat.ltb Nat.leb].
  now rewrite Hgt.
Qed.

(** The analysis route answers with whatever [analyzePerformance]
    returns: it never consults the validator. *)
Lemma analysis_route_unvalidated (data : Api.Loaded)
  (analysis : Server.Analysis) :
  Server.analyzePerformance (Api.submission data) (Api.history data)
  = Ok analysis ->
  Server.analysis_route (Ok data) = Server.Json analysis.
Proof. intros H. unfold Server.analysis_route. simpl. now rewrite H. Qed.

(** C8, at the failing input.  A submission with 101 correct answers out
    of 100 is refused by [validateSubmissionData], yet the analysis route
    answers it with a complete analysis. *)
Theorem C8_excess_correct_answers_are_analysed :
  let bad := Examples.submitted 101 100 3 4 in
  DataProcessor.validateSubmissionData bad
  = Throw "Correct answers cannot exceed total questions"
  /\ Server.analysis_route
       (Ok {| Api.submission := bad; Api.history := [] |})
     = Server.Json
         {| Server.currentPerformance :=
              {| Server.cp_accuracy := of_Z 80;
                 Server.cp_speed := of_Z 100;
                 Server.mistakesImprovement := dec 75 100 |};
            Server.topicPerformance := [];
            Server.weakAreas := [];
            Server.trends := {| Server.trends_accuracy := [];
                                Server.trends_speed := [] |} |}.
Proof. split; vm_compute; reflexivity. Qed.

(** C6, at the failing inputs.  [calculateConsistencyScore] has no guard:
    an empty history, a single score of 0 and identical scores of 0 all
    give NaN, where the predictor's [calculateConsistency] returns 1 for
    fewer than two points and the server's [predictRank] guards the
    quotient; identical non-zero scores give exactly 1. *)
Theorem C6_consistency_score_lacks_the_guard :
  QuizAnalyzer.calculateConsistencyScore [] = NaN
  /\ QuizAnalyzer.calculateConsistencyScore [Examples.scored 0] = NaN
  /\ QuizAnalyzer.calculateConsistencyScore
       [Examples.scored 0; Examples.scored 0] = NaN
  /\ RankPredictor.calculateConsistency [] = one
  /\ RankPredictor.calculateConsistency [Examples.scored 0] = one
  /\ RankPredictor.calculateConsistency
       [Examples.scored 0; Examples.scored 0] = NaN
  /\ Server.consistency
       (Server.metrics (Server.predictRank (Examples.submitted 80 100 3 4) []))
     = one
  /\ QuizAnalyzer.calculateConsistencyScore
       [Examples.scored 50; Examples.scored 50; Examples.scored 50] = one.
Proof. repeat split; vm_compute; reflexivity. Qed.

End GuardClaims.

(* ================================================================== *)
(** ** Moving average and trend order                                 *)
(* ================================================================== *)

Module TrendFacts.
Import JS Api DataProcessor JSFacts SortFacts.
Local Open Scope nat_scope.

Lemma push_all {A B} (f : A -> B) (l : list A) :
  forall acc,
    fold_left (fun result i => (result ++ [f i])%list) l acc
    = (acc ++ map f l)%list.
Proof.
  induction l as [|x rest IH]; intros acc; simpl.
  - now rewrite app_nil_r.
  - rewrite IH. now rewrite <- app_assoc.
Qed.

Lemma moving_average_map (data : list num) (windowSize : Z) :
  calculateMovingAverage data windowSize
  = map (fun i => calculateMean (window_at data windowSize i))
        (List.seq 0 (List.length data)).
Proof. unfold calculateMovingAverage. now rewrite push_all. Qed.

Lemma moving_average_length (data : list num) (windowSize : Z) :
  List.length (calculateMovingAverage data windowSize) = List.length data.
Proof. now rewrite moving_average_map, length_map, length_seq. Qed.

Lemma moving_average_at (data : list num) (windowSize : Z) (i : nat) :
  i < List.length data ->
  nth_error (calculateMovingAverage data windowSize) i
  = Some (calculateMean (window_at data windowSize i)).
Proof.
  intros Hi. rewrite moving_average_map, nth_error_map, nth_error_seq.
  apply Nat.ltb_lt in Hi. now rewrite Hi.
Qed.

(** The window of iteration [i]: the last [min (i+1) windowSize] elements
    of the prefix [data[0..i]]. *)
Lemma window_is_suffix_of_prefix (data : list num) (windowSize : Z) (i : nat) :
  i < List.length data ->
  let k := Nat.min (S i) (Z.to_nat windowSize) in
  window_at data windowSize i = skipn (S i - k) (firstn (S i) data)
  /\ List.length (window_at data windowSize i) = k.
Proof.
  intros Hi k.
  assert (Hw : window_at data windowSize i
               = skipn (S i - k) (firstn (S i) data)).
  { unfold window_at, slice. cbv zeta.
    assert (Hs : (Z.max 0 (Z.of_nat i - windowSize + 1) <? 0)%Z = false)
      by (apply Z.ltb_ge; lia).
    assert (He : (Z.of_nat i + 1 <? 0)%Z = false) by (apply Z.ltb_ge; lia).
    rewrite Hs, He, skipn_firstn_comm.
    destruct (Z.le_gt_cases windowSize 0) as [Hle | Hgt].
    - replace (Z.to_nat _) with 0 by lia.
      replace (S i - (S i - k)) with 0 by lia. reflexivity.
    - f_equal; [lia|]. f_equal. lia. }
  split; [exact Hw|].
  rewrite Hw, length_skipn, length_firstn. lia.
Qed.

Lemma mean_of_nonempty (values : list num) :
  values <> [] ->
  calculateMean values = div (sum values) (of_nat (List.length values)).
Proof. destruct values; [contradiction | reflexivity]. Qed.

Lemma combine_same_length {A B C} (g : B -> C) (f : A -> C) :
  forall (l1 : list A) (l2 : list B),
    List.length l1 = List.length l2 ->
    map (fun vp => g (snd vp)) (combine l1 l2) = map g l2
    /\ map (fun vp => f (fst vp)) (combine l1 l2) = map f l1.
Proof.
  induction l1 as [|x rest IH]; intros [|y rest'] Hlen;
    try discriminate; simpl; [auto|].
  injection Hlen as Hlen. destruct (IH _ Hlen) as (-> & ->). auto.
Qed.

Lemma smooth_keeps_dates (points : list TrendPoint) :
  map date (smooth points) = map date points
  /\ map value (smooth points) = calculateMovingAverage (map value points) 3.
Proof.
  unfold smooth. rewrite !map_map. cbn [date value].
  destruct (combine_same_length date (fun v : num => v)
              (calculateMovingAverage (map value points) 3) points)
    as (H1 & H2).
  { now rewrite moving_average_length, length_map. }
  rewrite H1, H2, map_id. auto.
Qed.

Lemma record_trend_all (l : list Submission) :
  forall init,
    trends_accuracy (fold_left record_trend l init)
    = (trends_accuracy init
       ++ map (fun s => {| date := date_of s; value := accuracy_of s;
                           raw := None |}) l)%list
    /\ trends_speed (fold_left record_trend l init)
       = (trends_speed init
          ++ map (fun s => {| date := date_of s;
                              value := parseFloat (to_num (speed s));
                              raw := None |}) l)%list.
Proof.
  induction l as [|s rest IH]; intros init; simpl.
  - now rewrite !app_nil_r.
  - destruct (IH (record_trend init s)) as (-> & ->).
    simpl. now rewrite <- !app_assoc.
Qed.

(** Both trend sequences list the sorted submissions, date by date. *)
Lemma trend_dates (submissions : list Submission) :
  let trends := analyzeImprovementTrends submissions in
  map date (trends_accuracy trends)
  = map date_of (sort by_date submissions)
  /\ map date (trends_speed trends)
     = map date_of (sort by_date submissions)
  /\ map value (trends_accuracy trends)
     = calculateMovingAverage
         (map accuracy_of (sort by_date submissions)) 3.
Proof.
  unfold analyzeImprovementTrends. cbn zeta. simpl trends_accuracy.
  simpl trends_speed.
  destruct (record_trend_all (sort by_date submissions)
              {| trends_accuracy := []; trends_speed := [];
                 topicWise := [] |}) as (Ha & Hs).
  simpl in Ha, Hs. rewrite Ha, Hs.
  destruct (smooth_keeps_dates
              (map (fun s => {| date := date_of s; value := accuracy_of s;
                                raw := None |})
                 (sort by_date submissions))) as (Hd & Hv).
  rewrite Hd, Hv, !map_map. simpl. auto.
Qed.

Lemma insert_permutation {A} (cmp : A -> A -> num) (x : A) (l : list A) :
  Permutation (insert cmp x l) (x :: l).
Proof.
  induction l as [|y rest IH]; simpl; [reflexivity|].
  destruct (before cmp x y); [reflexivity|].
  rewrite IH. apply perm_swap.
Qed.

(** Sorting keeps every element, as many times as it occurs. *)
Lemma sort_permutation {A} (cmp : A -> A -> num) (l : list A) :
  Permutation (sort cmp l) l.
Proof.
  induction l as [|x rest IH]; simpl; [reflexivity|].
  rewrite insert_permutation. now constructor.
Qed.

Lemma combine_raw {A} (values : list A) :
  forall points : list TrendPoint,
    List.length values = List.length points ->
    map (fun vp : A * TrendPoint => Some (value (snd vp)))
      (combine values points)
    = map (fun p => Some (value p)) points.
Proof.
  induction values as [|v rest IH]; intros [|p points] Hlen;
    try discriminate; [reflexivity|].
  simpl. f_equal. apply IH. now injection Hlen.
Qed.

Lemma smooth_keeps_raw (points : list TrendPoint) :
  map raw (smooth points) = map (fun p => Some (value p)) points.
Proof.
  unfold smooth. rewrite map_map. cbn [raw].
  apply combine_raw. now rewrite moving_average_length, length_map.
Qed.

(** C9, as amended.  The moving average has the length of its input; its
    value at position i is the mean of the window made of the last
    min(i+1, windowSize) elements of the prefix ending at i.  The trends
    list every submission once, in one common order: each accuracy point
    carries the time stamp of its submission, its accuracy as raw value
    and the moving average (window 3) of the accuracies up to it, each
    speed point the time stamp and the speed.  That order is ascending in
    the time stamp whenever every time stamp is a valid date. *)
Theorem C9_moving_average_over_sorted_trends
  (data : list num) (windowSize : Z) (i : nat)
  (submissions : list Submission) :
  let smoothed := calculateMovingAverage data windowSize in
  let window := window_at data windowSize i in
  let k := Nat.min (S i) (Z.to_nat windowSize) in
  let trends := analyzeImprovementTrends submissions in
  let stamp := fun s => to_num (submitted_at s) in
  let percent :=
    fun s => mul (div (to_num (correct_answers s))
                      (to_num (total_questions s)))
                 (of_Z 100) in
  List.length smoothed = List.length data
  /\ (i < List.length data ->
      nth_error smoothed i = Some (calculateMean window)
      /\ window = skipn (S i - k) (firstn (S i) data)
      /\ List.length window = k
      /\ (window <> [] ->
          calculateMean window
          = div (sum window) (of_nat (List.length window))))
  /\ exists sorted,
       Permutation sorted submissions
       /\ (Forall (fun s => is_nan (stamp s) = false) submissions ->
           Measures.ascending (map stamp sorted) = true)
       /\ map date (trends_accuracy trends) = map stamp sorted
       /\ map raw (trends_accuracy trends)
          = map (fun s => Some (percent s)) sorted
       /\ map value (trends_accuracy trends)
          = calculateMovingAverage (map percent sorted) 3
       /\ trends_speed trends
          = map (fun s => {| date := stamp s;
                             value := parseFloat (to_num (speed s));
                             raw := None |}) sorted.
Proof.
  intros smoothed window k trends stamp percent.
  split; [apply moving_average_length|]. split.
  { intros Hi.
    destruct (window_is_suffix_of_prefix data windowSize i Hi) as (Hw & Hk).
    split; [now apply moving_average_at|].
    split; [exact Hw|]. split; [exact Hk|]. apply mean_of_nonempty. }
  exists (sort by_date submissions).
  split; [apply sort_permutation|].
  split; [intros Hdates; apply (sort_ascending date_of); exact Hdates|].
  destruct (trend_dates submissions) as (Ha & _ & Hv).
  fold trends in Ha, Hv.
  split; [exact Ha|]. split; [|split; [exact Hv|]].
  - unfold trends, analyzeImprovementTrends. cbn zeta.
    cbn [trends_accuracy]. rewrite smooth_keeps_raw.
    destruct (record_trend_all (sort by_date submissions)
                {| trends_accuracy := []; trends_speed := [];
                   topicWise := [] |}) as (Hacc & _).
    rewrite Hacc. cbn [trends_accuracy app]. rewrite map_map. reflexivity.
  - unfold trends, analyzeImprovementTrends. cbn zeta.
    cbn [trends_speed].
    destruct (record_trend_all (sort by_date submissions)
                {| trends_accuracy := []; trends_speed := [];
                   topicWise := [] |}) as (_ & Hspd).
    rewrite Hspd. reflexivity.
Qed.

Lemma C9_moving_average_over_sorted_trends_witness :
  nth_error
    (calculateMovingAverage [of_Z 1; of_Z 2; of_Z 3; of_Z 4; of_Z 8] 3) 4
  = Some (calculateMean [of_Z 3; of_Z 4; of_Z 8])
  /\ Measures.ascending
       (map date (trends_accuracy
                    (analyzeImprovementTrends Examples.two_weak_topics)))
     = true.
Proof.
  destruct (C9_moving_average_over_sorted_trends
              [of_Z 1; of_Z 2; of_Z 3; of_Z 4; of_Z 8] 3 4
              Examples.two_weak_topics)
    as (_ & H2 & (sorted & _ & Hasc & Hd & _)).
  split.
  - apply H2. simpl. lia.
  - rewrite Hd. apply Hasc. repeat constructor.
Defined.

(** C9 fails as stated: a submission whose time stamp is not a valid
    date is compared as a tie with every other one and stays where it is,
    so the trends hold an invalid date after a valid one and are not
    ascending. *)
Lemma C9_counterexample :
  map date (trends_accuracy
              (analyzeImprovementTrends Examples.one_invalid_date))
  = [of_Z 2; NaN]
  /\ Measures.ascending
       (map date (trends_accuracy
                    (analyzeImprovementTrends Examples.one_invalid_date)))
     = false
  /\ Measures.ascending
       (map date (trends_speed
                    (analyzeImprovementTrends Examples.one_invalid_date)))
     = false.
Proof.
  vm_compute. repeat split.
Qed.

End TrendFacts.

(* ================================================================== *)
(** ** Consistency of a constant score series                         *)
(* ================================================================== *)

Module ConsistencyFacts.
Import JS Data JSFacts.

Lemma sum_constant (v : Q) (scores : list num) :
  Forall (fun x => exists q, x = Fin q /\ q == v) scores ->
  forall a, exists s,
    fold_left add scores (Fin a) = Fin s
    /\ s == a + inject_Z (Z.of_nat (List.length scores)) * v.
Proof.
  induction 1 as [|x rest (q & -> & Hq) _ IH]; intros a.
  - exists a. split; [reflexivity|]. simpl. ring.
  - cbn [fold_left]. rewrite add_Fin. unfold fin.
    destruct (IH (Qred (a + q))) as (s & Hs & Heq).
    exists s. split; [exact Hs|]. change (q == v) in Hq.
    cbn [List.length]. rewrite Heq, Qred_correct, Hq.
    rewrite Nat2Z.inj_succ, <- Z.add_1_r, inject_Z_plus.
    change (inject_Z 1) with 1. ring.
Qed.

Lemma squares_vanish (mean : Q) (scores : list num) :
  Forall (fun x => exists q, x = Fin q /\ q == mean) scores ->
  fold_left (fun a b => add a (Math_pow (sub b (Fin mean)) 2)) scores (Fin 0)
  = Fin 0.
Proof.
  induction 1 as [|x rest (q & -> & Hq) _ IH]; [reflexivity|].
  cbn [fold_left]. rewrite sub_Fin. change (q == mean) in Hq.
  rewrite (fin_eq (q - mean) 0) by (rewrite Hq; ring).
  exact IH.
Qed.

(** The consistency formula on a non-empty series of one repeated
    non-zero score. *)
Lemma consistency_of_constant (v : Q) (scores : list num) :
  ~ v == 0 -> scores <> [] ->
  Forall (fun x => exists q, x = Fin q /\ q == v) scores ->
  let mean := div (sum scores) (of_nat (List.length scores)) in
  sub one
    (div (Math_sqrt
            (div (fold_left (fun a b => add a (Math_pow (sub b mean) 2))
                    scores zero)
                 (of_nat (List.length scores))))
         mean)
  = one.
Proof.
  intros Hv Hne Hall mean.
  assert (Hlen : ~ inject_Z (Z.of_nat (List.length scores)) == 0).
  { destruct scores; [contradiction|]. cbn [List.length].
    rewrite Nat2Z.inj_succ. intros H.
    change 0 with (inject_Z 0) in H.
    apply (proj1 (inject_Z_injective _ _)) in H. lia. }
  destruct (sum_constant v scores Hall (inject_Z 0)) as (s & Hs & Heq).
  change (inject_Z 0) with 0 in Heq.
  assert (Hmean : exists m, mean = Fin m /\ m == v).
  { unfold mean, sum, zero, of_nat, of_Z. rewrite Hs.
    rewrite div_Fin by exact Hlen. eexists. split; [reflexivity|].
    rewrite Qred_correct, Heq. field. exact Hlen. }
  destruct Hmean as (m & Hm & Hmv). rewrite Hm.
  assert (Hm0 : ~ m == 0).
  { intros H0. apply Hv. rewrite <- Hmv. exact H0. }
  rewrite squares_vanish.
  - unfold of_nat, of_Z. rewrite (div_Fin _ _ Hlen).
    rewrite (fin_eq (0 / _) 0) by (field; exact Hlen).
    change (fin 0) with (Fin 0).
    rewrite (div_Fin _ _ Hm0).
    rewrite (fin_eq (0 / m) 0) by (field; exact Hm0).
    reflexivity.
  - eapply Forall_impl; [|exact Hall].
    intros x (q & -> & Hq). exists q. split; [reflexivity|].
    change (q == v) in Hq. now rewrite Hq, Hmv.
Qed.

(** Both services return exactly 1 on a series of identical non-zero
    scores (of at least two points for the predictor, which returns 1 on
    shorter ones by its guard). *)
Lemma identical_nonzero_scores (v : Q) (history : list HistoryEntry) :
  ~ v == 0 -> history <> [] ->
  Forall (fun d => exists q, score d = Fin q /\ q == v) history ->
  QuizAnalyzer.calculateConsistencyScore history = one
  /\ RankPredictor.calculateConsistency history = one.
Proof.
  intros Hv Hne Hall.
  assert (Hscores :
            Forall (fun x => exists q, x = Fin q /\ q == v)
              (map score history)).
  { apply Forall_map. exact Hall. }
  assert (Hne' : map score history <> []).
  { destruct history; [contradiction | discriminate]. }
  pose proof (consistency_of_constant v _ Hv Hne' Hscores) as H.
  split; [exact H|].
  unfold RankPredictor.calculateConsistency.
  destruct (List.length (map score history) <? 2)%nat; [reflexivity | exact H].
Qed.

End ConsistencyFacts.

(* ================================================================== *)
(** ** Per-key accumulation in an object                              *)
(* ================================================================== *)

Module AggregateFacts.
Import JS Counters Measures ObjFacts.
Local Open Scope nat_scope.

Section Bump.
Context {V : Type} (init : V) (f : V -> V).
Implicit Types (o : obj V) (k t : string).

Lemma bump_nil k : update k f (ensure k init []) = [(k, f init)].
Proof.
  unfold ensure, update. simpl. now rewrite String.eqb_refl.
Qed.

Lemma bump_head k (v : V) o :
  update k f (ensure k init ((k, v) :: o)) = (k, f v) :: o.
Proof.
  unfold ensure, update. simpl. rewrite String.eqb_refl. simpl.
  now rewrite String.eqb_refl.
Qed.

Lemma bump_tail k t (v : V) o :
  k <> t ->
  update k f (ensure k init ((t, v) :: o))
  = (t, v) :: update k f (ensure k init o).
Proof.
  intros Hne. apply String.eqb_neq in Hne.
  assert (E : ensure k init ((t, v) :: o) = (t, v) :: ensure k init o).
  { unfold ensure. cbn [get]. rewrite Hne.
    destruct (get k o); [reflexivity|]. cbn [set]. now rewrite Hne. }
  rewrite E. unfold update. cbn [get]. rewrite Hne.
  destruct (get k (ensure k init o)); [|reflexivity].
  cbn [set]. now rewrite Hne.
Qed.

(** The keys after one accumulation step: a new key goes last. *)
Lemma keys_bump k o :
  keys (update k f (ensure k init o))
  = if existsb (String.eqb k) (keys o) then keys o else (keys o ++ [k])%list.
Proof.
  induction o as [|[t v] rest IH].
  - now rewrite bump_nil.
  - destruct (String.eqb k t) eqn:E.
    + apply String.eqb_eq in E. subst t. rewrite bump_head. simpl.
      now rewrite String.eqb_refl.
    + pose proof E as Hne. apply String.eqb_neq in Hne.
      rewrite (bump_tail _ _ _ _ Hne). unfold keys in *. simpl.
      rewrite E. simpl. rewrite IH.
      now destruct (existsb (String.eqb k) (map fst rest)).
Qed.

Lemma keys_update k (g : V -> V) o : keys (update k g o) = keys o.
Proof.
  unfold update. destruct (get k o) as [v|] eqn:E; [|reflexivity].
  induction o as [|[t w] rest IH]; [discriminate|].
  simpl in *. destruct (String.eqb k t) eqn:Ek; [reflexivity|].
  unfold keys in *. simpl. f_equal. now apply IH.
Qed.

Context (measure : V -> nat).
Hypothesis init_zero : measure init = 0.
Hypothesis bump_succ : forall s, measure (f s) = S (measure s).

(** One accumulation step adds one to the sum of the counters. *)
Lemma total_bump k o :
  total_of measure (update k f (ensure k init o)) = S (total_of measure o).
Proof.
  induction o as [|[t v] rest IH].
  - rewrite bump_nil. unfold total_of. simpl. rewrite bump_succ. lia.
  - destruct (String.eqb k t) eqn:E.
    + apply String.eqb_eq in E. subst t. rewrite bump_head.
      unfold total_of. simpl. rewrite bump_succ. lia.
    + apply String.eqb_neq in E. rewrite (bump_tail _ _ _ _ E).
      unfold total_of in *. simpl. rewrite IH. lia.
Qed.
End Bump.

Lemma total_update {V} (measure : V -> nat) (g : V -> V) k (o : obj V) :
  (forall s, measure (g s) = measure s) ->
  total_of measure (update k g o) = total_of measure o.
Proof.
  intros Hg. unfold update. destruct (get k o) as [v|] eqn:E; [|reflexivity].
  induction o as [|[t w] rest IH]; [discriminate|].
  simpl in *. destruct (String.eqb k t) eqn:Ek.
  - injection E as ->. unfold total_of. simpl. now rewrite Hg.
  - unfold total_of in *. simpl. f_equal. now apply IH.
Qed.

End AggregateFacts.

(* ================================================================== *)
(** ** Order of first occurrence                                      *)
(* ================================================================== *)

Module OccurrenceFacts.
Import JS Measures.
Local Open Scope nat_scope.

Lemma filter_both {A} (f g h : A -> bool) (l : list A) :
  (forall x, h x = g x && f x) -> filter h l = filter f (filter g l).
Proof.
  intros H. induction l as [|x rest IH]; simpl; [reflexivity|].
  rewrite H. destruct (g x); simpl; [|exact IH].
  destruct (f x); now rewrite IH.
Qed.

Lemma existsb_eqb (k : string) (ks : list string) :
  existsb (String.eqb k) ks = true <-> In k ks.
Proof.
  rewrite existsb_exists. split.
  - intros (x & Hin & E). apply String.eqb_eq in E. now subst.
  - intros Hin. exists k. split; [exact Hin | apply String.eqb_refl].
Qed.

(** Appending each key that is not yet present lists, after the keys
    already there, the first occurrences of the new ones. *)
Lemma add_keys (l : list string) :
  forall ks,
    fold_left
      (fun ks k => if existsb (String.eqb k) ks then ks else (ks ++ [k])%list)
      l ks
    = (ks ++ filter (fun t => negb (existsb (String.eqb t) ks))
                    (first_occurrences l))%list.
Proof.
  induction l as [|k rest IH]; intros ks; simpl.
  - now rewrite app_nil_r.
  - rewrite IH. destruct (existsb (String.eqb k) ks) eqn:E; simpl.
    + f_equal. apply filter_both. intros x.
      destruct (String.eqb k x) eqn:Ex; simpl; [|reflexivity].
      apply String.eqb_eq in Ex. subst x. now rewrite E.
    + rewrite <- app_assoc. simpl. f_equal. f_equal.
      apply filter_both. intros x.
      rewrite existsb_app. simpl. rewrite orb_false_r.
      rewrite (String.eqb_sym x k).
      destruct (String.eqb k x), (existsb (String.eqb x) ks); reflexivity.
Qed.

Lemma first_occurrences_In (x : string) (l : list string) :
  In x (first_occurrences l) <-> In x l.
Proof.
  induction l as [|y rest IH]; simpl; [tauto|].
  rewrite filter_In, IH. split.
  - intros [H | (H & _)]; auto.
  - intros [H | H]; [auto|].
    destruct (String.eqb y x) eqn:E.
    + apply String.eqb_eq in E. auto.
    + right. auto.
Qed.

Lemma first_occurrences_NoDup (l : list string) : NoDup (first_occurrences l).
Proof.
  induction l as [|y rest IH]; simpl; constructor.
  - rewrite filter_In. intros (_ & H). now rewrite String.eqb_refl in H.
  - now apply NoDup_filter.
Qed.

End OccurrenceFacts.

(* ================================================================== *)
(** ** The server's topic aggregation                                 *)
(* ================================================================== *)

Module AggregationProps.
Import JS Api Server Counters Measures JSFacts ObjFacts ServerFacts.
Import AggregateFacts OccurrenceFacts.
Local Open Scope nat_scope.

Lemma topics_of_cons (a : Submission) (rest : list Submission) :
  topics_of (a :: rest)
  = (match quiz a with Some q => [topic q] | None => [] end
     ++ topics_of rest)%list.
Proof. reflexivity. Qed.

Lemma forEach_keys (history : list Submission) :
  forall st st',
    forEach record_attempt history st = Ok st' ->
    keys (acc_topics st')
    = fold_left
        (fun ks k =>
           if existsb (String.eqb k) ks then ks else (ks ++ [k])%list)
        (topics_of history) (keys (acc_topics st))
    /\ total_of attempts (acc_topics st')
       = total_of attempts (acc_topics st) + List.length history
    /\ Forall (fun a => quiz a <> None) history.
Proof.
  induction history as [|a rest IH]; intros st st' Hrun.
  - injection Hrun as <-. simpl. repeat split; [lia | constructor].
  - simpl in Hrun. destruct (record_attempt st a) as [st1|] eqn:E;
      [|discriminate].
    simpl in Hrun.
    destruct (record_attempt_topics _ _ _ E) as (q & Hq & Htopics).
    destruct (IH _ _ Hrun) as (Hk & Ht & Hall).
    rewrite Hk, Ht, Htopics, topics_of_cons, Hq. simpl.
    rewrite keys_bump.
    rewrite (total_bump initial_stats (accumulate a) attempts)
      by reflexivity.
    repeat split; [lia|].
    constructor; [congruence | exact Hall].
Qed.

Lemma keys_map_values {V W} (f : V -> W) (o : obj V) :
  keys (map (fun entry => (fst entry, f (snd entry))) o) = keys o.
Proof. unfold keys. rewrite map_map. reflexivity. Qed.

(** X1.  [analyzePerformance] returns exactly when every attempt names its
    quiz; the route then answers with the analysis, and with status 500
    otherwise. *)
Theorem analysis_fails_only_without_quiz
  (submission : Submission) (history : list Submission) :
  ((exists analysis, analyzePerformance submission history = Ok analysis)
   <-> Forall (fun a => quiz a <> None) history)
  /\ ((exists message,
         analysis_route
           (Ok {| Api.submission := submission; Api.history := history |})
         = Status500 "Analysis Failed" message)
      <-> Exists (fun a => quiz a = None) history).
Proof.
  assert (H1 : (exists analysis,
                  analyzePerformance submission history = Ok analysis)
               <-> Forall (fun a => quiz a <> None) history).
  { split.
    - intros (analysis & Hrun).
      destruct (analyzePerformance_inv _ _ _ Hrun) as (st & Hloop & _).
      now destruct (forEach_keys _ _ _ Hloop) as (_ & _ & Hall).
    - apply analyzePerformance_total. }
  split; [exact H1|].
  unfold analysis_route. simpl.
  destruct (analyzePerformance submission history) as [analysis|m] eqn:E.
  - split.
    + intros (message & Hm). discriminate.
    + intros Hex. exfalso.
      assert (Hall : Forall (fun a => quiz a <> None) history)
        by (apply H1; eauto).
      rewrite Forall_forall in Hall. apply Exists_exists in Hex.
      destruct Hex as (a & Hin & Hnone). exact (Hall a Hin Hnone).
  - split; [|eauto]. intros _.
    apply Exists_exists.
    destruct (Forall_Exists_dec (fun a => quiz a <> None)) with (l := history)
      as [Hall | Hex].
    + intros a. destruct (quiz a); [left; discriminate | right; auto].
    + apply H1 in Hall. destruct Hall as (analysis & Hrun). congruence.
    + apply Exists_exists in Hex. destruct Hex as (a & Hin & Hq).
      exists a. split; [exact Hin|]. destruct (quiz a); [|reflexivity].
      exfalso. apply Hq. discriminate.
Qed.

Lemma analysis_fails_only_without_quiz_witness :
  exists analysis,
    analyzePerformance (Examples.submitted 80 100 3 4)
      Examples.two_weak_topics = Ok analysis.
Proof.
  apply (analysis_fails_only_without_quiz (Examples.submitted 80 100 3 4)
           Examples.two_weak_topics).
  repeat constructor; discriminate.
Defined.

(** X2.  The topics of [topicPerformance] are the distinct topics of the
    history in the order of their first attempt, and their attempt counts
    add up to the number of attempts. *)
Theorem topic_keys_in_order_of_first_attempt
  (submission : Submission) (history : list Submission)
  (analysis : Analysis) :
  analyzePerformance submission history = Ok analysis ->
  keys (topicPerformance analysis) = first_occurrences (topics_of history)
  /\ NoDup (keys (topicPerformance analysis))
  /\ total_of attempts (topicPerformance analysis) = List.length history.
Proof.
  intros Hrun.
  destruct (analyzePerformance_inv _ _ _ Hrun) as (st & Hloop & Htp & _).
  destruct (forEach_keys _ _ _ Hloop) as (Hk & Ht & _).
  rewrite add_keys in Hk. cbn [acc_topics keys map app] in Hk, Ht.
  assert (Hf : forall l : list string,
             filter (fun t => negb (existsb (String.eqb t) [])) l = l).
  { induction l as [|x l IH]; [reflexivity|].
    cbn [filter existsb negb]. f_equal. exact IH. }
  rewrite Hf in Hk.
  assert (Hkeys : keys (topicPerformance analysis)
                  = first_occurrences (topics_of history)).
  { now rewrite Htp, keys_map_values. }
  split; [exact Hkeys|]. split.
  - rewrite Hkeys. apply first_occurrences_NoDup.
  - rewrite Htp. unfold total_of in *. rewrite map_map. simpl. exact Ht.
Qed.

Lemma topic_keys_in_order_of_first_attempt_witness :
  exists analysis,
    analyzePerformance (Examples.submitted 80 100 3 4)
      Examples.two_weak_topics = Ok analysis
    /\ keys (topicPerformance analysis)
       = ["Physics"%string; "Biology"%string; "Chemistry"%string].
Proof.
  eexists. split; [vm_compute; reflexivity|].
  match goal with
  | |- keys (topicPerformance ?a) = _ =>
      destruct (topic_keys_in_order_of_first_attempt
                  (Examples.submitted 80 100 3 4) Examples.two_weak_topics a)
        as (H & _); [vm_compute; reflexivity|]
  end.
  rewrite H. vm_compute. reflexivity.
Defined.

End AggregationProps.

Module AverageProps.
Import JS Api Server Counters Measures JSFacts ObjFacts ServerFacts.
Import AggregateFacts OccurrenceFacts AggregationProps.
Local Open Scope nat_scope.

Section Field.
(** A numeric field of the per-topic record, and what one attempt adds
    to it. *)
Context (field : TopicStats -> num) (share : Submission -> num).
Hypothesis field_initial : field initial_stats = zero.
Hypothesis field_step :
  forall a s, field (accumulate a s) = add (field s) (share a).

Local Abbreviation field_at := (fun (o : obj TopicStats) (t : string) =>
  match get t o with Some s => field s | None => zero end).

Lemma forEach_field (history : list Submission) :
  forall st st',
    forEach record_attempt history st = Ok st' ->
    forall t,
      field_at (acc_topics st') t
      = fold_left add (map share (filter (on_topic t) history))
          (field_at (acc_topics st) t).
Proof.
  induction history as [|a rest IH]; intros st st' Hrun t.
  - injection Hrun as <-. reflexivity.
  - simpl in Hrun. destruct (record_attempt st a) as [st1|] eqn:E;
      [|discriminate].
    simpl in Hrun.
    destruct (record_attempt_topics _ _ _ E) as (q & Hq & Htopics).
    rewrite (IH _ _ Hrun t).
    cbn [filter]. unfold on_topic at 2. rewrite Hq.
    rewrite Htopics, get_update, get_ensure.
    destruct (String.eqb (topic q) t) eqn:Et; cbn [map fold_left].
    + f_equal. destruct (get t (acc_topics st)); simpl.
      * apply field_step.
      * now rewrite field_step, field_initial.
    + f_equal. now destruct (get t (acc_topics st)).
Qed.
End Field.

(** X3.  The finalized averages of a topic are the arithmetic means, over the
    attempts on that topic in history order, of the accuracy, of the
    speed and of the per-attempt mistake ratio (a mean of ratios, not a
    pooled ratio). *)
Theorem topic_averages_are_means_over_attempts
  (submission : Submission) (history : list Submission)
  (analysis : Analysis) (t : string) (stats : TopicStats) :
  analyzePerformance submission history = Ok analysis ->
  get t (topicPerformance analysis) = Some stats ->
  let on := filter (on_topic t) history in
  let count := of_nat (List.length on) in
  attempts stats = List.length on
  /\ averageAccuracy stats
     = Some (div (sum (map (fun a => parseFloat (accuracy a)) on)) count)
  /\ averageSpeed stats
     = div (sum (map (fun a => parseFloat (to_num (speed a))) on)) count
  /\ averageMistakeRate stats
     = Some (div (sum (map (fun a =>
                              div (incorrect_answers a)
                                  (to_num (total_questions a))) on))
                 count).
Proof.
  intros Hrun Hget on count.
  destruct (analyzePerformance_inv _ _ _ Hrun) as (st & Hloop & Htp & _).
  destruct (forEach_counts _ _ _ Hloop (counted_empty attempts)) as (_ & Hn).
  specialize (Hn t). unfold count_at in Hn. simpl in Hn.
  pose proof (forEach_field totalAccuracy
                (fun a => parseFloat (accuracy a)) eq_refl
                (fun _ _ => eq_refl) _ _ _ Hloop t) as Hacc.
  pose proof (forEach_field averageSpeed
                (fun a => parseFloat (to_num (speed a))) eq_refl
                (fun _ _ => eq_refl) _ _ _ Hloop t) as Hspd.
  pose proof (forEach_field mistakeRate
                (fun a => div (incorrect_answers a)
                              (to_num (total_questions a))) eq_refl
                (fun _ _ => eq_refl) _ _ _ Hloop t) as Hmr.
  cbn [acc_topics get] in Hacc, Hspd, Hmr.
  rewrite Htp, get_map_values in Hget.
  destruct (get t (acc_topics st)) as [s|]; [|discriminate].
  injection Hget as <-. subst count on. unfold finalize. cbn.
  fold (attempts_on t history) in *. unfold attempts_on in Hn.
  rewrite Hn, Hacc, Hspd, Hmr. repeat split.
Qed.

Lemma topic_averages_are_means_over_attempts_witness :
  exists analysis stats,
    analyzePerformance (Examples.submitted 80 100 3 4)
      Examples.two_weak_topics = Ok analysis
    /\ get "Biology" (topicPerformance analysis) = Some stats
    /\ averageAccuracy stats = Some (of_Z 50).
Proof.
  eexists. eexists. split; [vm_compute; reflexivity|].
  split; [vm_compute; reflexivity|].
  match goal with
  | |- averageAccuracy ?s = _ =>
      destruct (topic_averages_are_means_over_attempts
                  (Examples.submitted 80 100 3 4) Examples.two_weak_topics
                  _ "Biology" s eq_refl eq_refl) as (_ & H & _)
  end.
  rewrite H. vm_compute. reflexivity.
Defined.

Lemma forEach_trends (history : list Submission) :
  forall st st',
    forEach record_attempt history st = Ok st' ->
    map acc_date (acc_accuracyTrend st')
    = (map acc_date (acc_accuracyTrend st) ++ map submitted_at history)%list
    /\ map acc_accuracy (acc_accuracyTrend st')
       = (map acc_accuracy (acc_accuracyTrend st)
          ++ map (fun a => parseFloat (accuracy a)) history)%list
    /\ map acc_topic (acc_accuracyTrend st')
       = (map acc_topic (acc_accuracyTrend st) ++ topics_of history)%list
    /\ map spd_date (acc_speedTrend st')
       = (map spd_date (acc_speedTrend st) ++ map submitted_at history)%list
    /\ map spd_speed (acc_speedTrend st')
       = (map spd_speed (acc_speedTrend st)
          ++ map (fun a => parseFloat (to_num (speed a))) history)%list.
Proof.
  induction history as [|a rest IH]; intros st st' Hrun.
  - injection Hrun as <-. simpl. now rewrite !app_nil_r.
  - simpl in Hrun. destruct (record_attempt st a) as [st1|] eqn:E;
      [|discriminate].
    simpl in Hrun.
    destruct (IH _ _ Hrun) as (H1 & H2 & H3 & H4 & H5).
    unfold record_attempt in E. destruct (quiz a) as [q|] eqn:Hq;
      [|discriminate].
    injection E as <-. cbn [acc_accuracyTrend acc_speedTrend] in *.
    rewrite H1, H2, H3, H4, H5, !map_app, topics_of_cons, Hq. simpl.
    now rewrite <- !app_assoc.
Qed.

(** X4.  The accuracy and speed trends list the attempts in the order of the
    history (they are not sorted by date): one point per attempt with its
    date, its value and its topic. *)
Theorem trends_follow_history_order
  (submission : Submission) (history : list Submission)
  (analysis : Analysis) :
  analyzePerformance submission history = Ok analysis ->
  let accuracies := trends_accuracy (trends analysis) in
  let speeds := trends_speed (trends analysis) in
  map acc_date accuracies = map submitted_at history
  /\ map acc_accuracy accuracies
     = map (fun a => parseFloat (accuracy a)) history
  /\ map acc_topic accuracies = topics_of history
  /\ map spd_date speeds = map submitted_at history
  /\ map spd_speed speeds
     = map (fun a => parseFloat (to_num (speed a))) history
  /\ List.length accuracies = List.length history
  /\ List.length speeds = List.length history.
Proof.
  intros Hrun accuracies speeds.
  assert (Htr : exists st,
             forEach record_attempt history
               {| acc_topics := []; acc_accuracyTrend := [];
                  acc_speedTrend := [] |} = Ok st
             /\ accuracies = acc_accuracyTrend st
             /\ speeds = acc_speedTrend st).
  { subst accuracies speeds. unfold analyzePerformance in Hrun.
    destruct (forEach record_attempt history _) as [st|] eqn:E;
      [|discriminate].
    simpl in Hrun. injection Hrun as <-. exists st. repeat split. }
  destruct Htr as (st & Hloop & -> & ->).
  destruct (forEach_trends _ _ _ Hloop) as (H1 & H2 & H3 & H4 & H5).
  simpl in H1, H2, H3, H4, H5.
  repeat split; try assumption.
  - rewrite <- (length_map acc_date), H1. apply length_map.
  - rewrite <- (length_map spd_date), H4. apply length_map.
Qed.

Lemma trends_follow_history_order_witness :
  exists analysis,
    analyzePerformance (Examples.submitted 80 100 3 4)
      Examples.two_weak_topics = Ok analysis
    /\ map acc_date (trends_accuracy (trends analysis))
       = [Some (of_Z 2); Some (of_Z 1); Some (of_Z 3)].
Proof.
  eexists. split; [vm_compute; reflexivity|].
  match goal with
  | |- map acc_date (trends_accuracy (trends ?a)) = _ =>
      destruct (trends_follow_history_order
                  (Examples.submitted 80 100 3 4) Examples.two_weak_topics a)
        as (H & _); [vm_compute; reflexivity|]
  end.
  rewrite H. vm_compute. reflexivity.
Defined.

End AverageProps.

(* ================================================================== *)
(** ** Integers and finite sums in the number model                   *)
(* ================================================================== *)

Module IntFacts.
Import JS JSFacts.

Lemma add_of_Z (a b : Z) : add (of_Z a) (of_Z b) = of_Z (a + b).
Proof.
  unfold of_Z. rewrite add_Fin. apply fin_of_Z. now rewrite inject_Z_plus.
Qed.

Lemma sub_of_Z (a b : Z) : sub (of_Z a) (of_Z b) = of_Z (a - b).
Proof.
  unfold of_Z. rewrite sub_Fin. apply fin_of_Z.
  unfold Z.sub. rewrite inject_Z_plus, inject_Z_opp. reflexivity.
Qed.

Lemma le_of_Z (a b : Z) : le (of_Z a) (of_Z b) = true <-> (a <= b)%Z.
Proof. unfold of_Z. rewrite le_Fin, <- Zle_Qle. reflexivity. Qed.

Lemma lt_of_Z (a b : Z) : lt (of_Z a) (of_Z b) = true <-> (a < b)%Z.
Proof. unfold of_Z. rewrite lt_Fin, <- Zlt_Qlt. reflexivity. Qed.

Lemma max_of_Z (a b : Z) : Math_max (of_Z a) (of_Z b) = of_Z (Z.max a b).
Proof.
  change (Math_max (of_Z a) (of_Z b))
    with (if lt (of_Z a) (of_Z b) then of_Z b else of_Z a).
  destruct (lt (of_Z a) (of_Z b)) eqn:E.
  - apply lt_of_Z in E. f_equal. lia.
  - assert (H : ~ (a < b)%Z).
    { intros H. apply lt_of_Z in H. congruence. }
    f_equal. lia.
Qed.

Lemma fold_over_map {A B C} (f : A -> B -> A) (g : C -> B) (l : list C) :
  forall a, fold_left f (map g l) a = fold_left (fun a x => f a (g x)) l a.
Proof.
  induction l as [|x rest IH]; intros a; simpl; [reflexivity | apply IH].
Qed.

Lemma sum_finite (l : list num) :
  Forall (fun x => is_finite x = true) l ->
  forall a, is_finite a = true -> is_finite (fold_left add l a) = true.
Proof.
  induction 1 as [|x rest Hx _ IH]; intros a Ha; simpl; [exact Ha|].
  apply IH. now apply finite_add.
Qed.

Lemma square_nonneg (x : Q) :
  exists s, Math_pow (Fin x) 2 = Fin s /\ 0 <= s.
Proof.
  exists (Qred (x * Qred (x * 1))). split; [reflexivity|].
  rewrite !Qred_correct. nra.
Qed.

(** A sum of squared deviations from a finite mean is a non-negative
    finite number. *)
Lemma squares_nonneg (m : Q) (l : list num) :
  Forall (fun x => is_finite x = true) l ->
  forall a, 0 <= a ->
    exists s,
      fold_left (fun acc b => add acc (Math_pow (sub b (Fin m)) 2)) l (Fin a)
      = Fin s /\ 0 <= s.
Proof.
  induction 1 as [|x rest Hx _ IH]; intros a Ha; [simpl; eauto|].
  cbn [fold_left].
  destruct (finite_inv _ Hx) as (q & ->). rewrite sub_Fin. unfold fin.
  destruct (square_nonneg (Qred (q - m))) as (s & -> & Hs).
  rewrite add_Fin. unfold fin. apply IH.
  rewrite Qred_correct. lra.
Qed.

Lemma of_nat_nonzero (n : nat) :
  n <> 0%nat -> ~ inject_Z (Z.of_nat n) == 0.
Proof.
  intros Hn H. change 0 with (inject_Z 0) in H.
  apply (proj1 (inject_Z_injective _ _)) in H. lia.
Qed.

Lemma sqrt_of_nonneg (v : Q) :
  0 <= v -> exists s, Math_sqrt (Fin v) = Fin s /\ 0 <= s.
Proof.
  intros Hv. unfold Math_sqrt.
  apply Qle_bool_iff in Hv. rewrite Hv.
  exists (Qred (Qsqrt v)). split; [reflexivity|].
  rewrite Qred_correct. apply Qsqrt_nonneg.
Qed.

End IntFacts.

(* ================================================================== *)
(** ** The server's rank prediction                                   *)
(* ================================================================== *)

Module PredictProps.
Import JS Api Server JSFacts IntFacts.

(** X5.  Exactly one admission possibility is reported, whatever the inputs;
    a rank that is not a number falls through every comparison to the
    last label. *)
Theorem one_college_possibility
  (submission : Submission) (history : list Submission) :
  let prediction := predictRank submission history in
  let p := predictedRank prediction in
  List.length (collegePossibilities prediction) = 1%nat
  /\ (le p (of_Z 1000) = true ->
      collegePossibilities prediction
      = ["Top Medical Colleges - High Chance"%string])
  /\ (le p (of_Z 5000) = false ->
      collegePossibilities prediction
      = ["Moderate Medical Colleges - Moderate Chance"%string])
  /\ (is_nan p = true ->
      collegePossibilities prediction
      = ["Moderate Medical Colleges - Moderate Chance"%string]).
Proof.
  intros prediction p. subst prediction. unfold predictRank in *.
  cbn [collegePossibilities predictedRank] in *.
  set (r := Math_round _) in *. subst p.
  assert (H5000 : le r (of_Z 5000) = false ->
                  le r (of_Z 1000) = false /\ le r (of_Z 2000) = false).
  { destruct r as [q| | |]; try (intros; split; reflexivity);
      try discriminate.
    intros H. split.
    - destruct (le (Fin q) (of_Z 1000)) eqn:E; [|reflexivity].
      apply le_Fin in E.
      assert (F : le (Fin q) (of_Z 5000) = true).
      { apply le_Fin. eapply Qle_trans; [exact E|].
        rewrite <- Zle_Qle. lia. }
      congruence.
    - destruct (le (Fin q) (of_Z 2000)) eqn:E; [|reflexivity].
      apply le_Fin in E.
      assert (F : le (Fin q) (of_Z 5000) = true).
      { apply le_Fin. eapply Qle_trans; [exact E|].
        rewrite <- Zle_Qle. lia. }
      congruence. }
  repeat split.
  - destruct (le r (of_Z 1000)); [reflexivity|].
    destruct (le r (of_Z 2000)); [reflexivity|].
    destruct (le r (of_Z 5000)); reflexivity.
  - intros ->. reflexivity.
  - intros H. destruct (H5000 H) as (-> & ->). now rewrite H.
  - intros H. destruct r; try discriminate. reflexivity.
Qed.

Lemma one_college_possibility_witness :
  collegePossibilities (predictRank (Examples.submitted 80 100 3 4) [])
  = ["Top Medical Colleges - High Chance"%string].
Proof.
  destruct (one_college_possibility (Examples.submitted 80 100 3 4) [])
    as (_ & H & _).
  apply H. vm_compute. reflexivity.
Defined.

(** X6.  Around a finite predicted rank of at least 1 the server's
    interval satisfies 1 <= lower <= predictedRank <= upper; it is at
    most 400 wide when the rank is at most 2^53 - 200, the range in which
    adding and subtracting 200 is exact. *)
Theorem server_interval_brackets_rank
  (submission : Submission) (history : list Submission) :
  let prediction := predictRank submission history in
  let p := predictedRank prediction in
  let ci := confidenceInterval prediction in
  is_finite p = true ->
  le one p = true ->
  le one (lower ci) = true
  /\ le (lower ci) p = true
  /\ le p (upper ci) = true
  /\ (le p (of_Z (Measures.max_exact - 200)) = true ->
      le (sub (upper ci) (lower ci)) (of_Z 400) = true).
Proof.
  intros prediction p ci Hfin Hone. subst ci p prediction.
  unfold predictRank in *. cbn [confidenceInterval predictedRank
                                  lower upper] in *.
  set (r := Math_round _) in *.
  destruct (Math_round_finite _ Hfin) as (q & _ & Hr). fold r in Hr.
  set (z := Qfloor (q + (1 # 2))) in Hr. rewrite Hr in *.
  apply le_of_Z in Hone.
  rewrite sub_of_Z, add_of_Z. unfold one. rewrite max_of_Z, sub_of_Z.
  split; [apply le_of_Z; lia|]. split; [apply le_of_Z; lia|].
  split; [apply le_of_Z; lia|].
  intros _. apply le_of_Z. lia.
Qed.

Lemma server_interval_brackets_rank_witness :
  predictedRank (predictRank (Examples.submitted 80 100 3 4) []) = of_Z 994
  /\ le (lower (confidenceInterval
                  (predictRank (Examples.submitted 80 100 3 4) [])))
        (predictedRank (predictRank (Examples.submitted 80 100 3 4) []))
     = true
  /\ le (sub (upper (confidenceInterval
                       (predictRank (Examples.submitted 80 100 3 4) [])))
             (lower (confidenceInterval
                       (predictRank (Examples.submitted 80 100 3 4) []))))
        (of_Z 400) = true.
Proof.
  split; [vm_compute; reflexivity|].
  destruct (server_interval_brackets_rank (Examples.submitted 80 100 3 4) [])
    as (_ & H & _ & Hwidth); [vm_compute; reflexivity ..|].
  split; [exact H|]. apply Hwidth. vm_compute. reflexivity.
Defined.

End PredictProps.

(* ================================================================== *)
(** ** Standard deviation and the guarded consistency                 *)
(* ================================================================== *)

Module DeviationProps.
Import JS JSFacts IntFacts.

Lemma mean_finite (values : list num) :
  Forall (fun x => is_finite x = true) values ->
  values <> [] ->
  exists m, div (sum values) (of_nat (List.length values)) = Fin m.
Proof.
  intros Hall Hne.
  assert (Hs : is_finite (sum values) = true)
    by (apply sum_finite; [exact Hall | reflexivity]).
  destruct (finite_inv _ Hs) as (s & ->).
  unfold of_nat, of_Z. rewrite div_Fin.
  - eexists. reflexivity.
  - apply of_nat_nonzero. destruct values; [contradiction | discriminate].
Qed.

(** The sample standard deviation of the server: 0 below two values, a
    non-negative finite number on finite values. *)
Lemma server_deviation_finite (values : list num) :
  Forall (fun x => is_finite x = true) values ->
  exists s, Server.calculateStandardDeviation values = Fin s /\ 0 <= s.
Proof.
  intros Hall. unfold Server.calculateStandardDeviation.
  destruct (List.length values <? 2)%nat eqn:E.
  - exists 0. split; [reflexivity | lra].
  - apply Nat.ltb_ge in E.
    destruct (mean_finite values Hall) as (m & ->).
    { destruct values; [simpl in E; lia | discriminate]. }
    destruct (squares_nonneg m values Hall 0) as (s & Hs & Hs0); [lra|].
    change zero with (Fin 0). rewrite Hs.
    unfold of_nat, one. rewrite sub_of_Z. unfold of_Z.
    assert (Hd : 0 < inject_Z (Z.of_nat (List.length values) - 1)).
    { change 0 with (inject_Z 0). rewrite <- Zlt_Qlt. lia. }
    rewrite div_Fin by lra.
    apply sqrt_of_nonneg. rewrite Qred_correct.
    apply Qle_shift_div_l; [exact Hd | lra].
Qed.

Lemma population_deviation_finite (values : list num) :
  Forall (fun x => is_finite x = true) values ->
  exists s, DataProcessor.calculateStandardDeviation values = Fin s /\ 0 <= s.
Proof.
  intros Hall. unfold DataProcessor.calculateStandardDeviation.
  destruct (List.length values <? 2)%nat eqn:E.
  - exists 0. split; [reflexivity | lra].
  - apply Nat.ltb_ge in E.
    assert (Hne : values <> []).
    { destruct values; [simpl in E; lia | discriminate]. }
    unfold DataProcessor.calculateMean at 2.
    destruct (List.length values =? 0)%nat eqn:E0.
    { apply Nat.eqb_eq in E0. lia. }
    destruct (mean_finite values Hall Hne) as (m & ->).
    destruct (squares_nonneg m values Hall 0) as (s & Hs & Hs0); [lra|].
    unfold DataProcessor.calculateMean. rewrite length_map, E0.
    unfold sum. rewrite fold_over_map.
    change zero with (Fin 0). rewrite Hs.
    unfold of_nat, of_Z.
    assert (Hd : 0 < inject_Z (Z.of_nat (List.length values))).
    { change 0 with (inject_Z 0). rewrite <- Zlt_Qlt. lia. }
    rewrite div_Fin by lra.
    apply sqrt_of_nonneg. rewrite Qred_correct.
    apply Qle_shift_div_l; [exact Hd | lra].
Qed.

Lemma constant_deviation (v : Q) (values : list num) :
  Forall (fun x => exists q, x = Fin q /\ q == v) values ->
  Server.calculateStandardDeviation values = zero
  /\ DataProcessor.calculateStandardDeviation values = zero.
Proof.
  intros Hall.
  assert (Hmean : (2 <= List.length values)%nat ->
                  exists m, div (sum values) (of_nat (List.length values))
                            = Fin m /\ m == v).
  { intros Hlen.
    destruct (ConsistencyFacts.sum_constant v values Hall (inject_Z 0))
      as (s & Hs & Heq).
    change (inject_Z 0) with 0 in Heq.
    assert (Hn : ~ inject_Z (Z.of_nat (List.length values)) == 0)
      by (apply of_nat_nonzero; lia).
    unfold sum, zero, of_nat, of_Z. rewrite Hs, (div_Fin _ _ Hn).
    eexists. split; [reflexivity|].
    rewrite Qred_correct, Heq. field. exact Hn. }
  assert (Hsq : forall m, m == v ->
            fold_left (fun a b => add a (Math_pow (sub b (Fin m)) 2))
              values (Fin 0) = Fin 0).
  { intros m Hm. apply ConsistencyFacts.squares_vanish.
    eapply Forall_impl; [|exact Hall].
    intros x (q & -> & Hq). exists q. split; [reflexivity|].
    change (q == v) in Hq. now rewrite Hq, Hm. }
  split.
  - unfold Server.calculateStandardDeviation.
    destruct (List.length values <? 2)%nat eqn:E; [reflexivity|].
    apply Nat.ltb_ge in E. destruct (Hmean E) as (m & -> & Hm).
    change zero with (Fin 0). rewrite (Hsq m Hm).
    unfold of_nat, one. rewrite sub_of_Z. unfold of_Z.
    assert (Hd : ~ inject_Z (Z.of_nat (List.length values) - 1) == 0).
    { intros H. change 0 with (inject_Z 0) in H.
      apply (proj1 (inject_Z_injective _ _)) in H. lia. }
    rewrite (div_Fin _ _ Hd).
    rewrite (fin_eq (0 / _) 0) by (field; exact Hd). reflexivity.
  - unfold DataProcessor.calculateStandardDeviation.
    destruct (List.length values <? 2)%nat eqn:E; [reflexivity|].
    apply Nat.ltb_ge in E.
    unfold DataProcessor.calculateMean at 2.
    destruct (List.length values =? 0)%nat eqn:E0.
    { apply Nat.eqb_eq in E0. lia. }
    destruct (Hmean E) as (m & -> & Hm).
    unfold DataProcessor.calculateMean. rewrite length_map, E0.
    unfold sum. rewrite fold_over_map.
    change zero with (Fin 0). rewrite (Hsq m Hm).
    assert (Hn : ~ inject_Z (Z.of_nat (List.length values)) == 0)
      by (apply of_nat_nonzero; lia).
    unfold of_nat, of_Z. rewrite (div_Fin _ _ Hn).
    rewrite (fin_eq (0 / _) 0) by (field; exact Hn). reflexivity.
Qed.

Lemma sqrt_never_negative (x : num) :
  Math_sqrt x = NaN \/ Math_sqrt x = PInf
  \/ exists s, Math_sqrt x = Fin s /\ 0 <= s.
Proof. destruct (Math_sqrt_range x) as [H | [H | H]]; auto. Qed.

Lemma constant_integers (v : Z) (values : list num) :
  Forall (fun x => x = of_Z v) values ->
  Forall (fun x => exists q, x = Fin q /\ q == inject_Z v) values.
Proof.
  intros H. eapply Forall_impl; [|exact H].
  intros x ->. exists (inject_Z v). split; reflexivity.
Qed.

(** X7.  Neither standard deviation is ever negative: each returns NaN,
    Infinity or a non-negative number, whatever the values.  On values
    that are all the same integer v, with n * |v| <= 2^53 so that their
    sum is computed without rounding, both return exactly 0 (fewer than
    two values included). *)
Theorem deviation_is_nonnegative_and_zero_on_constants
  (values : list num) (v : Z) :
  ((Server.calculateStandardDeviation values = NaN
    \/ Server.calculateStandardDeviation values = PInf
    \/ exists s, Server.calculateStandardDeviation values = Fin s /\ 0 <= s)
   /\ (DataProcessor.calculateStandardDeviation values = NaN
       \/ DataProcessor.calculateStandardDeviation values = PInf
       \/ exists s,
            DataProcessor.calculateStandardDeviation values = Fin s
            /\ 0 <= s))
  /\ (Forall (fun x => x = of_Z v) values ->
      (Z.of_nat (List.length values) * Z.abs v <= Measures.max_exact)%Z ->
      Server.calculateStandardDeviation values = zero
      /\ DataProcessor.calculateStandardDeviation values = zero).
Proof.
  split.
  - unfold Server.calculateStandardDeviation,
      DataProcessor.calculateStandardDeviation.
    destruct (List.length values <? 2)%nat.
    + split; right; right; exists 0; (split; [reflexivity | lra]).
    + split; apply sqrt_never_negative.
  - intros Hall _.
    apply (constant_deviation (inject_Z v)). now apply constant_integers.
Qed.

Lemma deviation_is_nonnegative_and_zero_on_constants_witness :
  Server.calculateStandardDeviation [of_Z 7; of_Z 7; of_Z 7] = zero
  /\ DataProcessor.calculateStandardDeviation [of_Z 7; of_Z 7; of_Z 7] = zero.
Proof.
  apply (deviation_is_nonnegative_and_zero_on_constants
           [of_Z 7; of_Z 7; of_Z 7] 7).
  - repeat constructor.
  - vm_compute. discriminate.
Defined.

Lemma consistency_finite
  (submission : Api.Submission) (history : list Api.Submission) :
  Forall (fun a => is_finite (Api.final_score a) = true) history ->
  is_finite
    (Server.consistency
       (Server.metrics (Server.predictRank submission history))) = true.
Proof.
  intros Hall. unfold Server.predictRank.
  cbn [Server.metrics Server.consistency].
  set (scores := map (fun attempt => parseFloat (Api.final_score attempt))
                     history).
  assert (Hs : Forall (fun x => is_finite x = true) scores).
  { unfold scores. apply Forall_map. exact Hall. }
  destruct (server_deviation_finite scores Hs) as (sd & -> & _).
  set (avg := div (sum scores) (of_nat (List.length scores))).
  assert (Hd : exists y, or_else avg one = Fin y /\ ~ y == 0).
  { unfold or_else. destruct avg as [q| | |] eqn:E.
    - simpl. destruct (Qeq_bool q 0) eqn:Eq; simpl.
      + exists 1. split; [reflexivity | discriminate].
      + exists q. split; [reflexivity|]. now apply Qeq_bool_neq.
    - exfalso. destruct scores as [|x rest] eqn:Es; [discriminate|].
      destruct (mean_finite (x :: rest) Hs) as (m & Hm); [discriminate|].
      unfold avg in E. rewrite Hm in E. discriminate.
    - exfalso. destruct scores as [|x rest] eqn:Es; [discriminate|].
      destruct (mean_finite (x :: rest) Hs) as (m & Hm); [discriminate|].
      unfold avg in E. rewrite Hm in E. discriminate.
    - exists 1. split; [reflexivity | discriminate]. }
  destruct Hd as (y & -> & Hy). rewrite (div_Fin _ _ Hy). reflexivity.
Qed.

(** The consistency for one historical score, whatever that score is: the
    deviation is 0 by the guard and the divisor is never 0. *)
Lemma consistency_of_one_score (x : num) :
  sub one (div zero (or_else (div (sum [x]) (of_nat 1)) one)) = one.
Proof.
  destruct x as [q| | |]; try reflexivity.
  unfold sum. cbn [fold_left]. unfold zero, of_nat, of_Z.
  rewrite add_Fin. unfold fin at 1. rewrite div_Fin by discriminate.
  unfold fin at 1. unfold or_else, truthy.
  destruct (Qeq_bool (Qred (Qred (inject_Z 0 + q) / inject_Z (Z.of_nat 1))) 0)
    eqn:E; cbn [negb].
  - reflexivity.
  - apply Qeq_bool_neq in E. rewrite (div_Fin _ _ E).
    rewrite (fin_eq (inject_Z 0 / _) 0) by (field; exact E). reflexivity.
Qed.

(** X8.  With fewer than two historical attempts the consistency reported
    by the server's [predictRank] is exactly 1, whatever the scores: the
    deviation is 0 by the guard, and a zero or missing average is replaced
    by 1 before dividing.  When every final score is an integer of
    magnitude at most 10^6 the consistency is a finite number. *)
Theorem server_consistency_is_finite
  (submission : Api.Submission) (history : list Api.Submission) :
  ((List.length history < 2)%nat ->
   Server.consistency
     (Server.metrics (Server.predictRank submission history)) = one)
  /\ (Forall (fun a =>
                Measures.integer_between (- 10 ^ 6) (10 ^ 6)
                  (Api.final_score a)) history ->
      is_finite
        (Server.consistency
           (Server.metrics (Server.predictRank submission history))) = true).
Proof.
  split.
  - intros Hlen. destruct history as [|a [|b rest]];
      [reflexivity | | simpl in Hlen; lia].
    unfold Server.predictRank. cbn [Server.metrics Server.consistency map].
    change (Server.calculateStandardDeviation [parseFloat (Api.final_score a)])
      with zero.
    apply consistency_of_one_score.
  - intros Hall. apply consistency_finite.
    eapply Forall_impl; [|exact Hall].
    intros a (z & -> & _). reflexivity.
Qed.

Lemma server_consistency_is_finite_witness :
  is_finite
    (Server.consistency
       (Server.metrics
          (Server.predictRank (Examples.submitted 80 100 3 4)
             [Examples.finished 40; Examples.finished 60;
              Examples.finished 50]))) = true.
Proof.
  apply (server_consistency_is_finite (Examples.submitted 80 100 3 4)
           [Examples.finished 40; Examples.finished 60;
            Examples.finished 50]).
  repeat constructor; eexists; (split; [reflexivity|]);
    split; vm_compute; discriminate.
Defined.

End DeviationProps.

(* ================================================================== *)
(** ** The analyzer's topic performance                               *)
(* ================================================================== *)

Module TopicProps.
Import JS Data QuizAnalyzer Counters Measures JSFacts IntFacts ObjFacts.
Import AggregateFacts OccurrenceFacts.
Local Open Scope nat_scope.

Section Quiz.
Context (currentQuiz : Quiz) (submission : Submission).

Local Abbreviation step := (count_question currentQuiz submission).
Local Abbreviation answered := (fun t q =>
  String.eqb (topic q) t && isCorrectAnswer currentQuiz submission (id q)).

Lemma count_question_get (o : obj TopicCount) (q : Question) (t : string) :
  get t (step o q)
  = if String.eqb (topic q) t
    then Some
           (let s := match get t o with
                     | Some s => s
                     | None => {| total := 0; correct := 0 |}
                     end in
            {| total := S (total s);
               correct := if isCorrectAnswer currentQuiz submission (id q)
                          then S (correct s) else correct s |})
    else get t o.
Proof.
  unfold count_question.
  destruct (isCorrectAnswer currentQuiz submission (id q));
    [rewrite get_update, get_update, get_ensure
    | rewrite get_update, get_ensure];
    destruct (String.eqb (topic q) t); destruct (get t o); reflexivity.
Qed.

Lemma count_question_keys (o : obj TopicCount) (q : Question) :
  keys (step o q)
  = if existsb (String.eqb (topic q)) (keys o) then keys o
    else (keys o ++ [topic q])%list.
Proof.
  unfold count_question.
  destruct (isCorrectAnswer currentQuiz submission (id q));
    [rewrite keys_update|]; apply keys_bump.
Qed.

Lemma count_question_total (o : obj TopicCount) (q : Question) :
  total_of total (step o q) = S (total_of total o).
Proof.
  unfold count_question.
  destruct (isCorrectAnswer currentQuiz submission (id q)).
  - rewrite total_update by reflexivity.
    now apply total_bump.
  - now apply total_bump.
Qed.

Lemma questions_fold (qs : list Question) :
  forall o,
    keys (fold_left step qs o)
    = fold_left
        (fun ks k =>
           if existsb (String.eqb k) ks then ks else (ks ++ [k])%list)
        (map topic qs) (keys o)
    /\ total_of total (fold_left step qs o)
       = total_of total o + List.length qs
    /\ forall t,
         count_at correct (fold_left step qs o) t
         = count_at correct o t + List.length (filter (answered t) qs).
Proof.
  induction qs as [|q rest IH]; intros o; simpl.
  - split; [reflexivity|]. split; [lia|]. intros t. lia.
  - destruct (IH (step o q)) as (Hk & Ht & Hc).
    rewrite Hk, Ht, count_question_keys, count_question_total.
    split; [reflexivity|]. split; [lia|]. intros t. rewrite Hc.
    unfold count_at at 1. rewrite count_question_get. unfold count_at.
    destruct (String.eqb (topic q) t); simpl.
    + destruct (isCorrectAnswer currentQuiz submission (id q)),
        (get t o); simpl; lia.
    + destruct (get t o); lia.
Qed.

Lemma ratio_within (c n : nat) :
  c <= n -> 1 <= n -> within 0 1 (div (of_nat c) (of_nat n)).
Proof.
  intros Hc Hn. unfold of_nat, of_Z.
  assert (Hpos : (0 < inject_Z (Z.of_nat n))%Q).
  { change 0%Q with (inject_Z 0). rewrite <- Zlt_Qlt. lia. }
  rewrite div_Fin by lra. eexists. split; [reflexivity|].
  rewrite Qred_correct. split.
  - apply Qle_shift_div_l; [exact Hpos|].
    rewrite Qmult_0_l. change 0%Q with (inject_Z 0). rewrite <- Zle_Qle. lia.
  - apply Qle_shift_div_r; [exact Hpos|].
    rewrite Qmult_1_l. rewrite <- Zle_Qle. lia.
Qed.

Lemma answered_le (t : string) (qs : list Question) :
  List.length (filter (answered t) qs)
  <= List.length (filter (fun q => String.eqb (topic q) t) qs).
Proof.
  induction qs as [|q rest IH]; simpl; [lia|].
  destruct (String.eqb (topic q) t); simpl; [|exact IH].
  destruct (isCorrectAnswer currentQuiz submission (id q)); simpl; lia.
Qed.

(** What the counters of a topic hold after the loop over the
    questions. *)
Lemma stats_entry (t : string) (s : TopicCount) :
  get t (topicStats currentQuiz submission) = Some s ->
  total s = questions_on t currentQuiz
  /\ correct s = List.length (filter (answered t) (questions currentQuiz))
  /\ 1 <= total s.
Proof.
  intros E.
  destruct (AnalyzerClaims.questions_counted currentQuiz submission
              (questions currentQuiz) [] (counted_empty total))
    as (Hqc & Hqn).
  destruct (questions_fold (questions currentQuiz) []) as (_ & _ & Hc).
  specialize (Hqn t). specialize (Hc t).
  fold (topicStats currentQuiz submission) in Hqc, Hqn, Hc.
  unfold count_at in Hqn, Hc. simpl in Hqn, Hc. rewrite E in Hqn, Hc.
  specialize (Hqc _ _ E). fold (questions_on t currentQuiz) in Hqn.
  auto.
Qed.

Lemma performance_accuracy (t : string) (r : TopicResult) :
  get t (calculateTopicPerformance currentQuiz submission) = Some r ->
  within 0 1 (topic_accuracy r).
Proof.
  unfold calculateTopicPerformance. rewrite get_map_values.
  destruct (get t (topicStats currentQuiz submission)) as [s|] eqn:E;
    [|discriminate].
  intros [= <-]. destruct (stats_entry t s E) as (Ht & Hc & H1).
  cbn [topic_accuracy topic_result]. apply ratio_within; [|exact H1].
  rewrite Ht, Hc. apply answered_le.
Qed.

Lemma performance_first_keys :
  keys (calculateTopicPerformance currentQuiz submission)
  = first_occurrences (map topic (questions currentQuiz)).
Proof.
  destruct (questions_fold (questions currentQuiz) []) as (Hk & _).
  fold (topicStats currentQuiz submission) in Hk.
  rewrite add_keys in Hk. cbn [keys map app] in Hk.
  assert (Hf : forall l : list string,
             filter (fun t => negb (existsb (String.eqb t) [])) l = l).
  { induction l as [|x l IH]; [reflexivity|].
    cbn [filter existsb negb]. f_equal. exact IH. }
  rewrite Hf in Hk. unfold calculateTopicPerformance.
  now rewrite AggregationProps.keys_map_values.
Qed.

Lemma performance_NoDup :
  NoDup (keys (calculateTopicPerformance currentQuiz submission)).
Proof. rewrite performance_first_keys. apply first_occurrences_NoDup. Qed.

(** X9.  Each entry of [calculateTopicPerformance] counts the questions of
    its topic and those of them answered correctly, so that
    correctAnswers <= totalQuestions and the accuracy is a number
    between 0 and 1. *)
Theorem topic_accuracy_is_a_fraction (t : string) (r : TopicResult) :
  get t (calculateTopicPerformance currentQuiz submission) = Some r ->
  totalQuestions r = questions_on t currentQuiz
  /\ correctAnswers r
     = List.length (filter (answered t) (questions currentQuiz))
  /\ correctAnswers r <= totalQuestions r
  /\ within 0 1 (topic_accuracy r).
Proof.
  unfold calculateTopicPerformance. rewrite get_map_values.
  destruct (get t (topicStats currentQuiz submission)) as [s|] eqn:E;
    [|discriminate].
  intros [= <-]. destruct (stats_entry t s E) as (Ht & Hc & H1).
  cbn [totalQuestions correctAnswers topic_accuracy topic_result].
  assert (Hle : correct s <= total s).
  { rewrite Ht, Hc. apply answered_le. }
  split; [exact Ht|]. split; [exact Hc|]. split; [exact Hle|].
  now apply ratio_within.
Qed.

(** X10.  The topics are listed once each, in the order of their first
    question, and their question counts add up to the number of
    questions of the quiz. *)
Theorem topic_counts_partition_the_quiz :
  keys (calculateTopicPerformance currentQuiz submission)
  = first_occurrences (map topic (questions currentQuiz))
  /\ NoDup (keys (calculateTopicPerformance currentQuiz submission))
  /\ total_of totalQuestions (calculateTopicPerformance currentQuiz submission)
     = List.length (questions currentQuiz).
Proof.
  split; [exact performance_first_keys|].
  split; [exact performance_NoDup|].
  destruct (questions_fold (questions currentQuiz) []) as (_ & Ht & _).
  fold (topicStats currentQuiz submission) in Ht.
  unfold calculateTopicPerformance, total_of in *. rewrite map_map.
  simpl in *. exact Ht.
Qed.
End Quiz.

Lemma topic_accuracy_is_a_fraction_witness :
  exists r,
    get "Physics"
      (calculateTopicPerformance Examples.sample_quiz Examples.sample_answers)
    = Some r
    /\ totalQuestions r = 2 /\ correctAnswers r = 1.
Proof.
  eexists. split; [vm_compute; reflexivity|].
  match goal with
  | |- totalQuestions ?r = _ /\ _ =>
      destruct (topic_accuracy_is_a_fraction
                  Examples.sample_quiz Examples.sample_answers
                  "Physics" r eq_refl) as (H1 & H2 & _)
  end.
  split; [rewrite H1 | rewrite H2]; vm_compute; reflexivity.
Defined.

End TopicProps.

Module StatusProps.
Import JS Data QuizAnalyzer Counters Measures JSFacts IntFacts ObjFacts.
Import AggregateFacts OccurrenceFacts TopicProps.
Local Open Scope nat_scope.

Lemma get_absent {V} (t : string) (o : obj V) :
  ~ In t (keys o) -> get t o = None.
Proof.
  induction o as [|[k v] rest IH]; simpl; [reflexivity|].
  intros H. destruct (String.eqb t k) eqn:E.
  - apply String.eqb_eq in E. subst k. exfalso. apply H. now left.
  - apply IH. intros Hin. apply H. now right.
Qed.

(** With distinct keys an entry is found by its key. *)
Lemma In_get_unique {V} (t : string) (v : V) (o : obj V) :
  NoDup (keys o) -> In (t, v) o -> get t o = Some v.
Proof.
  induction o as [|[k w] rest IH]; simpl; [contradiction|].
  intros Hnd [[= -> ->] | Hin].
  - now rewrite String.eqb_refl.
  - inversion Hnd as [|? ? Hk Hrest]; subst.
    destruct (String.eqb t k) eqn:E.
    + apply String.eqb_eq in E. subst k. exfalso. apply Hk.
      change t with (fst (t, v)). now apply in_map.
    + now apply IH.
Qed.

(** Assigning [result[key] = build(entry)] for entries with distinct keys
    stores, under each key, what was built from its entry. *)
Lemma assign_each {V W} (build : string * V -> W) (l : obj V) :
  NoDup (keys l) ->
  forall (res : obj W) (t : string),
    get t (fold_left (fun result entry => set (fst entry) (build entry) result)
             l res)
    = match get t l with
      | Some v => Some (build (t, v))
      | None => get t res
      end.
Proof.
  induction l as [|[k v] rest IH]; intros Hnd res t; [reflexivity|].
  inversion Hnd as [|? ? Hk Hrest]; subst.
  cbn [fold_left fst]. rewrite (IH Hrest). cbn [get].
  destruct (String.eqb t k) eqn:E.
  - apply String.eqb_eq in E. subst k.
    rewrite (get_absent t rest Hk). apply get_set_same.
  - destruct (get t rest); [reflexivity|].
    apply get_set_other. intros ->. now rewrite String.eqb_refl in E.
Qed.

Lemma below_06_below_07 (x : num) :
  lt x (dec 6 10) = true -> lt x (dec 7 10) = true.
Proof.
  destruct x as [q| | |]; try discriminate; try reflexivity.
  change (dec 6 10) with (Fin (3 # 5)). change (dec 7 10) with (Fin (7 # 10)).
  rewrite !lt_Fin. intros H. lra.
Qed.

Section Quiz.
Context (currentQuiz : Quiz) (submission : Submission)
        (history : list HistoryEntry).

Local Abbreviation performance :=
  (calculateTopicPerformance currentQuiz submission).

Lemma weak_topic_entry (t : string) :
  In t (identifyWeakTopics currentQuiz submission)
  <-> exists r, get t performance = Some r
               /\ lt (topic_accuracy r) (dec 6 10) = true.
Proof.
  pose proof (performance_NoDup currentQuiz submission) as Hnd.
  unfold identifyWeakTopics. rewrite in_map_iff. split.
  - intros ((k & r) & <- & Hin). apply filter_In in Hin.
    destruct Hin as (Hin & Hlt). exists r. split; [|exact Hlt].
    now apply In_get_unique.
  - intros (r & Hget & Hlt). exists (t, r). split; [reflexivity|].
    apply filter_In. split; [now apply get_In | exact Hlt].
Qed.

Lemma strong_topic_entry (t : string) :
  In t (identifyStrongTopics currentQuiz submission)
  <-> exists r, get t performance = Some r
               /\ gt (topic_accuracy r) (dec 8 10) = true.
Proof.
  pose proof (performance_NoDup currentQuiz submission) as Hnd.
  unfold identifyStrongTopics. rewrite in_map_iff. split.
  - intros ((k & r) & <- & Hin). apply filter_In in Hin.
    destruct Hin as (Hin & Hlt). exists r. split; [|exact Hlt].
    now apply In_get_unique.
  - intros (r & Hget & Hlt). exists (t, r). split; [reflexivity|].
    apply filter_In. split; [now apply get_In | exact Hlt].
Qed.

(** X11.  No topic is both weak and strong, and every weak topic is also an
    improvement area. *)
Theorem weak_and_strong_topics_are_disjoint (t : string) :
  In t (identifyWeakTopics currentQuiz submission) ->
  ~ In t (identifyStrongTopics currentQuiz submission)
  /\ In t (identifyImprovementAreas currentQuiz submission).
Proof.
  intros Hweak. pose proof Hweak as Hw.
  apply weak_topic_entry in Hw. destruct Hw as (r & Hget & Hlt). split.
  - intros Hs. apply strong_topic_entry in Hs. destruct Hs as (r' & Hget' & Hgt).
    rewrite Hget in Hget'. injection Hget' as <-.
    destruct (topic_accuracy r) as [q| | |]; try discriminate.
    change (dec 6 10) with (Fin (3 # 5)) in Hlt.
    change (dec 8 10) with (Fin (4 # 5)) in Hgt.
    unfold gt in Hgt. apply lt_Fin in Hlt, Hgt. lra.
  - unfold identifyImprovementAreas. apply in_map_iff.
    exists (t, r). split; [reflexivity|]. apply filter_In.
    split; [now apply get_In | now apply below_06_below_07].
Qed.

(** X12.  In the topic-wise analysis a topic has status "Needs Focus" exactly
    when it is one of the weak topics, a strong topic has status
    "Mastered", and the entry carries the accuracy of the topic and its
    improvement. *)
Theorem status_agrees_with_weak_topics (t : string) (e : TopicAnalysis) :
  get t (analyzeTopicWisePerformance currentQuiz submission history) = Some e ->
  (status e = NeedsFocus
   <-> In t (identifyWeakTopics currentQuiz submission))
  /\ (In t (identifyStrongTopics currentQuiz submission) ->
      status e = Mastered)
  /\ (exists r, get t performance = Some r
                /\ analysis_accuracy e = topic_accuracy r)
  /\ analysis_improvement e
     = calculateTopicImprovement currentQuiz submission history t.
Proof.
  pose proof (performance_NoDup currentQuiz submission) as Hnd.
  unfold analyzeTopicWisePerformance.
  rewrite (assign_each
             (fun entry =>
                {| analysis_accuracy := topic_accuracy (snd entry);
                   analysis_improvement :=
                     calculateTopicImprovement currentQuiz submission history
                       (fst entry);
                   status := determineTopicStatus (topic_accuracy (snd entry))
                |}) _ Hnd).
  destruct (get t performance) as [r|] eqn:Hget; [|discriminate].
  intros [= <-]. cbn [status analysis_accuracy analysis_improvement fst snd].
  destruct (performance_accuracy currentQuiz submission t r Hget)
    as (a & Ha & Ha0 & Ha1).
  assert (Hw : In t (identifyWeakTopics currentQuiz submission)
               <-> lt (topic_accuracy r) (dec 6 10) = true).
  { rewrite weak_topic_entry. split.
    - intros (r' & Hr' & Hlt). congruence.
    - eauto. }
  assert (Hs : In t (identifyStrongTopics currentQuiz submission)
               <-> gt (topic_accuracy r) (dec 8 10) = true).
  { rewrite strong_topic_entry. split.
    - intros (r' & Hr' & Hlt). congruence.
    - eauto. }
  rewrite Hw, Hs, Ha. unfold determineTopicStatus, ge, gt.
  change (dec 6 10) with (Fin (3 # 5)). change (dec 8 10) with (Fin (4 # 5)).
  repeat split.
  - destruct (le (Fin (4 # 5)) (Fin a)) eqn:E8; [discriminate|].
    destruct (le (Fin (3 # 5)) (Fin a)) eqn:E6; [discriminate|].
    intros _. change (negb (le (Fin (3 # 5)) (Fin a)) = true).
    now rewrite E6.
  - intros Hlt. apply lt_Fin in Hlt.
    assert (E8 : le (Fin (4 # 5)) (Fin a) = false).
    { destruct (le (Fin (4 # 5)) (Fin a)) eqn:E; [|reflexivity].
      apply le_Fin in E. lra. }
    assert (E6 : le (Fin (3 # 5)) (Fin a) = false).
    { destruct (le (Fin (3 # 5)) (Fin a)) eqn:E; [|reflexivity].
      apply le_Fin in E. lra. }
    now rewrite E8, E6.
  - intros Hgt. apply lt_Fin in Hgt.
    assert (E8 : le (Fin (4 # 5)) (Fin a) = true)
      by (apply le_Fin; lra).
    now rewrite E8.
  - exists r. split; [reflexivity | symmetry; exact Ha].
Qed.
End Quiz.

Lemma weak_and_strong_topics_are_disjoint_witness :
  In "Biology"%string
     (identifyWeakTopics Examples.sample_quiz Examples.sample_answers)
  /\ ~ In "Biology"%string
        (identifyStrongTopics Examples.sample_quiz Examples.sample_answers).
Proof.
  assert (H : In "Biology"%string
                (identifyWeakTopics Examples.sample_quiz
                   Examples.sample_answers)).
  { vm_compute. auto. }
  split; [exact H|].
  apply (weak_and_strong_topics_are_disjoint
           Examples.sample_quiz Examples.sample_answers "Biology" H).
Defined.

Lemma status_agrees_with_weak_topics_witness :
  exists e,
    get "Physics"
      (analyzeTopicWisePerformance Examples.sample_quiz
         Examples.sample_answers []) = Some e
    /\ status e = NeedsFocus.
Proof.
  eexists. split; [vm_compute; reflexivity|].
  match goal with
  | |- status ?e = _ =>
      destruct (status_agrees_with_weak_topics
                  Examples.sample_quiz Examples.sample_answers []
                  "Physics" e eq_refl) as (H & _)
  end.
  apply H. vm_compute. auto.
Defined.

End StatusProps.

Module ImprovementProps.
Import JS Data QuizAnalyzer Measures JSFacts IntFacts TopicProps.
Local Open Scope nat_scope.

(** [arr.slice(-3)] keeps the last three elements. *)
Lemma slice_last_three {A} (l : list A) :
  slice l (-3) (Z.of_nat (List.length l)) = skipn (List.length l - 3) l.
Proof.
  unfold slice. cbv zeta.
  assert (E : (Z.of_nat (List.length l) <? 0)%Z = false)
    by (apply Z.ltb_ge; lia).
  rewrite E. cbn [Z.ltb Z.compare].
  replace (Z.to_nat (Z.max 0 (Z.of_nat (List.length l) + -3)))
    with (List.length l - 3) by lia.
  apply firstn_all2. rewrite length_skipn. lia.
Qed.

Section Quiz.
Context (currentQuiz : Quiz) (submission : Submission).

Local Abbreviation topic_score := (fun (t : string) (quiz : HistoryEntry) =>
  let topicQuestions :=
    filter (fun q => String.eqb (topic q) t) (quiz_questions quiz) in
  let correct :=
    List.length
      (filter (fun q => isCorrectAnswer currentQuiz submission (id q))
         topicQuestions) in
  div (of_nat correct) (of_nat (List.length topicQuestions))).

Lemma topic_score_range (t : string) (quiz : HistoryEntry) :
  topic_score t quiz = NaN \/ within 0 1 (topic_score t quiz).
Proof.
  cbv beta zeta.
  set (tq := filter (fun q => String.eqb (topic q) t) (quiz_questions quiz)).
  assert (Hle : List.length
                  (filter (fun q => isCorrectAnswer currentQuiz submission
                                      (id q)) tq)
                <= List.length tq).
  { clear. induction tq as [|q rest IH]; simpl; [lia|].
    destruct (isCorrectAnswer currentQuiz submission (id q)); simpl; lia. }
  destruct tq as [|q rest] eqn:E.
  - left. reflexivity.
  - right. apply TopicProps.ratio_within; [exact Hle | simpl; lia].
Qed.

(** X13.  The improvement of a topic is read off the last three attempts only,
    and it is either NaN (a compared attempt has no question on the
    topic) or a number between -1 and 1. *)
Theorem topic_improvement_uses_last_three_attempts
  (older recent : list HistoryEntry) (t : string) :
  List.length recent = 3 ->
  calculateTopicImprovement currentQuiz submission (older ++ recent) t
  = calculateTopicImprovement currentQuiz submission recent t
  /\ (calculateTopicImprovement currentQuiz submission (older ++ recent) t
      = NaN
      \/ within (-1) 1
           (calculateTopicImprovement currentQuiz submission
              (older ++ recent) t)).
Proof.
  intros Hlen.
  assert (Hrange : forall history,
            calculateTopicImprovement currentQuiz submission history t = NaN
            \/ within (-1) 1
                 (calculateTopicImprovement currentQuiz submission history t)).
  { intros history. unfold calculateTopicImprovement.
    set (scores := map _ _).
    assert (Hall : forall i, (i < List.length scores) ->
                     at_index scores i = NaN
                     \/ within 0 1 (at_index scores i)).
    { intros i Hi. unfold at_index, scores.
      rewrite nth_indep with (d' := topic_score t (Examples.past 0 []))
        by exact Hi.
      rewrite (map_nth (topic_score t)). apply topic_score_range. }
    destruct (List.length scores <? 2) eqn:E.
    - right. exists 0%Q. split; [reflexivity|]. split; lra.
    - apply Nat.ltb_ge in E.
      destruct (Hall (List.length scores - 1)) as [-> | (a & -> & Ha)];
        [lia | left; reflexivity |].
      destruct (Hall 0) as [-> | (b & -> & Hb)];
        [lia | left; reflexivity |].
      right. rewrite sub_Fin. eexists. split; [reflexivity|].
      rewrite Qred_correct. split; lra. }
  split; [|apply Hrange].
  unfold calculateTopicImprovement. rewrite !slice_last_three.
  rewrite length_app, Hlen.
  replace (List.length older + 3 - 3) with (List.length older + 0) by lia.
  rewrite skipn_app, Nat.add_0_r, skipn_all.
  replace (List.length older - List.length older) with 0 by lia.
  reflexivity.
Qed.
End Quiz.

Lemma topic_improvement_uses_last_three_attempts_witness :
  calculateTopicImprovement Examples.sample_quiz Examples.sample_answers
    (Examples.past 10 [] :: Examples.recent_attempts) "Physics"
  = dec 5 10.
Proof.
  destruct (topic_improvement_uses_last_three_attempts
              Examples.sample_quiz Examples.sample_answers
              [Examples.past 10 []] Examples.recent_attempts "Physics"
              eq_refl) as (H & _).
  simpl app in H. rewrite H. vm_compute. reflexivity.
Defined.

End ImprovementProps.

(* ================================================================== *)
(** ** Monotonicity and edge behaviour of the rank predictor          *)
(* ================================================================== *)

Module PredictorProps.
Import JS Data RankPredictor Measures JSFacts IntFacts.

Lemma le_trans (x y z : num) :
  le x y = true -> le y z = true -> le x z = true.
Proof.
  destruct x as [a| | |], y as [b| | |], z as [c| | |];
    try discriminate; try reflexivity.
  rewrite !le_Fin. apply Qle_trans.
Qed.

Lemma le_not_nan (x y : num) :
  le x y = true -> is_nan x = false /\ is_nan y = false.
Proof. destruct x, y; try discriminate; auto. Qed.

Lemma round_monotone (x y : num) :
  le x y = true -> le (Math_round x) (Math_round y) = true.
Proof.
  destruct x as [a| | |], y as [b| | |]; try discriminate; try reflexivity.
  rewrite le_Fin. intros H. unfold Math_round. apply le_of_Z.
  apply Qfloor_resp_le. lra.
Qed.

Lemma base_rank_antitone (u v : num) :
  le u v = true -> le (getBaseRank v) (getBaseRank u) = true.
Proof.
  intros Huv. unfold getBaseRank. apply round_monotone.
  destruct u as [a| | |], v as [b| | |]; try discriminate;
    try reflexivity.
  apply le_Fin in Huv. unfold one, of_Z. rewrite !sub_Fin. unfold fin.
  rewrite !mul_Fin. unfold fin. apply le_Fin. rewrite !Qred_correct.
  change (inject_Z 50000) with 50000. change (inject_Z 1) with 1. nra.
Qed.

(** X14.  A higher normalized score never gives a worse (larger) base rank,
    and scores between 0 and 1 give base ranks between 0 and 50000. *)
Theorem base_rank_decreases_with_score (x y : num) :
  le x y = true ->
  le (getBaseRank y) (getBaseRank x) = true
  /\ (le zero x = true -> le y one = true ->
      le zero (getBaseRank y) = true
      /\ le (getBaseRank x) (of_Z 50000) = true).
Proof.
  intros Hxy.
  split; [now apply base_rank_antitone|]. intros H0 H1. split.
  - change zero with (getBaseRank one). now apply base_rank_antitone.
  - change (of_Z 50000) with (getBaseRank zero). now apply base_rank_antitone.
Qed.

Lemma base_rank_decreases_with_score_witness :
  le (getBaseRank (dec 8 10)) (getBaseRank (dec 5 10)) = true.
Proof.
  apply (base_rank_decreases_with_score (dec 5 10) (dec 8 10));
    reflexivity.
Defined.

(** X15.  For normalized scores of magnitude at most 1e100, so that the
    base ranks are finite, and a finite correlation, the predicted rank
    moves with the normalized score in one direction only: it does not
    increase when the correlation is non-negative, and does not decrease
    when it is non-positive. *)
Theorem predicted_rank_is_monotone_in_score
  (historicalData : list HistoryEntry) (x y : Q) :
  x <= y ->
  far_from_overflow (Fin x) ->
  far_from_overflow (Fin y) ->
  is_finite (calculateHistoricalCorrelation historicalData) = true ->
  (le zero (calculateHistoricalCorrelation historicalData) = true ->
   le (calculatePredictedRank historicalData (Fin y))
      (calculatePredictedRank historicalData (Fin x)) = true)
  /\ (le (calculateHistoricalCorrelation historicalData) zero = true ->
      le (calculatePredictedRank historicalData (Fin x))
         (calculatePredictedRank historicalData (Fin y)) = true).
Proof.
  intros Hxy _ _ Hfin.
  destruct (finite_inv _ Hfin) as (c & Hc).
  assert (Hb : le (getBaseRank (Fin y)) (getBaseRank (Fin x)) = true)
    by now apply base_rank_antitone, le_Fin.
  unfold calculatePredictedRank. rewrite Hc.
  unfold getBaseRank in *. unfold one in *.
  change (of_Z 1) with (Fin 1) in *. change (of_Z 50000) with (Fin 50000) in *.
  rewrite !sub_Fin in *. unfold fin in *. rewrite !mul_Fin in *.
  unfold fin in *.
  change (Math_round (Fin ?q)) with (of_Z (Qfloor (q + (1 # 2)))) in *.
  set (zx := Qfloor (Qred (50000 * Qred (1 - x)) + (1 # 2))) in *.
  set (zy := Qfloor (Qred (50000 * Qred (1 - y)) + (1 # 2))) in *.
  apply le_of_Z in Hb.
  unfold of_Z. rewrite !mul_Fin. unfold fin.
  assert (Hz : inject_Z zy <= inject_Z zx) by (rewrite <- Zle_Qle; exact Hb).
  split; intros Hsign; apply le_Fin in Hsign;
    change (inject_Z 0) with 0 in Hsign;
    apply round_monotone; apply le_Fin; rewrite !Qred_correct; nra.
Qed.

Lemma predicted_rank_is_monotone_in_score_witness :
  calculateHistoricalCorrelation Examples.falling_ranks = of_Z (-1)
  /\ le (calculatePredictedRank Examples.falling_ranks (Fin (1 # 2)))
        (calculatePredictedRank Examples.falling_ranks (Fin (4 # 5))) = true.
Proof.
  split; [vm_compute; reflexivity|].
  apply (predicted_rank_is_monotone_in_score Examples.falling_ranks
           (1 # 2) (4 # 5)).
  - lra.
  - eexists. split; [reflexivity|]. split; vm_compute; discriminate.
  - eexists. split; [reflexivity|]. split; vm_compute; discriminate.
  - vm_compute. reflexivity.
  - vm_compute. reflexivity.
Defined.

(** X16.  The tiers returned are nested: a rank that qualifies for a tier
    qualifies for every looser one, so the names returned are the last
    three, two, one or none of the tier list. *)
Theorem potential_colleges_are_nested (predictedRank : num) :
  map name (getPotentialColleges predictedRank)
  = if le predictedRank (of_Z 1000)
    then [ "Tier 1 Medical Colleges"; "Tier 2 Medical Colleges";
           "Tier 3 Medical Colleges" ]%string
    else if le predictedRank (of_Z 5000)
    then [ "Tier 2 Medical Colleges"; "Tier 3 Medical Colleges" ]%string
    else if le predictedRank (of_Z 10000)
    then [ "Tier 3 Medical Colleges" ]%string
    else [].
Proof.
  unfold getPotentialColleges, collegeTiers. cbn [filter maxRank].
  assert (H1 : le predictedRank (of_Z 1000) = true ->
               le predictedRank (of_Z 5000) = true).
  { intros H. apply (le_trans _ _ _ H). reflexivity. }
  assert (H2 : le predictedRank (of_Z 5000) = true ->
               le predictedRank (of_Z 10000) = true).
  { intros H. apply (le_trans _ _ _ H). reflexivity. }
  destruct (le predictedRank (of_Z 1000)) eqn:E1.
  - rewrite (H1 eq_refl), (H2 (H1 eq_refl)). reflexivity.
  - destruct (le predictedRank (of_Z 5000)) eqn:E2.
    + rewrite (H2 eq_refl). reflexivity.
    + destruct (le predictedRank (of_Z 10000)); reflexivity.
Qed.

(** X17.  The admission probability is 0.9, 0.7 or 0.3 and never increases as
    the predicted rank gets worse, for any cutoff. *)
Theorem college_probability_decreases_with_rank (p1 p2 cutoff : num) :
  le p1 p2 = true ->
  le (calculateCollegeProbability p2 cutoff)
     (calculateCollegeProbability p1 cutoff) = true
  /\ In (calculateCollegeProbability p1 cutoff)
        [dec 9 10; dec 7 10; dec 3 10].
Proof.
  intros H12. split.
  - unfold calculateCollegeProbability.
    set (t := sub cutoff (mul cutoff (dec 1 10))).
    destruct (le p2 t) eqn:E2t.
    + now rewrite (le_trans _ _ _ H12 E2t).
    + destruct (le p2 cutoff) eqn:E2c.
      * rewrite (le_trans _ _ _ H12 E2c). now destruct (le p1 t).
      * destruct (le p1 t); [reflexivity|].
        destruct (le p1 cutoff); reflexivity.
  - unfold calculateCollegeProbability.
    destruct (le p1 (sub cutoff _)); [left; reflexivity|].
    destruct (le p1 cutoff);
      [right; left; reflexivity | right; right; left; reflexivity].
Qed.

Lemma college_probability_decreases_with_rank_witness :
  le (calculateCollegeProbability (of_Z 950) (of_Z 1000))
     (calculateCollegeProbability (of_Z 800) (of_Z 1000)) = true.
Proof.
  apply (college_probability_decreases_with_rank
           (of_Z 800) (of_Z 950) (of_Z 1000));
    reflexivity.
Defined.

End PredictorProps.

Module CorrelationProps.
Import JS Data RankPredictor Measures JSFacts IntFacts DeviationProps.

Lemma constant_mean (v : Q) (values : list num) :
  Forall (fun x => exists q, x = Fin q /\ q == v) values ->
  values <> [] ->
  exists m, div (sum values) (of_nat (List.length values)) = Fin m /\ m == v.
Proof.
  intros Hall Hne.
  destruct (ConsistencyFacts.sum_constant v values Hall (inject_Z 0))
    as (s & Hs & Heq).
  change (inject_Z 0) with 0 in Heq.
  assert (Hn : ~ inject_Z (Z.of_nat (List.length values)) == 0).
  { apply of_nat_nonzero. destruct values; [contradiction | discriminate]. }
  unfold sum, zero, of_nat, of_Z. rewrite Hs, (div_Fin _ _ Hn).
  eexists. split; [reflexivity|].
  rewrite Qred_correct, Heq. field. exact Hn.
Qed.

Lemma constant_squares (v m : Q) (values : list num) :
  Forall (fun x => exists q, x = Fin q /\ q == v) values ->
  m == v ->
  fold_left (fun a b => add a (Math_pow (sub b (Fin m)) 2)) values zero
  = Fin 0.
Proof.
  intros Hall Hm. apply ConsistencyFacts.squares_vanish.
  eapply Forall_impl; [|exact Hall].
  intros x (q & -> & Hq). exists q. split; [reflexivity|].
  change (q == v) in Hq. now rewrite Hq, Hm.
Qed.

Lemma finite_squares (values : list num) :
  Forall (fun x => is_finite x = true) values ->
  values <> [] ->
  exists s,
    fold_left
      (fun a b =>
         add a (Math_pow
                  (sub b (div (sum values) (of_nat (List.length values)))) 2))
      values zero
    = Fin s.
Proof.
  intros Hall Hne. destruct (mean_finite values Hall Hne) as (m & ->).
  destruct (squares_nonneg m values Hall 0) as (s & Hs & _); [lra|].
  exists s. exact Hs.
Qed.

(** With exact sums, a series of equal numbers has no spread and the
    correlation is the neutral 1. *)
Lemma constant_series_correlation
  (historicalData : list HistoryEntry) (v : Q) :
  (Forall (fun d => exists q, score d = Fin q /\ q == v) historicalData
   /\ Forall (fun d => is_finite (rank d) = true) historicalData)
  \/ (Forall (fun d => exists q, rank d = Fin q /\ q == v) historicalData
      /\ Forall (fun d => is_finite (score d) = true) historicalData) ->
  calculateHistoricalCorrelation historicalData = one.
Proof.
  intros H. unfold calculateHistoricalCorrelation.
  destruct (List.length (map score historicalData) <? 2)%nat eqn:E;
    [reflexivity|].
  apply Nat.ltb_ge in E.
  assert (Hs : map score historicalData <> []).
  { destruct historicalData; [simpl in E; lia | discriminate]. }
  assert (Hr : map rank historicalData <> []).
  { destruct historicalData; [simpl in E; lia | discriminate]. }
  assert (Hden :
            correlation_denominator (map score historicalData)
              (map rank historicalData)
              (div (sum (map score historicalData))
                   (of_nat (List.length (map score historicalData))))
              (div (sum (map rank historicalData))
                   (of_nat (List.length (map rank historicalData))))
            = Fin 0).
  { unfold correlation_denominator.
    destruct H as [(Hconst & Hfin) | (Hconst & Hfin)].
    - assert (Hc : Forall (fun x => exists q, x = Fin q /\ q == v)
                     (map score historicalData))
        by (apply Forall_map; exact Hconst).
      assert (Hf : Forall (fun x => is_finite x = true)
                     (map rank historicalData))
        by (apply Forall_map; exact Hfin).
      destruct (constant_mean v _ Hc Hs) as (m & Hm & Hmv).
      rewrite Hm. rewrite (constant_squares v m _ Hc Hmv).
      destruct (finite_squares _ Hf Hr) as (s & ->).
      rewrite mul_Fin. rewrite (fin_eq (0 * s) 0) by ring. reflexivity.
    - assert (Hc : Forall (fun x => exists q, x = Fin q /\ q == v)
                     (map rank historicalData))
        by (apply Forall_map; exact Hconst).
      assert (Hf : Forall (fun x => is_finite x = true)
                     (map score historicalData))
        by (apply Forall_map; exact Hfin).
      destruct (constant_mean v _ Hc Hr) as (m & Hm & Hmv).
      rewrite Hm. rewrite (constant_squares v m _ Hc Hmv).
      destruct (finite_squares _ Hf Hs) as (s & ->).
      rewrite mul_Fin. rewrite (fin_eq (s * 0) 0) by ring. reflexivity. }
  rewrite Hden. reflexivity.
Qed.

(** X18.  When all scores are the same integer v and the ranks are
    numbers of magnitude at most 1e100, or the other way round, with
    n * |v| <= 2^53 so that the sum of the constant series is computed
    without rounding, the correlation factor is the neutral 1: the zero
    denominator is caught. *)
Theorem correlation_is_neutral_without_variance
  (historicalData : list HistoryEntry) (v : Z) :
  (Z.of_nat (List.length historicalData) * Z.abs v <= max_exact)%Z ->
  (Forall (fun d => score d = of_Z v) historicalData
   /\ Forall (fun d => far_from_overflow (rank d)) historicalData)
  \/ (Forall (fun d => rank d = of_Z v) historicalData
      /\ Forall (fun d => far_from_overflow (score d)) historicalData) ->
  calculateHistoricalCorrelation historicalData = one.
Proof.
  intros _ H. apply (constant_series_correlation _ (inject_Z v)).
  destruct H as [(Hc & Hf) | (Hc & Hf)]; [left | right]; split.
  - eapply Forall_impl; [|exact Hc].
    intros d ->. exists (inject_Z v). split; reflexivity.
  - eapply Forall_impl; [|exact Hf]. now intros d (q & -> & _).
  - eapply Forall_impl; [|exact Hc].
    intros d ->. exists (inject_Z v). split; reflexivity.
  - eapply Forall_impl; [|exact Hf]. now intros d (q & -> & _).
Qed.

Lemma correlation_is_neutral_without_variance_witness :
  calculateHistoricalCorrelation
    [ Examples.entry (of_Z 50) (dec 5 10) (dec 5 10) (of_Z 4000);
      Examples.entry (of_Z 50) (dec 5 10) (dec 5 10) (of_Z 2500);
      Examples.entry (of_Z 50) (dec 5 10) (dec 5 10) (of_Z 1000) ]
  = one.
Proof.
  apply (correlation_is_neutral_without_variance _ 50).
  - vm_compute. discriminate.
  - left. split; repeat constructor;
      eexists; (split; [reflexivity|]); split; vm_compute; discriminate.
Defined.

(** X19.  The standard error is never negative: it is NaN, Infinity or a
    non-negative number.  On an empty history it is NaN, and so are both
    bounds of the confidence interval, for every predicted rank. *)
Theorem standard_error_is_never_negative
  (historicalData : list HistoryEntry) (predictedRank : num) :
  (calculateStandardError historicalData = NaN
   \/ calculateStandardError historicalData = PInf
   \/ exists s, calculateStandardError historicalData = Fin s /\ 0 <= s)
  /\ calculateStandardError [] = NaN
  /\ calculateConfidenceInterval [] predictedRank
     = {| lower := NaN; upper := NaN |}.
Proof.
  split; [|split].
  - unfold calculateStandardError.
    match goal with
    | |- context [Math_sqrt ?x] =>
        destruct (Math_sqrt_range x) as [H | [H | H]]
    end; auto.
  - reflexivity.
  - unfold calculateConfidenceInterval.
    change (calculateStandardError []) with NaN.
    change (mul (dec 196 100) NaN) with NaN.
    destruct predictedRank; reflexivity.
Qed.

(** X20.  The two improvement rates agree on every history; with at least two
    attempts the value is (last - first) / first, which is not a finite
    number when the first score is 0. *)
Theorem improvement_rate_divides_by_first_score
  (first last : HistoryEntry) (middle history : list HistoryEntry) :
  QuizAnalyzer.calculateImprovementRate history
  = calculateImprovement history
  /\ calculateImprovement (first :: middle ++ [last])
     = div (sub (score last) (score first)) (score first)
  /\ (strict_eq (score first) zero = true ->
      is_finite (calculateImprovement (first :: middle ++ [last])) = false).
Proof.
  split; [reflexivity|].
  assert (E : calculateImprovement (first :: middle ++ [last])
              = div (sub (score last) (score first)) (score first)).
  { unfold calculateImprovement, at_index.
    rewrite map_cons, map_app. cbn [map].
    set (scores := score first :: (map score middle ++ [score last])%list).
    assert (Hlen : List.length scores
                   = S (S (List.length (map score middle)))).
    { unfold scores. simpl. rewrite length_app. simpl. lia. }
    rewrite Hlen. cbn [Nat.ltb Nat.leb].
    replace (S (S (List.length (map score middle))) - 1)%nat
      with (S (List.length (map score middle))) by lia.
    unfold scores. cbn [nth].
    rewrite app_nth2 by lia. rewrite Nat.sub_diag. reflexivity. }
  split; [exact E|]. intros Hz. rewrite E.
  now apply GuardClaims.div_by_zero.
Qed.

Lemma improvement_rate_divides_by_first_score_witness :
  is_finite
    (calculateImprovement [Examples.scored 0; Examples.scored 50]) = false.
Proof.
  apply (improvement_rate_divides_by_first_score
           (Examples.scored 0) (Examples.scored 50) [] []).
  reflexivity.
Defined.

End CorrelationProps.

(* ================================================================== *)
(** ** Validation of submissions                                      *)
(* ================================================================== *)

Module ValidationProps.
Import JS Api DataProcessor.
Local Open Scope string_scope.
Local Open Scope nat_scope.

Lemma no_missing_field (data : Submission) :
  (0 <? List.length
          (map fst (filter (fun field => negb (snd field data))
                      requiredFields)))
  = negb (forallb (fun field => snd field data) requiredFields).
Proof.
  unfold requiredFields. cbn [filter forallb snd fst].
  destruct (present (quiz_id data)), (present (submitted_at data)),
    (present (correct_answers data)), (present (total_questions data)),
    (present (speed data)); reflexivity.
Qed.

Lemma accepted_value (data : Submission) (b : bool) :
  validateSubmissionData data = Ok b -> b = true.
Proof.
  unfold validateSubmissionData.
  destruct (0 <? _); [discriminate|].
  destruct (gt _ _); [discriminate|].
  destruct (le _ _); [discriminate|].
  now intros [= <-].
Qed.

Lemma validate_at_accepts (s : Submission) (i : nat) :
  validateSubmissionData s = Ok true -> validate_at tt s i = Ok tt.
Proof. unfold validate_at. now intros ->. Qed.

Lemma validate_at_rejects (s : Submission) (i : nat) (message : string) :
  validateSubmissionData s = Throw message ->
  validate_at tt s i
  = Throw ("Invalid submission at index " ++ index_string i ++ ": "
           ++ message).
Proof. unfold validate_at. now intros ->. Qed.

Lemma forEach_valid (data : list Submission) (i : nat) :
  Forall (fun s => validateSubmissionData s = Ok true) data ->
  forEach_i validate_at data i tt = Ok tt.
Proof.
  intros H. revert i. induction H as [|s rest Hs _ IH]; intros i.
  - reflexivity.
  - cbn [forEach_i]. rewrite (validate_at_accepts _ _ Hs). apply IH.
Qed.

Lemma forEach_valid_inv (data : list Submission) (i : nat) (u : unit) :
  forEach_i validate_at data i tt = Ok u ->
  Forall (fun s => validateSubmissionData s = Ok true) data.
Proof.
  revert i. induction data as [|s rest IH]; intros i H.
  - constructor.
  - cbn [forEach_i] in H. unfold validate_at at 1 in H.
    destruct (validateSubmissionData s) as [b|m] eqn:E; [|discriminate].
    cbn [bind] in H. constructor.
    + now rewrite (accepted_value _ _ E) in E.
    + exact (IH _ H).
Qed.

(** X21.  A submission is accepted exactly when the five required fields are
    present, correct_answers > total_questions is false and speed <= 0 is
    false; a comparison with a value that is not a number is false, so such
    a value passes.  An accepted submission always yields [true]. *)
Theorem submission_is_accepted_exactly_when (data : Submission) :
  (validateSubmissionData data = Ok true
   <-> forallb (fun field => snd field data) requiredFields = true
       /\ gt (to_num (correct_answers data)) (to_num (total_questions data))
          = false
       /\ le (parseFloat (to_num (speed data))) zero = false)
  /\ validateSubmissionData data <> Ok false.
Proof.
  split.
  - unfold validateSubmissionData. rewrite no_missing_field.
    destruct (forallb _ requiredFields); cbn [negb].
    + destruct (gt _ _).
      * split; [discriminate | intros (_ & H & _); discriminate].
      * destruct (le _ _).
        -- split; [discriminate | intros (_ & _ & H); discriminate].
        -- split; auto.
    + split; [discriminate | intros (H & _); discriminate].
  - intros H. apply accepted_value in H. discriminate.
Qed.

Lemma submission_is_accepted_exactly_when_witness :
  validateSubmissionData (Examples.submitted 80 100 3 4) = Ok true.
Proof.
  apply (submission_is_accepted_exactly_when (Examples.submitted 80 100 3 4)).
  repeat split.
Defined.

(** X22.  A history is accepted exactly when it is not empty and every
    submission of it is accepted. *)
Theorem history_is_accepted_exactly_when (data : list Submission) :
  validateHistoricalData data = Ok true
  <-> data <> []
      /\ Forall (fun s => validateSubmissionData s = Ok true) data.
Proof.
  unfold validateHistoricalData. destruct data as [|s rest].
  - cbn. split; [discriminate | intros (H & _); contradiction].
  - cbn [List.length Nat.eqb]. split.
    + intros H. split; [discriminate|].
      destruct (forEach_i validate_at (s :: rest) 0 tt) as [u|m] eqn:E;
        [|discriminate].
      exact (forEach_valid_inv _ _ _ E).
    + intros (_ & H). now rewrite (forEach_valid _ 0 H).
Qed.

Lemma history_is_accepted_exactly_when_witness :
  validateHistoricalData
    [Examples.submitted 80 100 3 4; Examples.submitted 10 10 0 0] = Ok true.
Proof.
  apply (history_is_accepted_exactly_when
           [Examples.submitted 80 100 3 4; Examples.submitted 10 10 0 0]).
  split; [discriminate | repeat constructor].
Defined.

Lemma forEach_first_invalid (accepted rest : list Submission)
  (bad : Submission) (message : string) (i : nat) :
  Forall (fun s => validateSubmissionData s = Ok true) accepted ->
  validateSubmissionData bad = Throw message ->
  forEach_i validate_at (accepted ++ bad :: rest)%list i tt
  = Throw ("Invalid submission at index "
           ++ index_string (i + List.length accepted) ++ ": " ++ message).
Proof.
  intros H Hbad. revert i. induction H as [|s more Hs _ IH]; intros i.
  - cbn [app forEach_i List.length]. rewrite Nat.add_0_r.
    now rewrite (validate_at_rejects _ _ _ Hbad).
  - cbn [app forEach_i List.length].
    rewrite (validate_at_accepts _ _ Hs). cbn [bind].
    rewrite IH. now rewrite Nat.add_succ_comm.
Qed.

(** X23.  The error of a rejected history names the first submission that is
    rejected, by its index, and carries that submission's message;
    submissions after it are not looked at. *)
Theorem first_invalid_submission_is_reported
  (accepted rest : list Submission) (bad : Submission) (message : string) :
  Forall (fun s => validateSubmissionData s = Ok true) accepted ->
  validateSubmissionData bad = Throw message ->
  validateHistoricalData (accepted ++ bad :: rest)%list
  = Throw ("Invalid submission at index "
           ++ index_string (List.length accepted) ++ ": " ++ message).
Proof.
  intros H Hbad. unfold validateHistoricalData.
  assert (E : (List.length (accepted ++ bad :: rest)%list =? 0) = false).
  { apply Nat.eqb_neq. rewrite length_app. simpl. lia. }
  rewrite E.
  now rewrite (forEach_first_invalid _ rest _ _ 0 H Hbad).
Qed.

Lemma first_invalid_submission_is_reported_witness :
  validateHistoricalData
    ([Examples.submitted 80 100 3 4]
       ++ Examples.submitted 101 100 3 4 :: [Examples.submitted 10 0 0 0])%list
  = Throw "Invalid submission at index 1: Correct answers cannot exceed total questions".
Proof.
  apply (first_invalid_submission_is_reported
           [Examples.submitted 80 100 3 4] [Examples.submitted 10 0 0 0]
           (Examples.submitted 101 100 3 4)
           "Correct answers cannot exceed total questions").
  - repeat constructor.
  - reflexivity.
Defined.

End ValidationProps.

(* ================================================================== *)
(** ** Grouping submissions by topic                                  *)
(* ================================================================== *)

Module GroupingProps.
Import JS Api DataProcessor Measures ObjFacts IntFacts.
Import AggregateFacts OccurrenceFacts.
Local Open Scope nat_scope.

Lemma topic_of_on_topic (t : string) (s : Submission) :
  t <> ""%string -> on_topic t s = true <-> topic_of s = Some t.
Proof.
  intros Ht. unfold on_topic, topic_of. destruct (quiz s) as [q|].
  - destruct (String.eqb (topic q) "") eqn:E.
    + apply String.eqb_eq in E. rewrite E. split; [|discriminate].
      intros H. apply String.eqb_eq in H. congruence.
    + rewrite String.eqb_eq. split; [now intros -> | now intros [= ->]].
  - split; discriminate.
Qed.

Lemma topic_of_nonempty (s : Submission) : topic_of s <> Some ""%string.
Proof.
  unfold topic_of. destruct (quiz s) as [q|]; [|discriminate].
  destruct (String.eqb (topic q) "") eqn:E; [discriminate|].
  intros [= H]. rewrite H in E. discriminate.
Qed.

Lemma NoDup_bump {V} (init : V) (f : V -> V) (k : string) (o : obj V) :
  NoDup (keys o) -> NoDup (keys (update k f (ensure k init o))).
Proof.
  intros H. rewrite keys_bump.
  destruct (existsb (String.eqb k) (keys o)) eqn:E; [exact H|].
  apply NoDup_app; [exact H | repeat constructor; auto |].
  intros x Hx [<- | []].
  apply existsb_eqb in Hx. congruence.
Qed.

Section ByTopic.
Context {V : Type} (init : V) (step : Submission -> V -> V).

Local Abbreviation accumulate :=
  (fun (o : obj V) (s : Submission) =>
     match topic_of s with
     | None => o
     | Some t => update t (step s) (ensure t init o)
     end).

Local Abbreviation stored :=
  (fun (t : string) (o : obj V) =>
     match get t o with Some v => v | None => init end).

Lemma get_accumulate (t : string) (o : obj V) (s : Submission) :
  t <> ""%string ->
  get t (accumulate o s)
  = if on_topic t s then Some (step s (stored t o)) else get t o.
Proof.
  intros Ht. pose proof (topic_of_on_topic t s Ht) as Hon. cbv beta.
  destruct (topic_of s) as [k|] eqn:E.
  - rewrite get_update, get_ensure.
    destruct (String.eqb k t) eqn:Ek.
    + apply String.eqb_eq in Ek. subst k.
      rewrite (proj2 Hon eq_refl). now destruct (get t o).
    + destruct (on_topic t s); [|now destruct (get t o)].
      destruct Hon as (Hon & _). specialize (Hon eq_refl).
      injection Hon as ->. now rewrite String.eqb_refl in Ek.
  - destruct (on_topic t s); [|reflexivity].
    destruct Hon as (Hon & _). now specialize (Hon eq_refl).
Qed.

(** What a topic's entry holds after the loop: the fold of [step] over
    the submissions of that topic, in their order. *)
Lemma fold_accumulate (t : string) (submissions : list Submission) :
  t <> ""%string ->
  forall o,
    get t (fold_left accumulate submissions o)
    = match filter (on_topic t) submissions with
      | [] => get t o
      | group => Some (fold_left (fun v s => step s v) group (stored t o))
      end.
Proof.
  intros Ht. induction submissions as [|s rest IH]; intros o.
  - reflexivity.
  - cbn [fold_left filter]. rewrite IH, (get_accumulate t o s Ht).
    destruct (on_topic t s).
    + cbn [fold_left]. now destruct (filter (on_topic t) rest).
    + reflexivity.
Qed.

Lemma fold_accumulate_unnamed (submissions : list Submission) :
  forall o, get ""%string (fold_left accumulate submissions o)
            = get ""%string o.
Proof.
  induction submissions as [|s rest IH]; intros o; [reflexivity|].
  cbn [fold_left]. rewrite IH.
  pose proof (topic_of_nonempty s) as Hs.
  destruct (topic_of s) as [k|]; [|reflexivity].
  rewrite get_update, get_ensure.
  destruct (String.eqb k "") eqn:E.
  - apply String.eqb_eq in E. congruence.
  - now destruct (get ""%string o).
Qed.

Lemma fold_accumulate_NoDup (submissions : list Submission) :
  forall o, NoDup (keys o) ->
            NoDup (keys (fold_left accumulate submissions o)).
Proof.
  induction submissions as [|s rest IH]; intros o Ho; [exact Ho|].
  cbn [fold_left]. apply IH.
  destruct (topic_of s); [now apply NoDup_bump | exact Ho].
Qed.

(** Every entry of the result is the entry found under its key, and the
    key is a topic of some submission. *)
Lemma fold_accumulate_entry (submissions : list Submission) (t : string)
  (v : V) :
  In (t, v) (fold_left accumulate submissions []) ->
  t <> ""%string
  /\ filter (on_topic t) submissions <> []
  /\ v = fold_left (fun v s => step s v) (filter (on_topic t) submissions)
           init.
Proof.
  intros Hin.
  assert (Hget : get t (fold_left accumulate submissions []) = Some v).
  { apply StatusProps.In_get_unique; [|exact Hin].
    apply fold_accumulate_NoDup. constructor. }
  assert (Ht : t <> ""%string).
  { intros ->. rewrite fold_accumulate_unnamed in Hget. discriminate. }
  split; [exact Ht|].
  rewrite (fold_accumulate t submissions Ht) in Hget. cbn [get] in Hget.
  destruct (filter (on_topic t) submissions); [discriminate|].
  split; [discriminate | congruence].
Qed.
End ByTopic.

Lemma append_each {A} (l : list A) :
  forall acc, fold_left (fun group s => group ++ [s])%list l acc
              = (acc ++ l)%list.
Proof.
  induction l as [|x rest IH]; intros acc; simpl.
  - now rewrite app_nil_r.
  - now rewrite IH, <- app_assoc.
Qed.

(** X24.  Under each named topic [groupByTopic] holds the submissions of that
    topic, in their order, and the topic is absent when there is none; no
    group is stored under the empty name. *)
Theorem groups_hold_the_submissions_of_their_topic
  (submissions : list Submission) (t : string) :
  get ""%string (groupByTopic submissions) = None
  /\ (t <> ""%string ->
      get t (groupByTopic submissions)
      = match filter (on_topic t) submissions with
        | [] => None
        | group => Some group
        end).
Proof.
  split.
  - unfold groupByTopic, group_submission.
    now rewrite (fold_accumulate_unnamed [] (fun s group => group ++ [s])%list).
  - intros Ht. unfold groupByTopic, group_submission.
    rewrite (fold_accumulate [] (fun s group => group ++ [s])%list t _ Ht).
    cbn [get].
    destruct (filter (on_topic t) submissions) as [|s group] eqn:E;
      [reflexivity|].
    now rewrite append_each.
Qed.

Lemma groups_hold_the_submissions_of_their_topic_witness :
  get "Physics"%string
    (groupByTopic
       [ Examples.attempt "Physics" 60 4 10 2;
         Examples.attempt "Biology" 50 5 10 1;
         Examples.attempt "Physics" 90 1 10 3 ])
  = Some [ Examples.attempt "Physics" 60 4 10 2;
           Examples.attempt "Physics" 90 1 10 3 ].
Proof.
  apply (groups_hold_the_submissions_of_their_topic
           [ Examples.attempt "Physics" 60 4 10 2;
             Examples.attempt "Biology" 50 5 10 1;
             Examples.attempt "Physics" 90 1 10 3 ] "Physics").
  discriminate.
Defined.

Lemma pooled_totals (field : Submission -> num) (group : list Submission) :
  forall st,
    fold_left
      (fun v s =>
         {| totalQuestions :=
              add (totalQuestions v) (to_num (total_questions s));
            correctAnswers :=
              add (correctAnswers v) (to_num (correct_answers s));
            attempts := S (attempts v) |})
      group st
    = {| totalQuestions :=
           fold_left add (map (fun s => to_num (total_questions s)) group)
             (totalQuestions st);
         correctAnswers :=
           fold_left add (map (fun s => to_num (correct_answers s)) group)
             (correctAnswers st);
         attempts := attempts st + List.length group |}.
Proof.
  induction group as [|s rest IH]; intros st.
  - destruct st. simpl. now rewrite Nat.add_0_r.
  - cbn [fold_left map List.length]. rewrite IH. cbn. f_equal. lia.
Qed.

(** X25.  Each row of the topic distribution pools the submissions of its
    topic: their number as attempts, the sum of their question counts, and
    100 times the sum of their correct answers over that sum. *)
Theorem distribution_pools_the_submissions_of_a_topic
  (submissions : list Submission) (row : TopicDistribution) :
  In row (prepareTopicDistributionData submissions) ->
  let group := filter (on_topic (dist_topic row)) submissions in
  dist_attempts row = attempts_on (dist_topic row) submissions
  /\ 1 <= dist_attempts row
  /\ dist_questions row = sum (map (fun s => to_num (total_questions s)) group)
  /\ dist_accuracy row
     = mul (div (sum (map (fun s => to_num (correct_answers s)) group))
                (dist_questions row))
           (of_Z 100).
Proof.
  unfold prepareTopicDistributionData, count_submission.
  intros Hin. apply in_map_iff in Hin.
  destruct Hin as ((t & st) & <- & Hin). cbn [fst snd dist_topic].
  apply (fold_accumulate_entry
           {| totalQuestions := zero; correctAnswers := zero; attempts := 0 |}
           (fun s v =>
              {| totalQuestions :=
                   add (totalQuestions v) (to_num (total_questions s));
                 correctAnswers :=
                   add (correctAnswers v) (to_num (correct_answers s));
                 attempts := S (attempts v) |})) in Hin.
  destruct Hin as (_ & Hne & ->).
  rewrite (pooled_totals (fun _ => zero)).
  cbn [totalQuestions correctAnswers attempts dist_attempts dist_questions
       dist_accuracy Nat.add].
  unfold attempts_on, sum.
  split; [reflexivity|]. split; [|split; reflexivity].
  destruct (filter (on_topic t) submissions); [contradiction | simpl; lia].
Qed.

Lemma distribution_pools_the_submissions_of_a_topic_witness :
  dist_attempts
    {| dist_topic := "Physics"; dist_accuracy := of_Z 75;
       dist_attempts := 2; dist_questions := of_Z 20 |}
  = attempts_on "Physics"
      [ Examples.attempt "Physics" 60 4 10 2;
        Examples.attempt "Biology" 50 5 10 1;
        Examples.attempt "Physics" 90 1 10 3 ].
Proof.
  apply (distribution_pools_the_submissions_of_a_topic
           [ Examples.attempt "Physics" 60 4 10 2;
             Examples.attempt "Biology" 50 5 10 1;
             Examples.attempt "Physics" 90 1 10 3 ]).
  left. vm_compute. reflexivity.
Defined.

End GroupingProps.

(* ================================================================== *)
(** ** Means, percentiles and normalised scores                       *)
(* ================================================================== *)

Module StatisticsProps.
Import JS Api DataProcessor Measures JSFacts IntFacts SortFacts TrendFacts.

Lemma sum_within (lo hi : Q) (values : list num) :
  Forall (within lo hi) values ->
  forall acc,
    exists s,
      fold_left add values (Fin acc) = Fin s
      /\ acc + inject_Z (Z.of_nat (List.length values)) * lo <= s
      /\ s <= acc + inject_Z (Z.of_nat (List.length values)) * hi.
Proof.
  induction 1 as [|x rest (q & -> & Hlo & Hhi) _ IH]; intros acc.
  - exists acc. split; [reflexivity|]. cbn [List.length Z.of_nat].
    change (inject_Z 0) with 0. split; lra.
  - cbn [fold_left]. rewrite add_Fin. unfold fin.
    destruct (IH (Qred (acc + q))) as (s & Hs & H1 & H2).
    exists s. split; [exact Hs|].
    rewrite Qred_correct in H1, H2.
    cbn [List.length]. rewrite Nat2Z.inj_succ. unfold Z.succ.
    rewrite inject_Z_plus. change (inject_Z 1) with 1.
    split; lra.
Qed.

Lemma mean_within (lo hi : Q) (values : list num) :
  Forall (within lo hi) values -> values <> [] ->
  within lo hi (calculateMean values).
Proof.
  intros Hall Hne. rewrite (mean_of_nonempty _ Hne).
  destruct (sum_within lo hi values Hall 0) as (s & Hs & H1 & H2).
  unfold sum, zero, of_nat, of_Z. change (inject_Z 0) with 0.
  rewrite Hs.
  assert (Hn : ~ inject_Z (Z.of_nat (List.length values)) == 0).
  { apply of_nat_nonzero. destruct values; [contradiction | discriminate]. }
  assert (Hpos : 0 < inject_Z (Z.of_nat (List.length values))).
  { change 0 with (inject_Z 0). rewrite <- Zlt_Qlt.
    destruct values; [contradiction | simpl; lia]. }
  rewrite (div_Fin _ _ Hn). eexists. split; [reflexivity|].
  rewrite Qred_correct. split.
  - apply Qle_shift_div_l; [exact Hpos | lra].
  - apply Qle_shift_div_r; [exact Hpos | lra].
Qed.

Lemma integers_within (lo hi : Z) (values : list num) :
  Forall (integer_between lo hi) values ->
  Forall (within (inject_Z lo) (inject_Z hi)) values.
Proof.
  intros H. eapply Forall_impl; [|exact H].
  intros x (z & -> & Hlo & Hhi). exists (inject_Z z).
  split; [reflexivity|]. rewrite <- !Zle_Qle. auto.
Qed.

(** X26.  The mean of no value is 0.  The mean of integers that lie
    between the integers lo and hi lies between lo and hi, when
    n * max(|lo|, |hi|) <= 2^53 so that their sum is computed without
    rounding. *)
Theorem mean_lies_within_the_data (lo hi : Z) (values : list num) :
  calculateMean [] = zero
  /\ (Forall (integer_between lo hi) values -> values <> [] ->
      (Z.of_nat (List.length values) * Z.max (Z.abs lo) (Z.abs hi)
       <= max_exact)%Z ->
      within (inject_Z lo) (inject_Z hi) (calculateMean values)).
Proof.
  split; [reflexivity|]. intros Hall Hne _.
  apply mean_within; [now apply integers_within | exact Hne].
Qed.

Lemma mean_lies_within_the_data_witness :
  within (inject_Z 1) (inject_Z 8) (calculateMean [of_Z 3; of_Z 4; of_Z 8]).
Proof.
  apply (mean_lies_within_the_data 1 8 [of_Z 3; of_Z 4; of_Z 8]).
  - repeat constructor; eexists; (split; [reflexivity|]); lia.
  - discriminate.
  - vm_compute. discriminate.
Defined.

Lemma Forall_window {A} (P : A -> Prop) (l : list A) (n m : nat) :
  Forall P l -> Forall P (skipn n (firstn m l)).
Proof.
  intros H.
  assert (Hfirst : Forall P (firstn m l)).
  { rewrite <- (firstn_skipn m l) in H. now apply Forall_app in H. }
  rewrite <- (firstn_skipn n (firstn m l)) in Hfirst.
  now apply Forall_app in Hfirst.
Qed.

(** X27.  With a window of at least one element, every moving average
    of integers that lie between the integers lo and hi lies between lo
    and hi, when n * max(|lo|, |hi|) <= 2^53 so that the sums are computed
    without rounding. *)
Theorem moving_average_stays_within_the_data
  (lo hi : Z) (data : list num) (windowSize : Z) :
  (1 <= windowSize)%Z ->
  Forall (integer_between lo hi) data ->
  (Z.of_nat (List.length data) * Z.max (Z.abs lo) (Z.abs hi)
   <= max_exact)%Z ->
  Forall (within (inject_Z lo) (inject_Z hi))
    (calculateMovingAverage data windowSize).
Proof.
  intros Hw Hall _. apply integers_within in Hall.
  rewrite moving_average_map.
  apply Forall_map, Forall_forall. intros i Hi.
  apply in_seq in Hi. destruct Hi as (_ & Hi). cbn [Nat.add] in Hi.
  destruct (window_is_suffix_of_prefix data windowSize i Hi) as (Hwin & Hlen).
  apply mean_within.
  - rewrite Hwin. now apply Forall_window.
  - intros E. rewrite E in Hlen. cbn [List.length] in Hlen.
    assert (1 <= Z.to_nat windowSize)%nat by lia. lia.
Qed.

Lemma moving_average_stays_within_the_data_witness :
  Forall (within (inject_Z 1) (inject_Z 8))
    (calculateMovingAverage [of_Z 1; of_Z 2; of_Z 3; of_Z 4; of_Z 8] 3).
Proof.
  apply moving_average_stays_within_the_data; [lia | |].
  - repeat constructor; eexists; (split; [reflexivity|]); lia.
  - vm_compute. discriminate.
Defined.

End StatisticsProps.

Module PercentileProps.
Import JS DataProcessor Measures JSFacts IntFacts SortFacts.

Lemma le_finite_trans (x y z : num) :
  is_finite y = true -> le x y = true -> le y z = true -> le x z = true.
Proof.
  destruct x as [a| | |], y as [b| | |], z as [c| | |];
    try discriminate; try reflexivity.
  intros _. rewrite !le_Fin. apply Qle_trans.
Qed.

Lemma ascending_from_head (rest : list num) :
  forall x,
    Forall (fun y => is_finite y = true) rest ->
    ascending (x :: rest) = true ->
    Forall (fun y => le x y = true) rest.
Proof.
  induction rest as [|y more IH]; intros x Hfin Hasc; [constructor|].
  apply ascending_cons in Hasc. destruct Hasc as (Hxy & Hasc).
  inversion Hfin as [|? ? Hy Hmore]; subst.
  constructor; [exact Hxy|].
  specialize (IH y Hmore Hasc).
  eapply Forall_impl; [|exact IH].
  intros z Hz. exact (le_finite_trans x y z Hy Hxy Hz).
Qed.

Section Counting.
Context {A : Type} (cmp : A -> A -> num) (p : A -> bool).

Lemma count_insert (x : A) (l : list A) :
  List.length (filter p (insert cmp x l))
  = List.length (filter p (x :: l)).
Proof.
  induction l as [|y rest IH]; [reflexivity|].
  cbn [insert]. destruct (before cmp x y); [reflexivity|].
  cbn [filter] in IH |- *.
  destruct (p y), (p x); cbn [List.length] in IH |- *; now rewrite IH.
Qed.

Lemma count_sort (l : list A) :
  List.length (filter p (sort cmp l)) = List.length (filter p l).
Proof.
  induction l as [|x rest IH]; [reflexivity|].
  cbn [sort fold_right]. fold (sort cmp rest). rewrite count_insert.
  cbn [filter]. destruct (p x); cbn [List.length]; now rewrite IH.
Qed.

Lemma existsb_insert (x : A) (l : list A) :
  existsb p (insert cmp x l) = existsb p (x :: l).
Proof.
  induction l as [|y rest IH]; [reflexivity|].
  cbn [insert]. destruct (before cmp x y); [reflexivity|].
  cbn [existsb] in IH |- *. rewrite IH.
  now destruct (p x), (p y).
Qed.

Lemma existsb_sort (l : list A) : existsb p (sort cmp l) = existsb p l.
Proof.
  induction l as [|x rest IH]; [reflexivity|].
  cbn [sort fold_right]. fold (sort cmp rest). rewrite existsb_insert.
  cbn [existsb]. now rewrite IH.
Qed.
End Counting.

(** In an ascending array of finite numbers, the first index holding a
    number that is at least [v] is the number of elements below [v]. *)
Lemma findIndex_ascending (v : Q) (l : list num) :
  Forall (fun y => is_finite y = true) l ->
  ascending l = true ->
  forall i,
    findIndex_from (fun item => ge item (Fin v)) l i
    = if existsb (fun item => ge item (Fin v)) l
      then (i + Z.of_nat
                  (List.length (filter (fun item => lt item (Fin v)) l)))%Z
      else (-1)%Z.
Proof.
  induction l as [|x rest IH]; intros Hfin Hasc i; [reflexivity|].
  inversion Hfin as [|? ? Hx Hrest]; subst.
  pose proof (ascending_from_head rest x Hrest Hasc) as Hhead.
  apply ascending_cons in Hasc. destruct Hasc as (_ & Hasc).
  cbn [findIndex_from existsb filter].
  destruct (finite_inv _ Hx) as (a & ->).
  destruct (ge (Fin a) (Fin v)) eqn:E; cbn [orb].
  - unfold ge in E. apply le_Fin in E.
    assert (Hx' : lt (Fin a) (Fin v) = false) by now apply lt_Fin_false.
    rewrite Hx'.
    assert (Hnone : filter (fun item => lt item (Fin v)) rest = []).
    { clear IH Hasc Hfin. revert Hrest.
      induction Hhead as [|y more Hy _ IHh]; intros Hrest; [reflexivity|].
      inversion Hrest as [|? ? Hfy Hmore]; subst.
      destruct (finite_inv _ Hfy) as (b & ->).
      cbn [filter]. apply le_Fin in Hy.
      assert (Hlt : lt (Fin b) (Fin v) = false)
        by (apply lt_Fin_false; lra).
      rewrite Hlt. now apply IHh. }
    rewrite Hnone. cbn [List.length Z.of_nat]. lia.
  - assert (Hx' : lt (Fin a) (Fin v) = true).
    { apply lt_Fin. unfold ge in E.
      destruct (Qlt_le_dec a v) as [H | H]; [exact H|].
      apply le_Fin in H. congruence. }
    rewrite Hx', (IH Hrest Hasc).
    destruct (existsb _ rest); [|reflexivity].
    cbn [List.length]. lia.
Qed.

(** X28.  On finite data the percentile of a finite value is 100 times the
    share of the data below it; a value above every datum gets the index
    -1 of [findIndex], hence the negative result -100/n.  An empty data
    set gives 0. *)
Theorem percentile_is_the_share_of_smaller_values
  (value : Q) (dataset : list num) :
  calculatePercentile (Fin value) [] = zero
  /\ (Forall (fun x => is_finite x = true) dataset -> dataset <> [] ->
      calculatePercentile (Fin value) dataset
      = mul (div (if existsb (fun item => ge item (Fin value)) dataset
                  then of_nat (List.length
                                 (filter (fun item => lt item (Fin value))
                                    dataset))
                  else of_Z (-1))
                 (of_nat (List.length dataset)))
            (of_Z 100)).
Proof.
  split; [reflexivity|]. intros Hfin Hne. unfold calculatePercentile.
  destruct (List.length dataset =? 0)%nat eqn:E.
  { apply Nat.eqb_eq in E. destruct dataset; [contradiction | discriminate]. }
  assert (Hvalid : Forall (fun a : num => is_nan ((fun x => x) a) = false)
                     dataset).
  { eapply Forall_impl; [|exact Hfin]. intros x Hx. now destruct x. }
  pose proof (sort_ascending (fun x : num => x) dataset Hvalid) as Hasc.
  rewrite map_id in Hasc.
  pose proof (sort_length (fun x : num => x) dataset) as Hlen.
  cbv beta in Hasc, Hlen.
  assert (Hsorted : Forall (fun y => is_finite y = true)
                      (sort (fun a b => sub a b) dataset)).
  { apply Forall_forall. intros y Hy.
    apply (proj1 (sort_In (fun x : num => x) y dataset)) in Hy.
    rewrite Forall_forall in Hfin. now apply Hfin. }
  unfold findIndex.
  rewrite (findIndex_ascending value _ Hsorted Hasc 0), Hlen.
  rewrite existsb_sort, count_sort.
  destruct (existsb _ dataset); reflexivity.
Qed.

Lemma percentile_is_the_share_of_smaller_values_witness :
  calculatePercentile (Fin 9) [of_Z 3; of_Z 1; of_Z 2]
  = mul (div (of_Z (-1)) (of_nat 3)) (of_Z 100).
Proof.
  apply (percentile_is_the_share_of_smaller_values 9
           [of_Z 3; of_Z 1; of_Z 2]).
  - repeat constructor.
  - discriminate.
Defined.

Lemma max_fold (l : list num) :
  Forall (fun x => is_finite x = true) l ->
  forall a,
    exists M,
      fold_left Math_max l (Fin a) = Fin M
      /\ a <= M
      /\ Forall (fun x => le x (Fin M) = true) l.
Proof.
  induction 1 as [|x rest Hx _ IH]; intros a.
  - exists a. split; [reflexivity|]. split; [lra | constructor].
  - destruct (finite_inv _ Hx) as (b & ->). cbn [fold_left].
    change (Math_max (Fin a) (Fin b))
      with (if lt (Fin a) (Fin b) then Fin b else Fin a).
    destruct (lt (Fin a) (Fin b)) eqn:E.
    + apply lt_Fin in E. destruct (IH b) as (M & HM & Hb & Hall).
      exists M. split; [exact HM|]. split; [lra|].
      constructor; [now apply le_Fin | exact Hall].
    + apply lt_Fin_false in E. destruct (IH a) as (M & HM & Ha & Hall).
      exists M. split; [exact HM|]. split; [lra|].
      constructor; [apply le_Fin; lra | exact Hall].
Qed.

Lemma min_fold (l : list num) :
  Forall (fun x => is_finite x = true) l ->
  forall a,
    exists m,
      fold_left Math_min l (Fin a) = Fin m
      /\ m <= a
      /\ Forall (fun x => le (Fin m) x = true) l.
Proof.
  induction 1 as [|x rest Hx _ IH]; intros a.
  - exists a. split; [reflexivity|]. split; [lra | constructor].
  - destruct (finite_inv _ Hx) as (b & ->). cbn [fold_left].
    change (Math_min (Fin a) (Fin b))
      with (if lt (Fin b) (Fin a) then Fin b else Fin a).
    destruct (lt (Fin b) (Fin a)) eqn:E.
    + apply lt_Fin in E. destruct (IH b) as (m & Hm & Hb & Hall).
      exists m. split; [exact Hm|]. split; [lra|].
      constructor; [now apply le_Fin | exact Hall].
    + apply lt_Fin_false in E. destruct (IH a) as (m & Hm & Ha & Hall).
      exists m. split; [exact Hm|]. split; [lra|].
      constructor; [apply le_Fin; lra | exact Hall].
Qed.

(** The extremes of a non-empty array of finite numbers bound all of
    it. *)
Lemma extremes (scores : list num) :
  Forall (fun x => is_finite x = true) scores -> scores <> [] ->
  exists m M,
    min_of scores = Fin m /\ max_of scores = Fin M /\ m <= M
    /\ Forall (fun x => exists q, x = Fin q /\ m <= q /\ q <= M) scores.
Proof.
  intros Hfin Hne. destruct scores as [|x rest]; [contradiction|].
  inversion Hfin as [|? ? Hx Hrest]; subst.
  destruct (finite_inv _ Hx) as (a & ->).
  destruct (max_fold rest Hrest a) as (M & HM & HaM & HallM).
  destruct (min_fold rest Hrest a) as (m & Hm & Hma & Hallm).
  exists m, M. split; [exact Hm|]. split; [exact HM|]. split; [lra|].
  constructor.
  - exists a. split; [reflexivity|]. split; assumption.
  - apply Forall_forall. intros y Hy.
    rewrite Forall_forall in HallM, Hallm, Hrest.
    destruct (finite_inv _ (Hrest y Hy)) as (b & ->).
    exists b. split; [reflexivity|].
    split; apply le_Fin; [now apply Hallm | now apply HallM].
Qed.

(** With exact differences and quotients: a spread maps into [0, 100],
    no spread gives 0/0. *)
Lemma normalized_range (scores : list num) :
  Forall (fun x => is_finite x = true) scores ->
  (lt (min_of scores) (max_of scores) = true ->
   Forall (within 0 100) (normalizeScores scores))
  /\ (scores <> [] -> lt (min_of scores) (max_of scores) = false ->
      Forall (fun y => y = NaN) (normalizeScores scores)).
Proof.
  intros Hfin. split.
  - intros Hlt. destruct scores as [|x rest]; [constructor|].
    destruct (extremes (x :: rest) Hfin) as (m & M & Hm & HM & _ & Hall);
      [discriminate|].
    unfold normalizeScores. rewrite Hm, HM in *. apply lt_Fin in Hlt.
    apply Forall_map. eapply Forall_impl; [|exact Hall].
    intros y (q & -> & H1 & H2). cbv beta.
    rewrite !sub_Fin. unfold fin.
    assert (Hd : ~ Qred (M - m) == 0) by (rewrite Qred_correct; lra).
    rewrite (div_Fin _ _ Hd). unfold fin, of_Z. rewrite mul_Fin.
    eexists. split; [reflexivity|].
    rewrite !Qred_correct. change (inject_Z 100) with 100.
    assert (Hpos : 0 < M - m) by lra.
    assert (Hr : 0 <= (q - m) / (M - m) <= 1).
    { split.
      - apply Qle_shift_div_l; [exact Hpos | lra].
      - apply Qle_shift_div_r; [exact Hpos | lra]. }
    split; lra.
  - intros Hne Hlt.
    destruct (extremes scores Hfin Hne) as (m & M & Hm & HM & HmM & Hall).
    unfold normalizeScores. rewrite Hm, HM in *. apply lt_Fin_false in Hlt.
    apply Forall_map. eapply Forall_impl; [|exact Hall].
    intros y (q & -> & H1 & H2). cbv beta.
    rewrite !sub_Fin. unfold fin, div.
    assert (Hd : Qeq_bool (Qred (M - m)) 0 = true).
    { apply Qeq_bool_iff. rewrite Qred_correct. lra. }
    rewrite Hd.
    assert (Hn : sgn (Qred (q - m)) = Eq).
    { unfold sgn. apply Qeq_alt. rewrite Qred_correct. lra. }
    now rewrite Hn.
Qed.

(** X29.  Scores of magnitude at most 1e100, so that the range max - min
    is finite, whose smallest is below the largest are mapped into
    [0, 100]; when all scores are equal the range is 0 and every result
    is NaN, the quotient 0/0. *)
Theorem normalized_scores_need_a_spread (scores : list num) :
  Forall far_from_overflow scores ->
  (lt (min_of scores) (max_of scores) = true ->
   Forall (within 0 100) (normalizeScores scores))
  /\ (scores <> [] -> lt (min_of scores) (max_of scores) = false ->
      Forall (fun y => y = NaN) (normalizeScores scores)).
Proof.
  intros H. apply normalized_range.
  eapply Forall_impl; [|exact H]. now intros x (q & -> & _).
Qed.

Lemma normalized_scores_need_a_spread_witness :
  Forall (within 0 100) (normalizeScores [of_Z 1; of_Z 3; of_Z 2])
  /\ Forall (fun y => y = NaN) (normalizeScores [of_Z 7; of_Z 7]).
Proof.
  split.
  - apply (normalized_scores_need_a_spread [of_Z 1; of_Z 3; of_Z 2]).
    + repeat constructor; eexists; (split; [reflexivity|]);
        split; vm_compute; discriminate.
    + reflexivity.
  - apply (normalized_scores_need_a_spread [of_Z 7; of_Z 7]).
    + repeat constructor; eexists; (split; [reflexivity|]);
        split; vm_compute; discriminate.
    + discriminate.
    + reflexivity.
Defined.

End PercentileProps.

(* ================================================================== *)
(** ** Agreement between the parts of the analyzer's insights         *)
(* ================================================================== *)

Module InsightProps.
Import JS Data QuizAnalyzer JSFacts.

Lemma filter_of_map {A B} (f : A -> B) (p : B -> bool) (l : list A) :
  filter p (map f l) = map f (filter (fun x => p (f x)) l).
Proof.
  induction l as [|x rest IH]; simpl; [reflexivity|].
  destruct (p (f x)); simpl; now rewrite IH.
Qed.

(** X30.  The parts of [generateInsights] name the same topics: the weak
    topics, the conceptual gaps and the recommended actions list the weak
    topics in the same order; the topic insights flagged for focus are the
    improvement areas of the analysis, and they include every weak topic;
    the trends are those of the analysis. *)
Theorem insights_agree_on_weak_topics
  (currentQuiz : Quiz) (submission : Submission)
  (history : list HistoryEntry) :
  let report := generateInsights currentQuiz submission history in
  let analysis := generateAnalysis currentQuiz submission history in
  let weak := identifyWeakTopics currentQuiz submission in
  weak_topics (weakAreas report) = weak
  /\ map gap_topic (conceptualGaps (weakAreas report)) = weak
  /\ map recommendation_topic (recommendedActions (weakAreas report)) = weak
  /\ map insight_topic (filter recommendedFocus (topicInsights report))
     = improvementAreas (insights analysis)
  /\ incl weak (improvementAreas (insights analysis))
  /\ insight_trends report = performanceTrend (insights analysis).
Proof.
  cbv zeta. unfold generateInsights, generateAnalysis.
  cbn [weakAreas weak_topics conceptualGaps recommendedActions topicInsights
       insight_trends insights improvementAreas performanceTrend
       performance weakTopics analyzePerformance].
  split; [reflexivity|]. split.
  { unfold identifyConceptualGaps. rewrite map_map. cbn [gap_topic].
    apply map_id. }
  split.
  { unfold generateRecommendations. rewrite map_map.
    cbn [recommendation_topic]. apply map_id. }
  split.
  { unfold generateTopicWiseInsights, identifyImprovementAreas.
    rewrite filter_of_map, map_map. reflexivity. }
  split; [|reflexivity].
  intros t Ht. unfold identifyWeakTopics in Ht.
  unfold identifyImprovementAreas.
  apply in_map_iff in Ht. destruct Ht as (entry & <- & Hin).
  apply filter_In in Hin. destruct Hin as (Hin & Hlt).
  apply in_map. apply filter_In. split; [exact Hin|].
  now apply StatusProps.below_06_below_07.
Qed.

End InsightProps.
